(** * Currency converter: rate providers, cache protocol, conversion and history

    A shallow embedding of [main.py] (the classes [OnlineRateProvider],
    [OfflineRateProvider], [HistoryManager] and [CurrencyConverter], and
    the handlers of [UserInterface]) together with the properties of its
    specification and further properties of the code.

    Modelling decisions, all of them visible in the definitions below:

    - a Python [float] is an IEEE 754 binary64 value, embedded as the
      Standard Library's [spec_float] with precision 53 and exponent bound
      1024.  The integer literals [0] and [1] that the providers return are
      embedded as the floats of the same value (Python compares and
      multiplies them as such);
    - a rate table is a table of numbers: its entries are floats.  The code
      stores the table of the answer or of the cache file as it finds it;
      an entry that is no number is outside this development, and nothing
      below says what the code does with one;
    - a [str] is the sequence of its UTF-8 bytes; [float] and [strptime]
      read its code points, with the white space and the decimal digits of
      Unicode; [strftime] writes the year as the C library of Linux does,
      without padding;
    - a [dict] with string keys is a [gmap string _];
    - the cache file, the HTTP answer and the clock are inputs of the
      operations that use them; an exception that the code catches is a
      [None] that the enclosing [try] turns into its handler's result;
    - [json.dump] followed by [json.load] is the identity on the cache
      document, so the file holds the document itself;
    - of [UserInterface], the state that its handlers read and write: the
      two amount fields, the selections, the labels, the lines of the
      history panel and the tree of widgets.  A handler and the body of a
      refresh thread are functions on that state, and they run one at a
      time.  The fixed texts of the labels are constructors. *)

From Stdlib Require Import ZArith Lia Bool List String Ascii.
From Stdlib Require Import Floats.SpecFloat.
From Stdlib Require Import DecimalString.
From stdpp Require Import gmap strings list fin_maps.

Local Open Scope Z_scope.

(* ===================================================================== *)
(** ** Python's texts *)
(* ===================================================================== *)

(** A [str] is held as its UTF-8 bytes.  The builtins that read numbers
    work on its code points; the two tables are those of Unicode 14.0,
    which CPython 3.11 has. *)
Module Unicode.

Definition byte (c : ascii) : Z := Z.of_nat (nat_of_ascii c).

Definition chr (n : Z) : ascii := ascii_of_nat (Z.to_nat n).

(** The six bits of a continuation byte. *)
Definition continuation (c : ascii) : option Z :=
  let n := byte c in
  if (128 <=? n) && (n <? 192) then Some (n - 128) else None.

(** The code points of a text; [None] for bytes that are no UTF-8, which
    are the bytes of no [str]. *)
Fixpoint decode (s : list ascii) : option (list Z) :=
  match s with
  | [] => Some []
  | b0 :: s1 =>
      let n0 := byte b0 in
      if n0 <? 128 then cons n0 <$> decode s1
      else if n0 <? 192 then None
      else if n0 <? 224 then
        match s1 with
        | b1 :: s2 =>
            match continuation b1 with
            | Some n1 =>
                let c := (n0 - 192) * 64 + n1 in
                if 128 <=? c then cons c <$> decode s2 else None
            | None => None
            end
        | _ => None
        end
      else if n0 <? 240 then
        match s1 with
        | b1 :: b2 :: s3 =>
            match continuation b1, continuation b2 with
            | Some n1, Some n2 =>
                let c := ((n0 - 224) * 64 + n1) * 64 + n2 in
                if (2048 <=? c) && negb ((55296 <=? c) && (c <=? 57343))
                then cons c <$> decode s3
                else None
            | _, _ => None
            end
        | _ => None
        end
      else if n0 <? 248 then
        match s1 with
        | b1 :: b2 :: b3 :: s4 =>
            match continuation b1, continuation b2, continuation b3 with
            | Some n1, Some n2, Some n3 =>
                let c := (((n0 - 240) * 64 + n1) * 64 + n2) * 64 + n3 in
                if (65536 <=? c) && (c <=? 1114111)
                then cons c <$> decode s4
                else None
            | _, _, _ => None
            end
        | _ => None
        end
      else None
  end.

(** [str.isspace] of one character, which is also [\s] of [re]. *)
Definition isspace (c : Z) : bool :=
  (9 <=? c) && (c <=? 13) || (28 <=? c) && (c <=? 32)
  || (c =? 133) || (c =? 160) || (c =? 5760)
  || (8192 <=? c) && (c <=? 8202)
  || (c =? 8232) || (c =? 8233) || (c =? 8239) || (c =? 8287) || (c =? 12288).

(** The characters of the category [Nd] that stand for zero; the nine
    characters behind each of them stand for one to nine. *)
Definition zeros : list Z :=
  [
    48; 1632; 1776; 1984; 2406; 2534; 2662; 2790; 2918; 3046; 3174; 3302;
    3430; 3558; 3664; 3792; 3872; 4160; 4240; 6112; 6160; 6470; 6608; 6784;
    6800; 6992; 7088; 7232; 7248; 42528; 43216; 43264; 43472; 43504; 43600;
    44016; 65296; 66720; 68912; 69734; 69872; 69942; 70096; 70384; 70736;
    70864; 71248; 71360; 71472; 71904; 72016; 72784; 73040; 73120; 92768;
    92864; 93008; 120782; 120792; 120802; 120812; 120822; 123200; 123632;
    125264; 130032
  ].

(** The value of a decimal digit, which [\d] of [re] matches. *)
Definition decimal (c : Z) : option Z :=
  match find (fun z => (z <=? c) && (c <=? z + 9)) zeros with
  | Some z => Some (c - z)
  | None => None
  end.

Definition isdecimal (c : Z) : bool :=
  match decimal c with
  | Some _ => true
  | None => false
  end.

Definition isascii (s : list Z) : bool := forallb (fun c => c <? 128) s.

End Unicode.

(* ===================================================================== *)
(** ** Python's numbers *)
(* ===================================================================== *)

Module Py.

Definition prec : Z := 53.
Definition emax : Z := 1024.

Abbreviation float := spec_float.

Definition zero : float := S754_zero false.
Definition one : float := S754_finite false 4503599627370496 (-52).
Definition inf : float := S754_infinity false.
Definition nan : float := S754_nan.

Definition add : float -> float -> float := SFadd prec emax.
Definition sub : float -> float -> float := SFsub prec emax.
Definition mul : float -> float -> float := SFmul prec emax.
(** IEEE division; Python's [/] is [truediv] below. *)
Definition div : float -> float -> float := SFdiv prec emax.

Definition eqb : float -> float -> bool := SFeqb.
Definition ltb : float -> float -> bool := SFltb.
Definition leb : float -> float -> bool := SFleb.
(** [x != y] *)
Definition neqb (x y : float) : bool := negb (eqb x y).

(** [x / y]: raises [ZeroDivisionError] ([None]) when [y == 0]. *)
Definition truediv (x y : float) : option float :=
  if eqb y zero then None else Some (div x y).

Definition is_finite (x : float) : bool :=
  match x with
  | S754_zero _ | S754_finite _ _ _ => true
  | S754_infinity _ | S754_nan => false
  end.

(** *** [float(text)]

    A text that is not ASCII is first made ASCII: a white space of Unicode
    becomes a space, a decimal digit of Unicode becomes its ASCII digit,
    and the text ends with [?] at the first other character that is not
    ASCII.  Then the grammar of the builtin: surrounding ASCII white space
    is stripped, then an optional sign and either [inf], [infinity] or
    [nan] in any letter case, or a decimal number with an optional
    fraction and exponent, where single underscores may separate digits.
    The decimal value is rounded to the nearest binary64 value, ties to
    even.  [None] is [ValueError]. *)

(** [Py_ISSPACE]: the white space that [float] strips. *)
Definition is_space (c : ascii) : bool :=
  let n := nat_of_ascii c in
  ((9 <=? n) && (n <=? 13) || (n =? 32))%nat.

Definition is_digit (c : ascii) : bool :=
  let n := nat_of_ascii c in ((48 <=? n) && (n <=? 57))%nat.

Definition digit_val (c : ascii) : nat := (nat_of_ascii c - 48)%nat.

Definition lower (c : ascii) : ascii :=
  let n := nat_of_ascii c in
  if ((65 <=? n) && (n <=? 90))%nat then ascii_of_nat (n + 32) else c.

Fixpoint lstrip (s : list ascii) : list ascii :=
  match s with
  | c :: s' => if is_space c then lstrip s' else s
  | [] => []
  end.

Definition strip (s : list ascii) : list ascii :=
  rev (lstrip (rev (lstrip s))).

(** An optional sign: [true] for [-]. *)
Definition sign (s : list ascii) : bool * list ascii :=
  match s with
  | "-"%char :: s' => (true, s')
  | "+"%char :: s' => (false, s')
  | _ => (false, s)
  end.

(** [(["_"] digit)*], accumulating the decimal value and the digit count. *)
Fixpoint digits_tail (acc : Z) (n : Z) (s : list ascii) : Z * Z * list ascii :=
  match s with
  | c :: s' =>
      if is_digit c then digits_tail (10 * acc + Z.of_nat (digit_val c)) (n + 1) s'
      else if Ascii.eqb c "_" then
        match s' with
        | d :: s'' =>
            if is_digit d
            then digits_tail (10 * acc + Z.of_nat (digit_val d)) (n + 1) s''
            else (acc, n, s)
        | [] => (acc, n, s)
        end
      else (acc, n, s)
  | [] => (acc, n, s)
  end.

(** [digit (["_"] digit)*] *)
Definition digitpart (acc : Z) (s : list ascii) : option (Z * Z * list ascii) :=
  match s with
  | c :: s' =>
      if is_digit c
      then Some (digits_tail (10 * acc + Z.of_nat (digit_val c)) 1 s')
      else None
  | [] => None
  end.

(** A decimal number as a mantissa and a power of ten. *)
Definition decimal (s : list ascii) : option (Z * Z) :=
  let '(m1, n1, r1) :=
    match digitpart 0 s with Some x => x | None => (0, 0, s) end in
  let '(m2, n2, r2) :=
    match r1 with
    | "."%char :: r =>
        match digitpart m1 r with Some x => x | None => (m1, 0, r) end
    | _ => (m1, 0, r1)
    end in
  if n1 + n2 =? 0 then None
  else
    match r2 with
    | [] => Some (m2, - n2)
    | c :: r =>
        if Ascii.eqb (lower c) "e" then
          let '(neg, r') := sign r in
          match digitpart 0 r' with
          | Some (x, _, []) => Some (m2, (if neg then - x else x) - n2)
          | _ => None
          end
        else None
    end.

(** [m * 10^e], correctly rounded. *)
Definition of_decimal (m e : Z) : float :=
  match m with
  | Zpos p =>
      match e with
      | Zneg q => div (S754_finite false p 0) (S754_finite false (10 ^ q) 0)
      | Z0 => div (S754_finite false p 0) (S754_finite false 1 0)
      | Zpos q => div (S754_finite false (p * 10 ^ q) 0) (S754_finite false 1 0)
      end
  | _ => zero
  end.

Definition float_of_chars (s : list ascii) : option float :=
  let '(neg, r) := sign (strip s) in
  let name := map lower r in
  let signed x := if neg then SFopp x else x in
  if bool_decide (name = list_ascii_of_string "inf")
     || bool_decide (name = list_ascii_of_string "infinity")
  then Some (signed inf)
  else if bool_decide (name = list_ascii_of_string "nan") then Some nan
  else
    match decimal r with
    | Some (m, e) => Some (signed (of_decimal m e))
    | None => None
    end.

(** [_PyUnicode_TransformDecimalAndSpaceToASCII] on a text that is not
    ASCII. *)
Fixpoint transform (s : list Z) : list ascii :=
  match s with
  | [] => []
  | c :: s' =>
      if c <? 127 then Unicode.chr c :: transform s'
      else if Unicode.isspace c then " "%char :: transform s'
      else
        match Unicode.decimal c with
        | Some d => Unicode.chr (48 + d) :: transform s'
        | None => ["?"%char]
        end
  end.

Definition to_ascii (s : list Z) : list ascii :=
  if Unicode.isascii s then map Unicode.chr s else transform s.

Definition float_of_str (s : string) : option float :=
  match Unicode.decode (list_ascii_of_string s) with
  | Some text => float_of_chars (to_ascii text)
  | None => None
  end.

(** A float literal of the source; [nan] when the text is no number. *)
Definition lit (s : string) : float :=
  match float_of_str s with Some x => x | None => nan end.

(** [2 ** -49], eight units in the last place of [1.0]. *)
Definition tolerance : float := lit "1.7763568394002505e-15".

(** [1 - tolerance <= x <= 1 + tolerance] *)
Definition near_one (x : float) : bool :=
  leb (sub one tolerance) x && leb x (add one tolerance).

(** The number of low bits that rounding drops from [m * 2^e]. *)
Definition dropped (m e : Z) : Z :=
  Z.max 0 (fexp prec emax (Zdigits2 m + e) - e).

(** The exponent at which [SFdiv] takes the integer quotient of
    [m1 * 2^e1] by [m2 * 2^e2]. *)
Definition div_exponent (m1 e1 m2 e2 : Z) : Z :=
  Z.min (fexp prec emax (Zdigits2 m1 + e1 - (Zdigits2 m2 + e2))) (e1 - e2).

End Py.

(* ===================================================================== *)
(** ** [datetime], [strftime] and [strptime] *)
(* ===================================================================== *)

Module Datetime.

Record t : Type := mk
  { year : Z; month : Z; day : Z;
    hour : Z; minute : Z; second : Z; microsecond : Z }.

Definition is_leap (y : Z) : bool :=
  (y mod 4 =? 0) && (negb (y mod 100 =? 0) || (y mod 400 =? 0)).

Definition days_in_month (y m : Z) : Z :=
  match m with
  | 2 => if is_leap y then 29 else 28
  | 4 | 6 | 9 | 11 => 30
  | _ => 31
  end.

(** The values the [datetime] constructor accepts. *)
Definition valid (d : t) : bool :=
  (1 <=? year d) && (year d <=? 9999)
  && (1 <=? month d) && (month d <=? 12)
  && (1 <=? day d) && (day d <=? days_in_month (year d) (month d))
  && (0 <=? hour d) && (hour d <? 24)
  && (0 <=? minute d) && (minute d <? 60)
  && (0 <=? second d) && (second d <? 60)
  && (0 <=? microsecond d) && (microsecond d <? 1000000).

(** A value of the system clock: valid, with a year of four digits. *)
Definition clock (d : t) : bool := valid d && (1000 <=? year d).

(** What the seconds format keeps of a value. *)
Definition truncate (d : t) : t :=
  mk (year d) (month d) (day d) (hour d) (minute d) (second d) 0.

Definition digit_char (n : Z) : ascii :=
  ascii_of_nat (Z.to_nat (48 + n mod 10)).

Definition pad2 (n : Z) : list ascii :=
  [digit_char (n / 10); digit_char n].

(** The four digits of a year from 1000 on. *)
Definition pad4 (n : Z) : list ascii :=
  [digit_char (n / 1000); digit_char (n / 100); digit_char (n / 10); digit_char n].

(** [%Y] as the C library of Linux writes it: the year without padding,
    so with fewer than four digits below the year 1000. *)
Definition year_text (y : Z) : list ascii :=
  list_ascii_of_string (NilZero.string_of_uint (N.to_uint (Z.to_N y))).

(** [d.strftime("%Y-%m-%d %H:%M:%S")] *)
Definition strftime_iso (d : t) : string :=
  string_of_list_ascii
    (year_text (year d) ++ "-"%char :: pad2 (month d) ++ "-"%char :: pad2 (day d)
     ++ " "%char :: pad2 (hour d) ++ ":"%char :: pad2 (minute d)
     ++ ":"%char :: pad2 (second d)).

(** [d.strftime("%d.%m.%Y %H:%M")] *)
Definition strftime_dmy (d : t) : string :=
  string_of_list_ascii
    (pad2 (day d) ++ "."%char :: pad2 (month d) ++ "."%char :: year_text (year d)
     ++ " "%char :: pad2 (hour d) ++ ":"%char :: pad2 (minute d)).

(** *** [datetime.strptime(text, "%Y-%m-%d %H:%M:%S")]

    Each directive is the regular expression of [_strptime], matched
    against the code points of the text; its alternatives are tried in
    order, two characters before one.  [\d] is any decimal digit of
    Unicode and [\s] any white space of Unicode, a class such as [[0-2]]
    holds ASCII digits only; [int] gives a digit its value. *)

Definition dv (c : Z) : Z := default 0 (Unicode.decimal c).

(** The class [[lo-hi]] of ASCII digits. *)
Definition in_range (lo hi : Z) (c : Z) : bool :=
  (48 + lo <=? c) && (c <=? 48 + hi).

(** A directive with alternatives of two characters, [two], and of one
    character, [one]. *)
Definition directive (two : Z -> Z -> bool) (one : Z -> bool)
    (s : list Z) : option (Z * list Z) :=
  match s with
  | c1 :: c2 :: r =>
      if two c1 c2 then Some (10 * dv c1 + dv c2, r)
      else if one c1 then Some (dv c1, c2 :: r)
      else None
  | [c1] => if one c1 then Some (dv c1, []) else None
  | [] => None
  end.

(** [%Y]: [\d\d\d\d] *)
Definition dir_Y (s : list Z) : option (Z * list Z) :=
  match s with
  | c1 :: c2 :: c3 :: c4 :: r =>
      if Unicode.isdecimal c1 && Unicode.isdecimal c2
         && Unicode.isdecimal c3 && Unicode.isdecimal c4
      then Some (1000 * dv c1 + 100 * dv c2 + 10 * dv c3 + dv c4, r)
      else None
  | _ => None
  end.

(** [%m]: [1[0-2]|0[1-9]|[1-9]] *)
Definition dir_m : list Z -> option (Z * list Z) :=
  directive
    (fun a b => in_range 1 1 a && in_range 0 2 b || in_range 0 0 a && in_range 1 9 b)
    (in_range 1 9).

(** [%d]: [3[0-1]|[1-2]\d|0[1-9]|[1-9]| [1-9]] *)
Definition dir_d (s : list Z) : option (Z * list Z) :=
  match
    directive
      (fun a b => in_range 3 3 a && in_range 0 1 b
                  || in_range 1 2 a && Unicode.isdecimal b
                  || in_range 0 0 a && in_range 1 9 b)
      (in_range 1 9) s
  with
  | Some x => Some x
  | None =>
      match s with
      | 32 :: c :: r => if in_range 1 9 c then Some (dv c, r) else None
      | _ => None
      end
  end.

(** [%H]: [2[0-3]|[0-1]\d|\d] *)
Definition dir_H : list Z -> option (Z * list Z) :=
  directive
    (fun a b => in_range 2 2 a && in_range 0 3 b || in_range 0 1 a && Unicode.isdecimal b)
    Unicode.isdecimal.

(** [%M]: [[0-5]\d|\d] *)
Definition dir_M : list Z -> option (Z * list Z) :=
  directive (fun a b => in_range 0 5 a && Unicode.isdecimal b) Unicode.isdecimal.

(** [%S]: [6[0-1]|[0-5]\d|\d] *)
Definition dir_S : list Z -> option (Z * list Z) :=
  directive
    (fun a b => in_range 6 6 a && in_range 0 1 b || in_range 0 5 a && Unicode.isdecimal b)
    Unicode.isdecimal.

(** A literal character of the format. *)
Definition expect (c : ascii) (s : list Z) : option (list Z) :=
  match s with
  | c' :: r => if Unicode.byte c =? c' then Some r else None
  | [] => None
  end.

Fixpoint skip_spaces (s : list Z) : list Z :=
  match s with
  | c :: s' => if Unicode.isspace c then skip_spaces s' else s
  | [] => []
  end.

(** White space of the format: [\s+]. *)
Definition spaces (s : list Z) : option (list Z) :=
  match s with
  | c :: r => if Unicode.isspace c then Some (skip_spaces r) else None
  | [] => None
  end.

Definition strptime_iso (text : string) : option t :=
  s ← Unicode.decode (list_ascii_of_string text);
  '(ye, s) ← dir_Y s;
  s ← expect "-" s;
  '(mo, s) ← dir_m s;
  s ← expect "-" s;
  '(da, s) ← dir_d s;
  s ← spaces s;
  '(ho, s) ← dir_H s;
  s ← expect ":" s;
  '(mi, s) ← dir_M s;
  s ← expect ":" s;
  '(se, s) ← dir_S s;
  match s with
  | [] =>
      let r := mk ye mo da ho mi se 0 in
      if valid r then Some r else None
  | _ :: _ => None
  end.

End Datetime.

(* ===================================================================== *)
(** ** Rate tables, the cache file and the remote source *)
(* ===================================================================== *)

Global Instance float_eq_dec : EqDecision spec_float.
Proof. solve_decision. Defined.

Global Instance datetime_eq_dec : EqDecision Datetime.t.
Proof. solve_decision. Defined.

(** [rates]: currency code to multiplier, for a table of numbers.  An
    integer of the JSON text that a float holds exactly is that float. *)
Abbreviation table := (gmap string spec_float).

(** [rates.get(code, 0)] *)
Definition entry (rates : table) (code : string) : spec_float :=
  default Py.zero (rates !! code).

(** The cross rate through the shared base: [rate(y) / rate(x)], and [0]
    when either is [0]. *)
Definition cross (rates : table) (x y : string) : spec_float :=
  if Py.eqb (entry rates x) Py.zero || Py.eqb (entry rates y) Py.zero
  then Py.zero
  else Py.div (entry rates y) (entry rates x).

Module Cache.

(** The JSON object of the cache file; a field may be absent. *)
Record document : Type := mk
  { rates : option table;
    base_currency : option string;
    last_update : option string }.

(** [exchange_rates_cache.json] as [load_cache] finds it. *)
Inductive file : Type :=
| Missing                       (* [os.path.exists] is false *)
| Unreadable                    (* [open] or [json.load] raises, or no object *)
| Json (d : document).

(** How the write of [save_cache] ends. *)
Inductive write : Type :=
| Written                       (* the document is on disk *)
| OpenFails                     (* [open] raises: the file is as before *)
| DumpFails.                    (* [json.dump] raises: a truncated file *)

End Cache.

Module Http.

(** [response.json()] and [data['rates']] *)
Inductive body : Type :=
| NotJson                       (* [response.json()] raises *)
| NoRates                       (* [data['rates']] raises *)
| Rates (r : table).

(** [requests.get(url, timeout=10)] *)
Inductive result : Type :=
| Raises                        (* timeout, connection error *)
| Response (status_code : Z) (b : body).

End Http.

(* ===================================================================== *)
(** ** The providers *)
(* ===================================================================== *)

(** The abstract class [ExchangeRateProvider], over tables of numbers.
    [get_exchange_rate] is [None] when the call raises. *)
Class ExchangeRateProvider (P : Type) : Type :=
  { get_exchange_rate : P -> string -> string -> option spec_float;
    get_all_rates : P -> table }.

Module Online.

Record t : Type := mk
  { rates : table;
    base_currency : string;
    last_update : option Datetime.t }.

(** [__init__] *)
Definition init : t := mk ∅ "USD" None.

(** The document [save_cache] builds. *)
Definition cache_data (self : t) : Cache.document :=
  Cache.mk (Some (rates self)) (Some (base_currency self))
    (Some (match last_update self with
           | Some d => Datetime.strftime_iso d
           | None => ""%string
           end)).

(** [save_cache]: its exceptions are caught and printed. *)
Definition save_cache (self : t) (w : Cache.write) (f : Cache.file) : Cache.file :=
  match w with
  | Cache.Written => Cache.Json (cache_data self)
  | Cache.OpenFails => f
  | Cache.DumpFails => Cache.Unreadable
  end.

(** [load_cache]: the returned boolean and the provider afterwards. *)
Definition load_cache (self : t) (f : Cache.file) : bool * t :=
  match f with
  | Cache.Missing => (false, self)
  | Cache.Unreadable => (false, self)
  | Cache.Json d =>
      let rates' := default ∅ (Cache.rates d) in
      let base' := default "USD"%string (Cache.base_currency d) in
      let last_update_str := default ""%string (Cache.last_update d) in
      if bool_decide (last_update_str = ""%string)
      then (negb (bool_decide (rates' = ∅)), mk rates' base' (last_update self))
      else
        match Datetime.strptime_iso last_update_str with
        | Some d' => (negb (bool_decide (rates' = ∅)), mk rates' base' (Some d'))
        | None => (false, mk rates' base' (last_update self))   (* [ValueError] *)
        end
  end.

(** The [try] block of [fetch_rates]: [Some r] when it reaches
    [self.rates = data['rates']], [None] when it raises or the status is
    not 200. *)
Definition fetched (net : Http.result) : option table :=
  match net with
  | Http.Response status_code (Http.Rates r) =>
      if status_code =? 200 then Some r else None
  | _ => None
  end.

(** [fetch_rates]: the returned boolean, the provider and the cache file
    afterwards. *)
Definition fetch_rates (self : t) (now : Datetime.t) (net : Http.result)
    (w : Cache.write) (f : Cache.file) : bool * t * Cache.file :=
  match fetched net with
  | Some r =>
      let self' := mk r (base_currency self) (Some now) in
      (true, self', save_cache self' w f)
  | None =>
      let '(ok, self') := load_cache self f in (ok, self', f)
  end.

(** The [try] block of [get_exchange_rate]: [Some (Some r)] when it
    returns [r], [Some None] when it falls through, [None] when it raises
    [ZeroDivisionError]. *)
Definition lookup_rate (self : t) (from_currency to_currency : string)
    : option (option spec_float) :=
  if bool_decide (from_currency = base_currency self) then
    Some (Some (entry (rates self) to_currency))
  else if bool_decide (to_currency = base_currency self) then
    let from_rate := entry (rates self) from_currency in
    if Py.neqb from_rate Py.zero
    then x ← Py.truediv Py.one from_rate; Some (Some x)
    else Some (Some Py.zero)
  else
    let from_rate := entry (rates self) from_currency in
    let to_rate := entry (rates self) to_currency in
    if Py.neqb from_rate Py.zero && Py.neqb to_rate Py.zero
    then x ← Py.truediv to_rate from_rate; Some (Some x)
    else Some None.

Definition get_exchange_rate (self : t) (from_currency to_currency : string)
    : option spec_float :=
  if bool_decide (rates self = ∅) then Some Py.zero
  else if bool_decide (from_currency = to_currency) then Some Py.one
  else
    match lookup_rate self from_currency to_currency with
    | Some (Some r) => Some r
    | Some None => Some Py.zero
    | None => Some Py.zero          (* [except (KeyError, ZeroDivisionError)] *)
    end.

Definition get_all_rates (self : t) : table := rates self.

End Online.

Module Offline.

Record t : Type := mk { rates : table }.

(** The static table of [__init__]. *)
Definition static_rates : table :=
  list_to_map
    [ ("USD", Py.lit "1.0"); ("EUR", Py.lit "0.85"); ("UAH", Py.lit "37.0");
      ("GBP", Py.lit "0.73"); ("JPY", Py.lit "110.0"); ("CAD", Py.lit "1.25");
      ("AUD", Py.lit "1.35"); ("CHF", Py.lit "0.92"); ("CNY", Py.lit "6.45");
      ("SEK", Py.lit "8.75"); ("NOK", Py.lit "8.95"); ("PLN", Py.lit "3.85");
      ("CZK", Py.lit "21.5"); ("TRY", Py.lit "8.25"); ("RUB", Py.lit "75.0")
    ]%string.

Definition load_cache (f : Cache.file) : table :=
  match f with
  | Cache.Json d => default ∅ (Cache.rates d)
  | _ => ∅
  end.

(** [__init__] *)
Definition init (f : Cache.file) : t :=
  let r := load_cache f in
  if bool_decide (r = ∅) then mk static_rates else mk r.

Definition get_exchange_rate (self : t) (from_currency to_currency : string)
    : option spec_float :=
  if bool_decide (from_currency = to_currency) then Some Py.one
  else
    let from_rate := entry (rates self) from_currency in
    let to_rate := entry (rates self) to_currency in
    if Py.neqb from_rate Py.zero && Py.neqb to_rate Py.zero
    then Py.truediv to_rate from_rate
    else Some Py.zero.

Definition get_all_rates (self : t) : table := rates self.

End Offline.

Global Instance online_provider : ExchangeRateProvider Online.t :=
  {| get_exchange_rate := Online.get_exchange_rate;
     get_all_rates := Online.get_all_rates |}.

Global Instance offline_provider : ExchangeRateProvider Offline.t :=
  {| get_exchange_rate := Offline.get_exchange_rate;
     get_all_rates := Offline.get_all_rates |}.

(** The provider a converter holds: one of the two variants. *)
Inductive provider : Type :=
| OnlineRateProvider (p : Online.t)
| OfflineRateProvider (p : Offline.t).

Global Instance any_provider : ExchangeRateProvider provider :=
  {| get_exchange_rate self :=
       match self with
       | OnlineRateProvider p => get_exchange_rate p
       | OfflineRateProvider p => get_exchange_rate p
       end;
     get_all_rates self :=
       match self with
       | OnlineRateProvider p => get_all_rates p
       | OfflineRateProvider p => get_all_rates p
       end |}.

(* ===================================================================== *)
(** ** [HistoryManager] *)
(* ===================================================================== *)

Module History.

(** The [entry] dictionary that [convert] builds. *)
Record record : Type := mk_record
  { timestamp : string;
    amount : spec_float;
    from_currency : string;
    to_currency : string;
    rate : spec_float;
    result : spec_float }.

Record t : Type := mk { history_list : list record }.

(** [__init__] *)
Definition init : t := mk [].

(** [list.pop(0)] on a list that is not empty. *)
Definition pop0 (l : list record) : list record := tail l.

Definition save_entry (self : t) (e : record) : t :=
  let l := history_list self ++ [e] in
  if (50 <? length l)%nat then mk (pop0 l) else mk l.

Definition get_history (self : t) : list record := history_list self.

Definition clear_history (self : t) : t := mk [].

(** Consecutive calls of [save_entry], in the order of the list. *)
Definition save_all (es : list record) (self : t) : t :=
  foldl save_entry self es.

End History.

(* ===================================================================== *)
(** ** [CurrencyConverter] *)
(* ===================================================================== *)

Module Converter.

(** The error messages of [convert], by kind. *)
Inductive error : Type :=
| NegativeAmount                (* the amount is negative *)
| RateUnavailable               (* no rate could be obtained *)
| InvalidAmount                 (* [except ValueError] *)
| ConversionFault.              (* [except Exception] *)

Record t : Type := mk
  { exchange_rate_provider : provider;
    history_manager : History.t }.

(** [__init__] with both arguments omitted. *)
Definition init : t := mk (OnlineRateProvider Online.init) History.init.

Definition get_exchange_rate (self : t) (from_currency to_currency : string)
    : option spec_float :=
  get_exchange_rate (exchange_rate_provider self) from_currency to_currency.

(** [convert]: the returned pair and the converter afterwards. *)
Definition convert (self : t) (now : Datetime.t)
    (amount from_currency to_currency : string)
    : (option spec_float * option error) * t :=
  match Py.float_of_str amount with
  | None => ((None, Some InvalidAmount), self)
  | Some amount =>
      if Py.ltb amount Py.zero then ((None, Some NegativeAmount), self)
      else
        match get_exchange_rate self from_currency to_currency with
        | None => ((None, Some ConversionFault), self)
        | Some rate =>
            if Py.leb rate Py.zero then ((None, Some RateUnavailable), self)
            else
              let result := Py.mul amount rate in
              let e :=
                History.mk_record (Datetime.strftime_dmy now) amount
                  from_currency to_currency rate result in
              ((Some result, None),
               mk (exchange_rate_provider self)
                  (History.save_entry (history_manager self) e))
        end
  end.

(** The assignment to [exchange_rate_provider] of the mode switch. *)
Definition set_provider (self : t) (p : provider) : t :=
  mk p (history_manager self).

End Converter.

(* ===================================================================== *)
(** ** Consecutive conversions *)
(* ===================================================================== *)

Module Session.

(** One call of [convert]: the clock and the three arguments. *)
Record call : Type := mk_call
  { clock : Datetime.t;
    amount : string;
    from_currency : string;
    to_currency : string }.

Definition convert (self : Converter.t) (c : call)
    : (option spec_float * option Converter.error) * Converter.t :=
  Converter.convert self (clock c) (amount c) (from_currency c) (to_currency c).

(** Consecutive calls of [convert]: the returned pairs and the converter
    afterwards. *)
Fixpoint converts (self : Converter.t) (calls : list call)
    : list (option spec_float * option Converter.error) * Converter.t :=
  match calls with
  | [] => ([], self)
  | c :: calls' =>
      let '(r, self') := convert self c in
      let '(rs, self'') := converts self' calls' in
      (r :: rs, self'')
  end.

(** The calls that returned a result. *)
Fixpoint successes (rs : list (option spec_float * option Converter.error)) : nat :=
  match rs with
  | [] => 0
  | (Some _, _) :: rs' => S (successes rs')
  | (None, _) :: rs' => successes rs'
  end.

End Session.

(* ===================================================================== *)
(** ** Texts: [in], [split], [rstrip] and the format [.Nf] *)
(* ===================================================================== *)

Module Text.

(** [sep in s] *)
Fixpoint contains (sep s : string) : bool :=
  String.prefix sep s
  || match s with
     | EmptyString => false
     | String _ s' => contains sep s'
     end.

(** [s.split(sep)[0]]: what stands before the first [sep], and all of [s]
    when there is none. *)
Fixpoint split_head (sep s : string) : string :=
  if String.prefix sep s then EmptyString
  else
    match s with
    | EmptyString => EmptyString
    | String c s' => String c (split_head sep s')
    end.

Fixpoint lstrip_char (c : ascii) (s : list ascii) : list ascii :=
  match s with
  | c' :: s' => if Ascii.eqb c' c then lstrip_char c s' else s
  | [] => []
  end.

(** [s.rstrip(c)] for a single character [c]. *)
Definition rstrip (c : ascii) (s : list ascii) : list ascii :=
  rev (lstrip_char c (rev s)).

(** [str(n)] for an integer [n] that is not negative. *)
Definition digits (n : Z) : list ascii :=
  list_ascii_of_string (NilZero.string_of_uint (N.to_uint (Z.to_N n))).

(** The last [width] decimal digits of [n], the most significant first. *)
Fixpoint fixed_digits (width : nat) (n : Z) : list ascii :=
  match width with
  | O => []
  | S w => fixed_digits w (n / 10) ++ [Datetime.digit_char n]
  end.

(** [n / d] rounded to the nearest integer, a tie to the even one. *)
Definition round_half_even (n d : Z) : Z :=
  let q := n / d in
  match 2 * (n mod d) ?= d with
  | Lt => q
  | Eq => if Z.even q then q else q + 1
  | Gt => q + 1
  end.

(** The integer nearest to [m * 2^e * 10^p]. *)
Definition scaled (p : nat) (m : positive) (e : Z) : Z :=
  match e with
  | Zneg k => round_half_even (Zpos m * 10 ^ Z.of_nat p) (2 ^ Zpos k)
  | _ => Zpos m * 2 ^ e * 10 ^ Z.of_nat p
  end.

(** [q / 10^p] written with [p] decimals. *)
Definition fixed (p : nat) (q : Z) : list ascii :=
  digits (q / 10 ^ Z.of_nat p)
  ++ match p with
     | O => []
     | S _ => "."%char :: fixed_digits p (q mod 10 ^ Z.of_nat p)
     end.

Definition minus (s : bool) : list ascii := if s then ["-"%char] else [].

(** [f"{x:.pf}"]: the decimal expansion of the binary value, correctly
    rounded to [p] decimals. *)
Definition format_fixed (p : nat) (x : spec_float) : list ascii :=
  match x with
  | S754_nan => list_ascii_of_string "nan"
  | S754_infinity s => minus s ++ list_ascii_of_string "inf"
  | S754_zero s => minus s ++ fixed p 0
  | S754_finite s m e => minus s ++ fixed p (scaled p m e)
  end.

(** Where a run of digits ends for [float]: at the end of the text or at a
    character that is neither a digit nor an underscore. *)
Definition stops (r : list ascii) : Prop :=
  match r with
  | [] => True
  | c :: _ => Py.is_digit c = false /\ Ascii.eqb c "_" = false
  end.

Definition all_digits (s : list ascii) : Prop :=
  Forall (fun c => Py.is_digit c = true) s.

End Text.

(* ===================================================================== *)
(** ** [UserInterface] *)
(* ===================================================================== *)

(** [CurrencyConverter.currencies]: the codes and their names, in the order
    of the dictionary.  The texts are UTF-8. *)
Definition currencies : list (string * string) :=
  [ ("USD", "Долар США"); ("EUR", "Євро"); ("UAH", "Українська гривня");
    ("GBP", "Фунт стерлінгів"); ("JPY", "Японська єна");
    ("CAD", "Канадський долар"); ("AUD", "Австралійський долар");
    ("CHF", "Швейцарський франк"); ("CNY", "Китайський юань");
    ("SEK", "Шведська крона"); ("NOK", "Норвезька крона");
    ("PLN", "Польський злотий"); ("CZK", "Чеська крона");
    ("TRY", "Турецька ліра") ]%string.

(** [currencies.get(code, code)] *)
Definition currency_name (code : string) : string :=
  default code ((list_to_map currencies : gmap string string) !! code).

(** The window.  Its handlers and the body of the refresh thread are
    functions on the state of the widgets; they run one at a time. *)
Module UI.

(** The widgets that [create_widgets] makes, as [winfo_children] sees
    them; a button carries its text. *)
#[local] Unset Elimination Schemes.
Inductive widget : Type :=
| Frame (children : list widget)
| LabelFrame (children : list widget)
| Label
| Entry
| Combobox
| Scrollbar
| TextArea
| Button (text : string).
#[local] Set Elimination Schemes.

Definition winfo_children (w : widget) : list widget :=
  match w with
  | Frame children | LabelFrame children => children
  | _ => []
  end.

Definition with_children (w : widget) (children : list widget) : widget :=
  match w with
  | Frame _ => Frame children
  | LabelFrame _ => LabelFrame children
  | _ => w
  end.

(** The children of the window after [create_widgets]; a [ScrolledText] is
    a frame that holds a scroll bar and the text. *)
Definition create_widgets : list widget :=
  let convert_frame_inner :=
    Frame [ Label; Frame [Entry; Combobox]; Button "⇄"; Label;
            Frame [Entry; Combobox] ] in
  let buttons_frame :=
    Frame [ Button "🔄 Оновити курси"; Button "🗑️ Очистити";
            Button "📱 Офлайн режим" ] in
  let history_frame :=
    LabelFrame [ Frame [Scrollbar; TextArea]; Button "🗑️ Очистити історію" ] in
  [ Frame [ Label; Label; Label; Frame [convert_frame_inner]; buttons_frame;
            history_frame; Label ] ].

(** The texts of [status_label]. *)
Inductive status : Type :=
| Ready                         (* the text of [create_widgets] *)
| RatesUpdated                  (* [refresh_rates], success *)
| UpdateFailed                  (* [refresh_rates], failure *)
| OfflineActive                 (* [toggle_offline_mode] *)
| OnlineActive
| HistoryCleared                (* [clear_history] *)
| ConvertError (e : Converter.error)   (* [show_error] of what [convert] returned *)
| ComputeError.                 (* [show_error] of an exception *)

(** The texts of [update_label]. *)
Inductive update_note : Type :=
| NoNote                        (* empty *)
| LastUpdate (stamp : string)   (* the time of the last update *)
| SavedRates.                   (* saved rates are in use *)

(** The texts of [rate_label]. *)
Inductive rate_note : Type :=
| Loading
| RateLine (text : string).

(** The argument of [update_conversion]: ["forward"] or another text. *)
Inductive direction : Type := Forward | Backward.

Record t : Type := mk
  { converter : Converter.t;
    window : list widget;
    amount1_var : string;
    amount2_var : string;
    from_dropdown : nat;          (* the index of the selected item *)
    to_dropdown : nat;
    rate_label : rate_note;
    update_label : update_note;
    status_label : status;
    history_text : list string;   (* the lines, from the top *)
    updating_from_code : bool }.

Definition set_converter (self : t) (c : Converter.t) : t :=
  mk c (window self) (amount1_var self) (amount2_var self) (from_dropdown self)
    (to_dropdown self) (rate_label self) (update_label self) (status_label self)
    (history_text self) (updating_from_code self).

Definition set_window (self : t) (w : list widget) : t :=
  mk (converter self) w (amount1_var self) (amount2_var self) (from_dropdown self)
    (to_dropdown self) (rate_label self) (update_label self) (status_label self)
    (history_text self) (updating_from_code self).

Definition set_amount1 (self : t) (text : string) : t :=
  mk (converter self) (window self) text (amount2_var self) (from_dropdown self)
    (to_dropdown self) (rate_label self) (update_label self) (status_label self)
    (history_text self) (updating_from_code self).

Definition set_amount2 (self : t) (text : string) : t :=
  mk (converter self) (window self) (amount1_var self) text (from_dropdown self)
    (to_dropdown self) (rate_label self) (update_label self) (status_label self)
    (history_text self) (updating_from_code self).

Definition set_from (self : t) (i : nat) : t :=
  mk (converter self) (window self) (amount1_var self) (amount2_var self) i
    (to_dropdown self) (rate_label self) (update_label self) (status_label self)
    (history_text self) (updating_from_code self).

Definition set_to (self : t) (i : nat) : t :=
  mk (converter self) (window self) (amount1_var self) (amount2_var self)
    (from_dropdown self) i (rate_label self) (update_label self) (status_label self)
    (history_text self) (updating_from_code self).

Definition set_rate_label (self : t) (r : rate_note) : t :=
  mk (converter self) (window self) (amount1_var self) (amount2_var self)
    (from_dropdown self) (to_dropdown self) r (update_label self) (status_label self)
    (history_text self) (updating_from_code self).

Definition set_update_label (self : t) (u : update_note) : t :=
  mk (converter self) (window self) (amount1_var self) (amount2_var self)
    (from_dropdown self) (to_dropdown self) (rate_label self) u (status_label self)
    (history_text self) (updating_from_code self).

Definition set_status (self : t) (s : status) : t :=
  mk (converter self) (window self) (amount1_var self) (amount2_var self)
    (from_dropdown self) (to_dropdown self) (rate_label self) (update_label self) s
    (history_text self) (updating_from_code self).

Definition set_history_text (self : t) (lines : list string) : t :=
  mk (converter self) (window self) (amount1_var self) (amount2_var self)
    (from_dropdown self) (to_dropdown self) (rate_label self) (update_label self)
    (status_label self) lines (updating_from_code self).

Definition set_updating (self : t) (b : bool) : t :=
  mk (converter self) (window self) (amount1_var self) (amount2_var self)
    (from_dropdown self) (to_dropdown self) (rate_label self) (update_label self)
    (status_label self) (history_text self) b.

(** [__init__] up to the start of the threads: the widgets of
    [create_widgets] with their first values. *)
Definition init (converter : Converter.t) : t :=
  mk converter create_widgets "1" "0" 2 1 Loading NoNote Ready [] false.

(** The items of both dropdowns. *)
Definition currency_list : list string :=
  map (fun '(code, name) => code +:+ " - " +:+ name) currencies.

(** [dropdown.get()]: the text of the selected item, empty without one. *)
Definition dropdown_get (i : nat) : string := default ""%string (currency_list !! i).

Definition get_selected_currency_code (dropdown_value : string) : string :=
  if Text.contains " - " dropdown_value
  then Text.split_head " - " dropdown_value
  else dropdown_value.

(** [f"{x:.6f}".rstrip('0').rstrip('.') if x != 0 else "0"] *)
Definition amount_text (x : spec_float) : string :=
  if Py.neqb x Py.zero
  then string_of_list_ascii (Text.rstrip "." (Text.rstrip "0" (Text.format_fixed 6 x)))
  else "0"%string.

(** The text of [rate_label]: the two strips apply to the two joined
    literals, the second name is added after them. *)
Definition rate_text (from_curr to_curr : string) (rate : spec_float) : string :=
  string_of_list_ascii
    (Text.rstrip "."
       (Text.rstrip "0"
          (list_ascii_of_string ("1 " +:+ currency_name from_curr +:+ " = ")
           ++ Text.format_fixed 6 rate)))
  +:+ " " +:+ currency_name to_curr.

(** A line of the history panel; it ends with a line feed. *)
Definition history_line (e : History.record) : string :=
  History.timestamp e +:+ " | "
  +:+ string_of_list_ascii (Text.format_fixed 2 (History.amount e))
  +:+ " " +:+ History.from_currency e +:+ " → "
  +:+ string_of_list_ascii (Text.format_fixed 4 (History.result e))
  +:+ " " +:+ History.to_currency e +:+ " (курс: "
  +:+ string_of_list_ascii (Text.format_fixed 4 (History.rate e))
  +:+ String ")" (String "010" EmptyString).

(** [history[-10:]] *)
Definition last_ten (history : list History.record) : list History.record :=
  drop (length history - 10) history.

(** The lines that [update_history_display] inserts for a converter. *)
Definition panel (c : Converter.t) : list string :=
  map history_line (rev (last_ten (History.get_history (Converter.history_manager c)))).

Definition update_history_display (self : t) : t :=
  set_history_text self (panel (converter self)).

Definition show_error (self : t) (s : status) : t := set_status self s.

(** The call of [convert] that [update_conversion] makes. *)
Definition conversion (self : t) (now : Datetime.t) (d : direction)
    : (option spec_float * option Converter.error) * Converter.t :=
  let from_curr := get_selected_currency_code (dropdown_get (from_dropdown self)) in
  let to_curr := get_selected_currency_code (dropdown_get (to_dropdown self)) in
  match d with
  | Forward =>
      Converter.convert (converter self) now (amount1_var self) from_curr to_curr
  | Backward =>
      Converter.convert (converter self) now (amount2_var self) to_curr from_curr
  end.

(** [update_conversion]: the handler of its [except] shows an error and
    keeps what was done before. *)
Definition update_conversion (self : t) (now : Datetime.t) (d : direction) : t :=
  let from_curr := get_selected_currency_code (dropdown_get (from_dropdown self)) in
  let to_curr := get_selected_currency_code (dropdown_get (to_dropdown self)) in
  let '((result, error), c) := conversion self now d in
  let self := set_converter self c in
  match error, result with
  | Some e, _ => show_error self (ConvertError e)
  | None, None => show_error self ComputeError         (* [TypeError] of the format *)
  | None, Some r =>
      let self :=
        match d with
        | Forward => set_amount2 self (amount_text r)
        | Backward => set_amount1 self (amount_text r)
        end in
      let self := set_updating self false in
      match Converter.get_exchange_rate (converter self) from_curr to_curr with
      | None => show_error self ComputeError
      | Some rate =>
          let self :=
            if Py.ltb Py.zero rate
            then set_rate_label self (RateLine (rate_text from_curr to_curr rate))
            else self in
          update_history_display self
      end
  end.

Definition on_amount1_change (self : t) (now : Datetime.t) : t :=
  if updating_from_code self then self else update_conversion self now Forward.

Definition on_amount2_change (self : t) (now : Datetime.t) : t :=
  if updating_from_code self then self else update_conversion self now Backward.

Definition on_currency_change (self : t) (now : Datetime.t) : t :=
  update_conversion self now Forward.

Definition swap_currencies (self : t) : t :=
  let from_idx := from_dropdown self in
  let to_idx := to_dropdown self in
  let amount1 := amount1_var self in
  let amount2 := amount2_var self in
  set_amount2 (set_amount1 (set_to (set_from self to_idx) from_idx) amount2) amount1.

Definition clear_fields (self : t) : t := set_amount2 (set_amount1 self "0") "0".

(** The thread of [refresh_rates], run to its end. *)
Definition refresh_rates (self : t) (now : Datetime.t) (net : Http.result)
    (w : Cache.write) (f : Cache.file) : t * Cache.file :=
  match Converter.exchange_rate_provider (converter self) with
  | OnlineRateProvider p =>
      let '(success, p', f') := Online.fetch_rates p now net w f in
      let self :=
        set_converter self (Converter.set_provider (converter self) (OnlineRateProvider p')) in
      if success then
        let self := set_status self RatesUpdated in
        match Online.last_update p' with
        | Some timestamp =>
            (set_update_label self (LastUpdate (Datetime.strftime_dmy timestamp)), f')
        | None => (self, f')
        end
      else (set_status self UpdateFailed, f')
  | OfflineRateProvider _ => (self, f)
  end.

(** The body of the loops of [toggle_offline_mode]. *)
Definition retitle (old new : string) (child : widget) : widget :=
  match child with
  | Button text => if Text.contains old text then Button new else child
  | _ => child
  end.

(** The loops: over the children of the children of the window. *)
Definition retitle_buttons (old new : string) (window : list widget) : list widget :=
  map (fun widget => with_children widget (map (retitle old new) (winfo_children widget)))
    window.

(** [toggle_offline_mode]; the thread that the switch to the online mode
    starts is a later [refresh_rates]. *)
Definition toggle_offline_mode (self : t) (f : Cache.file) : t :=
  match Converter.exchange_rate_provider (converter self) with
  | OnlineRateProvider _ =>
      let self :=
        set_converter self
          (Converter.set_provider (converter self) (OfflineRateProvider (Offline.init f))) in
      let self := set_update_label (set_status self OfflineActive) SavedRates in
      set_window self (retitle_buttons "Офлайн режим" "🌐 Онлайн режим" (window self))
  | OfflineRateProvider _ =>
      let self :=
        set_converter self
          (Converter.set_provider (converter self) (OnlineRateProvider Online.init)) in
      let self := set_status self OnlineActive in
      set_window self (retitle_buttons "Онлайн режим" "📱 Офлайн режим" (window self))
  end.

Definition clear_history (self : t) : t :=
  let c := converter self in
  let self :=
    set_converter self
      (Converter.mk (Converter.exchange_rate_provider c)
         (History.clear_history (Converter.history_manager c))) in
  set_status (set_history_text self []) HistoryCleared.

(** What happens to the window: the user's actions and the end of a
    refresh thread.  The two entries and the history panel are editable: a
    key in an entry calls its handler, any other change of an entry (a paste
    with the mouse) and any change of the panel call nothing. *)
Inductive event : Type :=
| Amount1 (text : string) (now : Datetime.t)    (* a key in the first entry *)
| Amount2 (text : string) (now : Datetime.t)    (* a key in the second entry *)
| Paste1 (text : string)                        (* the first entry, without a key *)
| Paste2 (text : string)                        (* the second entry, without a key *)
| EditHistory (lines : list string)             (* the user types into the panel *)
| SelectFrom (i : nat) (now : Datetime.t)       (* an item of the first dropdown *)
| SelectTo (i : nat) (now : Datetime.t)         (* an item of the second dropdown *)
| Swap
| ClearFields
| ClearHistory
| ToggleMode
| Refresh (now : Datetime.t) (net : Http.result) (w : Cache.write).

(** The events in which the user changes the text of the history panel. *)
Definition edits_panel (ev : event) : bool :=
  match ev with
  | EditHistory _ => true
  | _ => false
  end.

Definition handle (self : t) (f : Cache.file) (ev : event) : t * Cache.file :=
  match ev with
  | Amount1 text now => (on_amount1_change (set_amount1 self text) now, f)
  | Amount2 text now => (on_amount2_change (set_amount2 self text) now, f)
  | Paste1 text => (set_amount1 self text, f)
  | Paste2 text => (set_amount2 self text, f)
  | EditHistory lines => (set_history_text self lines, f)
  | SelectFrom i now => (on_currency_change (set_from self i) now, f)
  | SelectTo i now => (on_currency_change (set_to self i) now, f)
  | Swap => (swap_currencies self, f)
  | ClearFields => (clear_fields self, f)
  | ClearHistory => (clear_history self, f)
  | ToggleMode => (toggle_offline_mode self f, f)
  | Refresh now net w => refresh_rates self now net w f
  end.

(** The events in their order. *)
Definition run (self : t) (f : Cache.file) (events : list event) : t * Cache.file :=
  foldl (fun '(self, f) ev => handle self f ev) (self, f) events.

(** [main]: the converter and the window before the first event. *)
Definition main : t := init (Converter.mk (OnlineRateProvider Online.init) History.init).

(** The window between two events; [shown] says that the user has not
    typed into the history panel. *)
Definition settled (shown : bool) (self : t) : Prop :=
  (shown = true -> history_text self = panel (converter self))
  /\ updating_from_code self = false
  /\ window self = create_widgets
  /\ (length (History.get_history (Converter.history_manager (converter self)))
      <= 50)%nat.

(** The rate of the static table between two items of the dropdowns. *)
Definition static_rate (i j : nat) : option spec_float :=
  Offline.get_exchange_rate (Offline.mk Offline.static_rates)
    (get_selected_currency_code (dropdown_get i))
    (get_selected_currency_code (dropdown_get j)).

(** A rate that [convert] accepts and that is finite. *)
Definition usable (r : option spec_float) : bool :=
  match r with
  | Some r => Py.ltb Py.zero r && Py.is_finite r
  | None => false
  end.

End UI.

(* ===================================================================== *)
(** ** Concrete data *)
(* ===================================================================== *)

Module Sample.

(** The table of the specification's scenario, base [USD]. *)
Definition rates : table :=
  list_to_map
    [ ("USD", Py.lit "1"); ("EUR", Py.lit "0.85"); ("UAH", Py.lit "37.0") ]%string.

(** A table that lacks its base currency. *)
Definition rates_without_base : table :=
  list_to_map [ ("EUR", Py.lit "0.85"); ("UAH", Py.lit "37.0") ]%string.

(** Two positive entries far apart. *)
Definition rates_far_apart : table :=
  list_to_map
    [ ("USD", Py.lit "1"); ("AAA", Py.lit "1e-200"); ("ZZZ", Py.lit "1e200") ]%string.

Definition now : Datetime.t := Datetime.mk 2024 1 5 3 4 9 123456.

Definition earlier : Datetime.t := Datetime.mk 2023 12 31 23 59 58 0.

(** A time before the year 1000. *)
Definition long_ago : Datetime.t := Datetime.mk 999 1 2 3 4 5 0.

(** A provider that holds the scenario's table, fetched at [now]. *)
Definition online : Online.t := Online.mk rates "USD" (Some now).

(** The cache file that [online] writes. *)
Definition cache : Cache.file := Cache.Json (Online.cache_data online).

(** The cache file that a provider without rates writes. *)
Definition empty_cache : Cache.file := Cache.Json (Online.cache_data Online.init).

(** A cache file whose time stamp is not in the format. *)
Definition odd_cache : Cache.file :=
  Cache.Json (Cache.mk (Some rates) (Some "USD"%string) (Some "yesterday"%string)).

Definition converter : Converter.t :=
  Converter.mk (OnlineRateProvider online) History.init.

Definition record (n : Z) : History.record :=
  History.mk_record (Datetime.strftime_dmy now) (Py.of_decimal n 0)
    "USD" "EUR" (Py.lit "0.85") (Py.mul (Py.of_decimal n 0) (Py.lit "0.85")).

(** [n] records, numbered from [k]. *)
Fixpoint records (k : Z) (n : nat) : list History.record :=
  match n with
  | O => []
  | S n' => record k :: records (k + 1) n'
  end.

End Sample.

(* ===================================================================== *)
(** ** Facts about floats *)
(* ===================================================================== *)

Section FloatFacts.

Implicit Types x y : spec_float.

Lemma neqb_eqb x y : Py.neqb x y = negb (Py.eqb x y).
Proof. reflexivity. Qed.

(** Behind the guard [y != 0] the division does not raise. *)
Lemma truediv_guarded x y :
  Py.neqb y Py.zero = true -> Py.truediv x y = Some (Py.div x y).
Proof.
  unfold Py.neqb, Py.truediv. intros H.
  apply negb_true_iff in H. now rewrite H.
Qed.

Lemma truediv_zero x y :
  Py.eqb y Py.zero = true -> Py.truediv x y = None.
Proof. unfold Py.truediv. now intros ->. Qed.

(** [0 <= x] excludes [x < 0]. *)
Lemma leb_zero_ltb x : Py.leb Py.zero x = true -> Py.ltb x Py.zero = false.
Proof. destruct x as [[]|[]| |[] m e]; cbv; congruence. Qed.

(** [0 < x] excludes [x <= 0]. *)
Lemma ltb_zero_leb x : Py.ltb Py.zero x = true -> Py.leb x Py.zero = false.
Proof. destruct x as [[]|[]| |[] m e]; cbv; congruence. Qed.

(** [0 < x] excludes [x == 0]. *)
Lemma ltb_zero_neqb x : Py.ltb Py.zero x = true -> Py.neqb x Py.zero = true.
Proof. destruct x as [[]|[]| |[] m e]; cbv; congruence. Qed.

Lemma mul_inf_positive x : Py.ltb Py.zero x = true -> Py.mul Py.inf x = Py.inf.
Proof. destruct x as [[]|[]| |[] m e]; cbv; congruence. Qed.

Lemma mul_nan x : Py.mul Py.nan x = Py.nan.
Proof. reflexivity. Qed.

End FloatFacts.

(* ===================================================================== *)
(** ** Rounding: quotients and their products *)
(* ===================================================================== *)

Section Rounding.

Lemma digits2_size p : digits2_pos p = Pos.size p.
Proof. induction p; simpl; congruence. Qed.

Lemma Zdigits2_bounds p :
  2 ^ (Zdigits2 (Zpos p) - 1) <= Zpos p < 2 ^ Zdigits2 (Zpos p).
Proof.
  simpl. rewrite digits2_size.
  pose proof (Pos.size_gt p) as Hgt. pose proof (Pos.size_le p) as Hle.
  apply Pos2Z.pos_lt_pos in Hgt. apply Pos2Z.pos_le_pos in Hle.
  rewrite Pos2Z.inj_pow in Hgt, Hle. rewrite (Pos2Z.inj_xO p) in Hle.
  split; [|exact Hgt].
  assert (E : 2 ^ Zpos (Pos.size p) = 2 * 2 ^ (Zpos (Pos.size p) - 1)).
  { rewrite <- Z.pow_succ_r by lia. f_equal. lia. }
  lia.
Qed.

Lemma Zdigits2_unique p d :
  2 ^ (d - 1) <= Zpos p < 2 ^ d -> Zdigits2 (Zpos p) = d.
Proof.
  intros [Hlo Hhi]. pose proof (Zdigits2_bounds p) as [Blo Bhi].
  set (k := Zdigits2 (Zpos p)) in *.
  assert (Kpos : 0 < k) by (subst k; simpl; lia).
  assert (Dpos : 0 < d).
  { destruct (Z_lt_le_dec 0 d); [assumption|].
    exfalso. assert (2 ^ d <= 1).
    { destruct (Z.eq_dec d 0) as [->|]; [simpl; lia|].
      rewrite Z.pow_neg_r by lia. lia. }
    lia. }
  destruct (Z_lt_le_dec k d) as [Hlt|Hge].
  - exfalso. assert (2 ^ k <= 2 ^ (d - 1)) by (apply Z.pow_le_mono_r; lia). lia.
  - destruct (Z_lt_le_dec d k) as [Hlt|Hge']; [|lia].
    exfalso. assert (2 ^ d <= 2 ^ (k - 1)) by (apply Z.pow_le_mono_r; lia). lia.
Qed.

Lemma shr_1_m mrs : 0 <= shr_m mrs -> shr_m (shr_1 mrs) = shr_m mrs / 2.
Proof.
  destruct mrs as [m r s]. simpl. intros Hm.
  destruct m as [|[p|p|]|p]; simpl; try reflexivity; try lia.
  - rewrite (Pos2Z.inj_xI p). Z.div_mod_to_equations. lia.
  - rewrite (Pos2Z.inj_xO p). Z.div_mod_to_equations. lia.
Qed.

Lemma iter_shr_1_m p : forall mrs,
  0 <= shr_m mrs ->
  shr_m (SpecFloat.iter_pos shr_1 p mrs) = shr_m mrs / 2 ^ Zpos p.
Proof.
  assert (Hdiv : forall a b c, 0 < b -> 0 < c -> a / b / c = a / (b * c)).
  { intros. apply Z.div_div; lia. }
  induction p as [p IH|p IH|]; intros mrs Hm; simpl SpecFloat.iter_pos.
  - assert (H1 : 0 <= shr_m (shr_1 mrs)) by (rewrite shr_1_m by lia; apply Z.div_pos; lia).
    assert (H2 : 0 <= shr_m (SpecFloat.iter_pos shr_1 p (shr_1 mrs)))
      by (rewrite IH by lia; apply Z.div_pos; [lia | apply Z.pow_pos_nonneg; lia]).
    rewrite IH, IH, shr_1_m by lia.
    assert (P : 0 < 2 ^ Zpos p) by (apply Z.pow_pos_nonneg; lia).
    rewrite !Hdiv by lia. f_equal.
    rewrite (Pos2Z.inj_xI p), Z.pow_add_r, Z.pow_mul_r by lia.
    change (2 ^ 2) with 4. change (2 ^ 1) with 2.
    replace (4 ^ Zpos p) with (2 ^ Zpos p * 2 ^ Zpos p).
    + lia.
    + rewrite <- Z.pow_mul_l. reflexivity.
  - assert (H2 : 0 <= shr_m (SpecFloat.iter_pos shr_1 p mrs))
      by (rewrite IH by lia; apply Z.div_pos; [lia | apply Z.pow_pos_nonneg; lia]).
    rewrite IH, IH by lia.
    assert (P : 0 < 2 ^ Zpos p) by (apply Z.pow_pos_nonneg; lia).
    rewrite !Hdiv by lia. f_equal.
    rewrite (Pos2Z.inj_xO p), Z.pow_mul_r by lia.
    change (2 ^ 2) with 4.
    rewrite <- Z.pow_mul_l. reflexivity.
  - now rewrite shr_1_m.
Qed.

Lemma Zdigits2_unique_Z m d :
  0 < m -> 2 ^ (d - 1) <= m < 2 ^ d -> Zdigits2 m = d.
Proof. destruct m as [|p|p]; try lia. intros _. apply Zdigits2_unique. Qed.

Lemma shr_record_of_loc_m m l : shr_m (shr_record_of_loc m l) = m.
Proof. now destruct l as [|[]]. Qed.

Lemma shr_fexp_spec m e l :
  0 <= m ->
  shr_m (fst (shr_fexp Py.prec Py.emax m e l)) = m / 2 ^ Py.dropped m e
  /\ snd (shr_fexp Py.prec Py.emax m e l) = e + Py.dropped m e.
Proof.
  intros Hm. unfold shr_fexp, shr, Py.dropped.
  destruct (fexp Py.prec Py.emax (Zdigits2 m + e) - e) as [|p|p] eqn:E; simpl fst; simpl snd.
  - rewrite shr_record_of_loc_m. change (Z.max 0 0) with 0.
    rewrite Z.pow_0_r, Z.div_1_r. lia.
  - rewrite iter_shr_1_m by (rewrite shr_record_of_loc_m; lia).
    rewrite shr_record_of_loc_m. rewrite Z.max_r by lia. lia.
  - rewrite shr_record_of_loc_m. rewrite Z.max_l by lia.
    rewrite Z.pow_0_r, Z.div_1_r. lia.
Qed.

Lemma round_nearest_even_bounds m l :
  m <= round_nearest_even m l <= m + 1.
Proof.
  destruct l as [|[]]; simpl; try lia. destruct (Z.even m); lia.
Qed.

(** What [binary_round_aux] returns, up to the direction of the rounding. *)
Lemma binary_round_aux_spec sx mx ex lx :
  0 <= mx ->
  exists mr,
    mx / 2 ^ Py.dropped mx ex <= mr <= mx / 2 ^ Py.dropped mx ex + 1
    /\ binary_round_aux Py.prec Py.emax sx mx ex lx
       = let e' := ex + Py.dropped mx ex in
         let e'' := e' + Py.dropped mr e' in
         match mr / 2 ^ Py.dropped mr e' with
         | Z0 => S754_zero sx
         | Zpos m =>
             if e'' <=? Py.emax - Py.prec then S754_finite sx m e''
             else S754_infinity sx
         | Zneg _ => S754_nan
         end.
Proof.
  intros Hm. unfold binary_round_aux.
  destruct (shr_fexp_spec mx ex lx Hm) as [H1 H2].
  destruct (shr_fexp Py.prec Py.emax mx ex lx) as [mrs' e'] eqn:E1.
  simpl in H1, H2.
  set (mr := round_nearest_even (shr_m mrs') (loc_of_shr_record mrs')).
  pose proof (round_nearest_even_bounds (shr_m mrs') (loc_of_shr_record mrs')) as Hb.
  fold mr in Hb. rewrite H1 in Hb.
  assert (Hmr : 0 <= mr).
  { assert (0 <= mx / 2 ^ Py.dropped mx ex)
      by (apply Z.div_pos; [lia | apply Z.pow_pos_nonneg; unfold Py.dropped; lia]).
    lia. }
  destruct (shr_fexp_spec mr e' loc_Exact Hmr) as [H3 H4].
  destruct (shr_fexp Py.prec Py.emax mr e' loc_Exact) as [mrs'' e''] eqn:E2.
  simpl in H3, H4.
  exists mr. split; [exact Hb|].
  cbv zeta. rewrite H3, H4, H2. reflexivity.
Qed.

Lemma fexp_eq k : fexp Py.prec Py.emax k = Z.max (k - 53) (-1074).
Proof. reflexivity. Qed.

Lemma Zdigits2_nonneg m : 0 <= Zdigits2 m.
Proof. destruct m; simpl; lia. Qed.

Lemma Zdigits2_upper m : 0 <= m -> m < 2 ^ Zdigits2 m.
Proof.
  destruct m as [|p|p]; intros H; try lia.
  - simpl. lia.
  - apply Zdigits2_bounds.
Qed.

Lemma Zdigits2_lower m : 0 < m -> 2 ^ (Zdigits2 m - 1) <= m.
Proof.
  destruct m as [|p|p]; intros H; try lia. apply Zdigits2_bounds.
Qed.

(** A number below [2^k] has at most [k] digits. *)
Lemma Zdigits2_le m k : 0 <= m -> 0 <= k -> m < 2 ^ k -> Zdigits2 m <= k.
Proof.
  intros Hm Hk H.
  destruct (Z.eq_dec m 0) as [->|Hne]; [simpl; lia|].
  pose proof (Zdigits2_lower m ltac:(lia)) as L.
  destruct (Z_le_gt_dec (Zdigits2 m) k) as [|Hgt]; [assumption|exfalso].
  assert (2 ^ k <= 2 ^ (Zdigits2 m - 1)) by (apply Z.pow_le_mono_r; lia).
  lia.
Qed.

Lemma pow2_lt_inv a b : 0 <= b -> 2 ^ a < 2 ^ b -> a < b.
Proof. intros Hb H. apply (Z.pow_lt_mono_r_iff 2); lia. Qed.

Lemma fexp_normal k : -1021 <= k -> fexp Py.prec Py.emax k = k - 53.
Proof. intros Hk. unfold fexp, emin, Py.prec, Py.emax. lia. Qed.

Lemma dropped_known (M e d : Z) :
  0 < M -> 2 ^ (d - 1) <= M < 2 ^ d -> -1021 <= d + e ->
  Py.dropped M e = Z.max 0 (d - 53).
Proof.
  intros HM Hd He. unfold Py.dropped.
  rewrite (Zdigits2_unique_Z M d HM Hd), fexp_normal by lia.
  f_equal. lia.
Qed.

(** The rounding of [M * 2^e] when [M] has [d] digits, more than the
    precision, and the result is in the normal range. *)
Lemma round_known_digits sx (M e d : Z) l :
  0 < M -> 2 ^ (d - 1) <= M < 2 ^ d -> 53 <= d -> -1021 <= d + e <= 1023 ->
  exists mr,
    M / 2 ^ (d - 53) <= mr <= M / 2 ^ (d - 53) + 1
    /\ 2 ^ 52 <= mr <= 2 ^ 53
    /\ binary_round_aux Py.prec Py.emax sx M e l
       = if mr =? 2 ^ 53 then S754_finite sx (2 ^ 52)%positive (e + d - 52)
         else S754_finite sx (Z.to_pos mr) (e + d - 53).
Proof.
  intros HM Hd H53 He.
  destruct (binary_round_aux_spec sx M e l) as (mr & Hmr & Heq); [lia|].
  rewrite (dropped_known M e d HM Hd) in Hmr, Heq by lia.
  rewrite Z.max_r in Hmr, Heq by lia.
  assert (P : 0 < 2 ^ (d - 53)) by (apply Z.pow_pos_nonneg; lia).
  assert (E1 : 2 ^ (d - 1) = 2 ^ 52 * 2 ^ (d - 53))
    by (rewrite <- Z.pow_add_r by lia; f_equal; lia).
  assert (E2 : 2 ^ d = 2 ^ 53 * 2 ^ (d - 53))
    by (rewrite <- Z.pow_add_r by lia; f_equal; lia).
  assert (F1 : 2 ^ 52 <= M / 2 ^ (d - 53)).
  { apply Z.div_le_lower_bound; [lia|]. rewrite Z.mul_comm. lia. }
  assert (F2 : M / 2 ^ (d - 53) < 2 ^ 53).
  { apply Z.div_lt_upper_bound; [lia|]. rewrite Z.mul_comm. lia. }
  exists mr. split; [exact Hmr|]. split; [lia|].
  rewrite Heq. cbv zeta.
  destruct (Z.eqb_spec mr (2 ^ 53)) as [->|Hne].
  - rewrite (dropped_known (2 ^ 53) (e + (d - 53)) 54) by (simpl; lia).
    change (Z.max 0 (54 - 53)) with 1.
    change (2 ^ 53 / 2 ^ 1) with (Zpos (2 ^ 52)).
    cbv iota.
    replace (e + (d - 53) + 1 <=? Py.emax - Py.prec) with true
      by (symmetry; apply Z.leb_le; unfold Py.emax, Py.prec; lia).
    f_equal. lia.
  - rewrite (dropped_known mr (e + (d - 53)) 53) by (change (53 - 1) with 52; lia).
    change (Z.max 0 (53 - 53)) with 0.
    rewrite Z.pow_0_r, Z.div_1_r, Z.add_0_r.
    destruct mr as [|p|p]; try lia.
    replace (e + (d - 53) <=? Py.emax - Py.prec) with true
      by (symmetry; apply Z.leb_le; unfold Py.emax, Py.prec; lia).
    f_equal. lia.
Qed.

(** A finite float that [binary_round_aux] returns for an input with enough
    digits: its mantissa fits the precision, its exponent is in range, and a
    short mantissa has the least exponent. *)
Lemma round_valid sx M e l s (m : positive) e2 :
  0 <= M ->
  e <= fexp Py.prec Py.emax (Zdigits2 M + e) ->
  binary_round_aux Py.prec Py.emax sx M e l = S754_finite s m e2 ->
  Zpos m < 2 ^ 53 /\ -1074 <= e2 <= 971 /\ (Zpos m < 2 ^ 52 -> e2 = -1074).
Proof.
  intros HM He.
  destruct (binary_round_aux_spec sx M e l HM) as (mr & Hmr & ->).
  cbv zeta.
  remember (Zdigits2 M + e) as k eqn:Ek.
  assert (Hn1 : Py.dropped M e = fexp Py.prec Py.emax k - e)
    by (unfold Py.dropped; rewrite <- Ek; lia).
  rewrite Hn1 in *.
  replace (e + (fexp Py.prec Py.emax k - e)) with (fexp Py.prec Py.emax k) by lia.
  remember (fexp Py.prec Py.emax k - e) as n1 eqn:En1.
  assert (N1 : 0 <= n1) by lia.
  assert (P1 : 0 < 2 ^ n1) by (apply Z.pow_pos_nonneg; lia).
  pose proof (Zdigits2_upper M HM) as HU.
  pose proof (Zdigits2_nonneg M) as HD.
  rewrite fexp_eq in *.
  destruct (Z_lt_ge_dec (k - 53) (-1074)) as [Hsub | Hnorm].
  - (* the least exponent *)
    rewrite Z.max_r in * by lia.
    assert (HF : M / 2 ^ n1 < 2 ^ 52).
    { apply Z.div_lt_upper_bound; [lia|].
      rewrite <- Z.pow_add_r by lia.
      apply Z.lt_le_trans with (1 := HU). apply Z.pow_le_mono_r; lia. }
    assert (HF0 : 0 <= M / 2 ^ n1) by (apply Z.div_pos; lia).
    assert (Hd : Zdigits2 mr <= 53).
    { apply Zdigits2_le; change (2 ^ 53) with (2 * 2 ^ 52); lia. }
    assert (Hn2 : Py.dropped mr (-1074) = 0).
    { unfold Py.dropped. rewrite fexp_eq. pose proof (Zdigits2_nonneg mr). lia. }
    rewrite Hn2, Z.pow_0_r, Z.div_1_r, Z.add_0_r.
    destruct mr as [|p|p]; try discriminate.
    destruct (_ <=? _); try discriminate.
    intros [= _ <- <-].
    change (2 ^ 53) with (2 * 2 ^ 52). lia.
  - (* a full mantissa *)
    rewrite Z.max_l in * by lia.
    assert (HMpos : 0 < M).
    { destruct (Z.eq_dec M 0) as [->|]; [|lia]. simpl in *. lia. }
    pose proof (Zdigits2_lower M HMpos) as HL.
    assert (En1' : n1 = Zdigits2 M - 53) by lia.
    assert (E1 : 2 ^ (Zdigits2 M - 1) = 2 ^ 52 * 2 ^ n1)
      by (rewrite <- Z.pow_add_r by lia; f_equal; lia).
    assert (E2 : 2 ^ Zdigits2 M = 2 ^ 53 * 2 ^ n1)
      by (rewrite <- Z.pow_add_r by lia; f_equal; lia).
    assert (F1 : 2 ^ 52 <= M / 2 ^ n1).
    { apply Z.div_le_lower_bound; [lia|]. rewrite Z.mul_comm. lia. }
    assert (F2 : M / 2 ^ n1 < 2 ^ 53).
    { apply Z.div_lt_upper_bound; [lia|]. rewrite Z.mul_comm. lia. }
    destruct (Z.eq_dec mr (2 ^ 53)) as [->|Hne].
    + rewrite (dropped_known (2 ^ 53) (k - 53) 54) by (simpl; lia).
      change (Z.max 0 (54 - 53)) with 1.
      change (2 ^ 53 / 2 ^ 1) with (Zpos (2 ^ 52)). cbv iota.
      destruct (Z.leb_spec (k - 53 + 1) (Py.emax - Py.prec)); try discriminate.
      intros [= _ <- <-]. unfold Py.emax, Py.prec in *.
      split; [reflexivity|]. split; [lia|]. intros H'. discriminate H'.
    + rewrite (dropped_known mr (k - 53) 53) by (change (53 - 1) with 52; lia).
      change (Z.max 0 (53 - 53)) with 0.
      rewrite Z.pow_0_r, Z.div_1_r, Z.add_0_r.
      destruct mr as [|p|p]; try lia.
      destruct (Z.leb_spec (k - 53) (Py.emax - Py.prec)); try discriminate.
      intros [= _ <- <-]. unfold Py.emax, Py.prec in *. lia.
Qed.

Lemma div_core_exact (m1 m2 : positive) (e1 e2 : Z) :
  let ez := Py.div_exponent (Zpos m1) e1 (Zpos m2) e2 in
  exists l,
    SFdiv_core_binary Py.prec Py.emax (Zpos m1) e1 (Zpos m2) e2
    = (Zpos m1 * 2 ^ (e1 - e2 - ez) / Zpos m2, ez, l).
Proof.
  intros ez. unfold SFdiv_core_binary. fold (Py.div_exponent (Zpos m1) e1 (Zpos m2) e2).
  fold ez.
  assert (He : ez <= e1 - e2) by (subst ez; unfold Py.div_exponent; lia).
  destruct (Z.div_eucl
              match e1 - e2 - ez with
              | 0 => Zpos m1
              | Zpos _ => Z.shiftl (Zpos m1) (e1 - e2 - ez)
              | Zneg _ => 0
              end (Zpos m2)) as [q r] eqn:E.
  exists (new_location (Zpos m2) r).
  do 2 f_equal.
  assert (Hq : q = match e1 - e2 - ez with
                   | 0 => Zpos m1
                   | Zpos _ => Z.shiftl (Zpos m1) (e1 - e2 - ez)
                   | Zneg _ => 0
                   end / Zpos m2)
    by (unfold Z.div; now rewrite E).
  rewrite Hq. f_equal.
  destruct (e1 - e2 - ez) as [|p|p] eqn:Es.
  - rewrite Z.pow_0_r. lia.
  - now rewrite Z.shiftl_mul_pow2 by lia.
  - lia.
Qed.

(** The quotient has digits enough for the rounding to put it in place. *)
Lemma div_core_digits (m1 m2 : positive) (e1 e2 : Z) :
  let ez := Py.div_exponent (Zpos m1) e1 (Zpos m2) e2 in
  ez <= fexp Py.prec Py.emax
          (Zdigits2 (Zpos m1 * 2 ^ (e1 - e2 - ez) / Zpos m2) + ez).
Proof.
  intros ez.
  set (g := Zdigits2 (Zpos m1) + e1 - (Zdigits2 (Zpos m2) + e2)).
  assert (Hez : ez = Z.min (fexp Py.prec Py.emax g) (e1 - e2)) by reflexivity.
  clearbody ez.
  rewrite fexp_eq in Hez. rewrite fexp_eq.
  destruct (Z_le_gt_dec (g - 53) (-1074)) as [Hsub | Hnorm]; [lia|].
  assert (Hs : 0 <= e1 - e2 - ez) by lia.
  set (q := Zpos m1 * 2 ^ (e1 - e2 - ez) / Zpos m2).
  assert (Hk : 0 <= g - ez - 1) by lia.
  assert (Hq : 2 ^ (g - ez - 1) <= q).
  { subst q. apply Z.div_le_lower_bound; [lia|].
    pose proof (Zdigits2_bounds m1) as [L1 _].
    pose proof (Zdigits2_bounds m2) as [_ U2].
    pose proof (Zdigits2_nonneg (Zpos m2)) as D2.
    assert (D1 : 0 < Zdigits2 (Zpos m1)) by (simpl; lia).
    apply Z.le_trans with (2 ^ Zdigits2 (Zpos m2) * 2 ^ (g - ez - 1)).
    - apply Z.mul_le_mono_nonneg_r; [apply Z.pow_nonneg; lia | lia].
    - rewrite <- Z.pow_add_r by lia.
      replace (Zdigits2 (Zpos m2) + (g - ez - 1))
        with ((Zdigits2 (Zpos m1) - 1) + (e1 - e2 - ez)) by (subst g; lia).
      rewrite Z.pow_add_r by lia.
      apply Z.mul_le_mono_nonneg_r; [apply Z.pow_nonneg; lia | exact L1]. }
  assert (Hq0 : 0 <= q) by (pose proof (Z.pow_nonneg 2 (g - ez - 1)); lia).
  pose proof (Zdigits2_upper q Hq0) as HU.
  pose proof (Zdigits2_nonneg q) as HD.
  assert (g - ez - 1 < Zdigits2 q) by (apply pow2_lt_inv; lia).
  lia.
Qed.

Lemma div_succ_le a k : 0 < k -> (a + 1) / k <= a / k + 1.
Proof.
  intros Hk. Z.div_mod_to_equations. nia.
Qed.

(** A finite quotient of two positive floats: within one unit of its last
    place of the exact quotient. *)
Lemma div_finite_bounds (mb ma : positive) (eb ea : Z) s (m : positive) e :
  Py.div (S754_finite false mb eb) (S754_finite false ma ea) = S754_finite s m e ->
  exists sh n,
    s = false /\ 0 <= sh /\ 0 <= n /\ e = eb - ea - sh + n
    /\ (Zpos m - 1) * (Zpos ma * 2 ^ n) <= Zpos mb * 2 ^ sh
    /\ Zpos mb * 2 ^ sh < (Zpos m + 1) * (Zpos ma * 2 ^ n).
Proof.
  unfold Py.div, SFdiv.
  destruct (div_core_exact mb ma eb ea) as (l & E). cbv zeta in E. rewrite E. clear E.
  assert (Hsh : 0 <= eb - ea - Py.div_exponent (Zpos mb) eb (Zpos ma) ea)
    by (unfold Py.div_exponent; lia).
  replace (Py.div_exponent (Zpos mb) eb (Zpos ma) ea)
    with (eb - ea - (eb - ea - Py.div_exponent (Zpos mb) eb (Zpos ma) ea)) at 2 by lia.
  generalize dependent (eb - ea - Py.div_exponent (Zpos mb) eb (Zpos ma) ea).
  intros sh Hsh.
  set (X := Zpos mb * 2 ^ sh).
  assert (HX : 0 <= X) by (subst X; apply Z.mul_nonneg_nonneg; [lia | apply Z.pow_nonneg; lia]).
  set (q := X / Zpos ma).
  assert (Hq : 0 <= q) by (apply Z.div_pos; lia).
  destruct (binary_round_aux_spec (xorb false false) q (eb - ea - sh) l Hq)
    as (mr & Hmr & ->).
  cbv zeta.
  set (n1 := Py.dropped q (eb - ea - sh)).
  set (n2 := Py.dropped mr (eb - ea - sh + n1)).
  assert (Hn1 : 0 <= n1) by (subst n1; unfold Py.dropped; lia).
  assert (Hn2 : 0 <= n2) by (subst n2; unfold Py.dropped; lia).
  fold n1 in Hmr.
  destruct (mr / 2 ^ n2) as [|m'|m'] eqn:Em; try discriminate.
  destruct (_ <=? _); try discriminate.
  intros [= <- <- <-].
  exists sh, (n1 + n2). repeat split; try lia.
  - (* lower bound *)
    assert (P1 : 0 < 2 ^ n1) by (apply Z.pow_pos_nonneg; lia).
    assert (P2 : 0 < 2 ^ n2) by (apply Z.pow_pos_nonneg; lia).
    rewrite Z.pow_add_r by lia.
    assert (G : Zpos m' <= X / (Zpos ma * (2 ^ n1 * 2 ^ n2)) + 1).
    { rewrite <- Em. rewrite Z.mul_assoc, <- !Z.div_div by lia. fold q.
      transitivity ((q / 2 ^ n1 + 1) / 2 ^ n2).
      - apply Z.div_le_mono; lia.
      - apply div_succ_le. lia. }
    assert (D : 0 < Zpos ma * (2 ^ n1 * 2 ^ n2)) by nia.
    revert G D. generalize (Zpos ma * (2 ^ n1 * 2 ^ n2)). intros D G HD.
    assert (X / D * D <= X) by (rewrite Z.mul_comm; apply Z.mul_div_le; lia).
    assert (X < (X / D + 1) * D).
    { rewrite Z.mul_comm. pose proof (Z.mul_succ_div_gt X D HD). lia. }
    nia.
  - assert (P1 : 0 < 2 ^ n1) by (apply Z.pow_pos_nonneg; lia).
    assert (P2 : 0 < 2 ^ n2) by (apply Z.pow_pos_nonneg; lia).
    rewrite Z.pow_add_r by lia.
    assert (G : X / (Zpos ma * (2 ^ n1 * 2 ^ n2)) <= Zpos m').
    { rewrite <- Em. rewrite Z.mul_assoc, <- !Z.div_div by lia.
      apply Z.div_le_mono; [lia|]. fold q. lia. }
    assert (D : 0 < Zpos ma * (2 ^ n1 * 2 ^ n2)) by nia.
    revert G D. generalize (Zpos ma * (2 ^ n1 * 2 ^ n2)). intros D G HD.
    assert (X < (X / D + 1) * D).
    { rewrite Z.mul_comm. pose proof (Z.mul_succ_div_gt X D HD). lia. }
    nia.
Qed.

(** A finite quotient of two positive floats is a binary64 value. *)
Lemma div_finite_valid (mb ma : positive) (eb ea : Z) s (m : positive) e :
  Py.div (S754_finite false mb eb) (S754_finite false ma ea) = S754_finite s m e ->
  Zpos m < 2 ^ 53 /\ -1074 <= e <= 971 /\ (Zpos m < 2 ^ 52 -> e = -1074).
Proof.
  unfold Py.div, SFdiv.
  destruct (div_core_exact mb ma eb ea) as (l & ->).
  apply round_valid.
  - apply Z.div_pos; [|lia].
    apply Z.mul_nonneg_nonneg; [lia | apply Z.pow_nonneg; lia].
  - apply div_core_digits.
Qed.

(** Two finite quotients [b / a] and [a / b]: their exponents add up to
    [-103], [-104] or [-105], and the mantissas multiply to that power of
    two, up to their sum. *)
Lemma reciprocal_quotients (ma mb m1 m2 : positive) (ea eb e1 e2 : Z) s1 s2 :
  Py.div (S754_finite false mb eb) (S754_finite false ma ea) = S754_finite s1 m1 e1 ->
  Py.div (S754_finite false ma ea) (S754_finite false mb eb) = S754_finite s2 m2 e2 ->
  exists t,
    (t = 103 \/ t = 104 \/ t = 105) /\ e1 + e2 = - t
    /\ Zpos m1 < 2 ^ 53 /\ Zpos m2 < 2 ^ 53
    /\ (Zpos m1 - 1) * (Zpos m2 - 1) <= 2 ^ t
    /\ 2 ^ t < (Zpos m1 + 1) * (Zpos m2 + 1).
Proof.
  intros H1 H2.
  destruct (div_finite_bounds _ _ _ _ _ _ _ H1)
    as (sh & n & _ & Hsh & Hn & He1 & L1 & U1).
  destruct (div_finite_bounds _ _ _ _ _ _ _ H2)
    as (sh' & n' & _ & Hsh' & Hn' & He2 & L2 & U2).
  destruct (div_finite_valid _ _ _ _ _ _ _ H1) as (B1 & R1 & S1).
  destruct (div_finite_valid _ _ _ _ _ _ _ H2) as (B2 & R2 & S2).
  clear H1 H2.
  change (2 ^ 52) with 4503599627370496 in S1, S2.
  change (2 ^ 53) with 9007199254740992 in B1, B2.
  assert (PU : 0 < 2 ^ n) by (apply Z.pow_pos_nonneg; lia).
  assert (PU' : 0 < 2 ^ n') by (apply Z.pow_pos_nonneg; lia).
  assert (PV : 0 < 2 ^ sh) by (apply Z.pow_pos_nonneg; lia).
  assert (PV' : 0 < 2 ^ sh') by (apply Z.pow_pos_nonneg; lia).
  assert (ES : 2 ^ (sh + sh') = 2 ^ sh * 2 ^ sh') by (apply Z.pow_add_r; lia).
  assert (EP : 2 ^ (n + n') = 2 ^ n * 2 ^ n') by (apply Z.pow_add_r; lia).
  revert L1 U1 L2 U2 ES EP PU PU' PV PV'.
  generalize (2 ^ n) (2 ^ n') (2 ^ sh) (2 ^ sh') (Zpos ma) (Pos2Z.is_pos ma)
             (Zpos mb) (Pos2Z.is_pos mb).
  intros U U' V V' a Ha b Hb L1 U1 L2 U2 ES EP PU PU' PV PV'.
  set (K1 := (Zpos m1 - 1) * (Zpos m2 - 1)).
  set (K2 := (Zpos m1 + 1) * (Zpos m2 + 1)).
  assert (HK2 : K2 <= 2 ^ 106)
    by (change (2 ^ 106) with 81129638414606681695789005144064; subst K2; nia).
  assert (C1 : K1 * 2 ^ (n + n') <= 2 ^ (sh + sh')).
  { rewrite ES, EP.
    assert (((Zpos m1 - 1) * (a * U)) * ((Zpos m2 - 1) * (b * U')) <= (b * V) * (a * V'))
      by (apply Z.mul_le_mono_nonneg; [|exact L1| |exact L2];
          (apply Z.mul_nonneg_nonneg; [lia|apply Z.mul_nonneg_nonneg; lia])).
    apply (Z.mul_le_mono_pos_r _ _ (a * b)); [apply Z.mul_pos_pos; lia|].
    subst K1. lia. }
  assert (C2 : 2 ^ (sh + sh') < K2 * 2 ^ (n + n')).
  { rewrite ES, EP.
    assert ((b * V) * (a * V') < ((Zpos m1 + 1) * (a * U)) * ((Zpos m2 + 1) * (b * U')))
      by (apply Z.mul_lt_mono_nonneg; [|exact U1| |exact U2];
          apply Z.mul_nonneg_nonneg; lia).
    apply (Z.mul_lt_mono_pos_r (a * b)); [apply Z.mul_pos_pos; lia|].
    subst K2. lia. }
  clear L1 U1 L2 U2 ES EP.
  assert (PP : 0 < 2 ^ (n + n')) by (apply Z.pow_pos_nonneg; lia).
  assert (T1 : 102 + (n + n') < sh + sh').
  { destruct (Z_lt_ge_dec (Zpos m1) 4503599627370496) as [Sub1|Nor1];
      [specialize (S1 Sub1); lia|].
    destruct (Z_lt_ge_dec (Zpos m2) 4503599627370496) as [Sub2|Nor2];
      [specialize (S2 Sub2); lia|].
    assert (HK1 : 2 ^ 103 < K1)
      by (change (2 ^ 103) with 10141204801825835211973625643008; subst K1; nia).
    assert (103 + (n + n') < sh + sh'); [|lia].
    apply pow2_lt_inv; [lia|]. rewrite Z.pow_add_r by lia.
    apply Z.lt_le_trans with (K1 * 2 ^ (n + n')); [|exact C1].
    apply Z.mul_lt_mono_pos_r; assumption. }
  assert (T2 : sh + sh' < 106 + (n + n')).
  { apply pow2_lt_inv; [lia|]. rewrite (Z.pow_add_r 2 106) by lia.
    apply Z.lt_le_trans with (K2 * 2 ^ (n + n')); [exact C2|].
    apply Z.mul_le_mono_nonneg_r; [lia | exact HK2]. }
  exists (sh + sh' - (n + n')).
  split; [lia|]. split; [lia|]. split; [exact B1|]. split; [exact B2|].
  assert (E : 2 ^ (sh + sh') = 2 ^ (sh + sh' - (n + n')) * 2 ^ (n + n')).
  { rewrite <- Z.pow_add_r by lia. f_equal. lia. }
  rewrite E in C1, C2.
  split.
  - apply (Z.mul_le_mono_pos_r _ _ (2 ^ (n + n'))); assumption.
  - apply (Z.mul_lt_mono_pos_r (2 ^ (n + n'))); assumption.
Qed.

Lemma leb_same_exponent (m1 m2 : positive) e :
  Zpos m1 <= Zpos m2 ->
  Py.leb (S754_finite false m1 e) (S754_finite false m2 e) = true.
Proof.
  intros H. unfold Py.leb, SFleb, SFcompare. rewrite Z.compare_refl.
  change (Pos.compare_cont Eq m1 m2) with (Pos.compare m1 m2).
  destruct (Pos.compare_spec m1 m2); try reflexivity. lia.
Qed.

Lemma leb_lower_exponent (m1 m2 : positive) e1 e2 :
  e1 < e2 ->
  Py.leb (S754_finite false m1 e1) (S754_finite false m2 e2) = true.
Proof.
  intros H. unfold Py.leb, SFleb, SFcompare.
  now rewrite (proj2 (Z.compare_lt_iff e1 e2) H).
Qed.

(** Two mantissas whose product is a power of two up to their sum,
    with the matching exponents: the float product is close to one. *)
Lemma product_near_one (m1 m2 : positive) (e1 e2 t : Z) :
  t = 103 \/ t = 104 \/ t = 105 ->
  e1 + e2 = - t ->
  Zpos m1 < 2 ^ 53 ->
  Zpos m2 < 2 ^ 53 ->
  (Zpos m1 - 1) * (Zpos m2 - 1) <= 2 ^ t ->
  2 ^ t < (Zpos m1 + 1) * (Zpos m2 + 1) ->
  Py.near_one (Py.mul (S754_finite false m1 e1) (S754_finite false m2 e2)) = true.
Proof.
  intros Ht He B1 B2 L U.
  unfold Py.mul, SFmul. rewrite He. simpl xorb.
  rewrite Pos2Z.inj_mul.
  set (M := Zpos m1 * Zpos m2) in *.
  replace ((Zpos m1 - 1) * (Zpos m2 - 1)) with (M - Zpos m1 - Zpos m2 + 1) in L
    by (subst M; ring).
  replace ((Zpos m1 + 1) * (Zpos m2 + 1)) with (M + Zpos m1 + Zpos m2 + 1) in U
    by (subst M; ring).
  change (2 ^ 53) with 9007199254740992 in B1, B2.
  clearbody M.
  assert (Hlo : 2 ^ t - 2 ^ 54 < M) by (change (2 ^ 54) with 18014398509481984; lia).
  assert (Hhi : M < 2 ^ t + 2 ^ 54) by (change (2 ^ 54) with 18014398509481984; lia).
  clear L U B1 B2 He m1 m2 e1 e2.
  assert (HM : 0 < M) by (destruct Ht as [-> | [-> | ->]]; simpl in *; lia).
  destruct (Z_lt_le_dec M (2 ^ t)) as [Hlt | Hge].
  - (* below the power of two: [t] digits *)
    destruct (round_known_digits false M (- t) t loc_Exact HM) as (mr & Hmr & Hr & ->);
      [destruct Ht as [-> | [-> | ->]]; simpl in *; lia | lia | lia |].
    assert (Hmr' : 2 ^ 53 - 16 <= mr).
    { destruct Ht as [-> | [-> | ->]]; simpl in *; Z.div_mod_to_equations; lia. }
    destruct (Z.eqb_spec mr (2 ^ 53)) as [->|Hne].
    + replace (- t + t - 52) with (-52) by lia. vm_compute. reflexivity.
    + replace (- t + t - 53) with (-53) by lia.
      unfold Py.near_one. apply andb_true_iff. split.
      * change (Py.sub Py.one Py.tolerance)
          with (S754_finite false 9007199254740976 (-53)).
        apply leb_same_exponent. rewrite Z2Pos.id by lia.
        change (2 ^ 53 - 16) with 9007199254740976 in Hmr'. lia.
      * change (Py.add Py.one Py.tolerance)
          with (S754_finite false 4503599627370504 (-52)).
        apply leb_lower_exponent. lia.
  - (* at or above the power of two: [t + 1] digits *)
    destruct (round_known_digits false M (- t) (t + 1) loc_Exact HM) as (mr & Hmr & Hr & ->);
      [destruct Ht as [-> | [-> | ->]]; simpl in *; lia | lia | lia |].
    assert (Hmr' : mr <= 2 ^ 52 + 8).
    { destruct Ht as [-> | [-> | ->]]; simpl in *; Z.div_mod_to_equations; lia. }
    destruct (Z.eqb_spec mr (2 ^ 53)) as [->|Hne]; [simpl in Hmr'; lia|].
    replace (- t + (t + 1) - 53) with (-52) by lia.
    unfold Py.near_one. apply andb_true_iff. split.
    + change (Py.sub Py.one Py.tolerance)
        with (S754_finite false 9007199254740976 (-53)).
      apply leb_lower_exponent. lia.
    + change (Py.add Py.one Py.tolerance)
        with (S754_finite false 4503599627370504 (-52)).
      apply leb_same_exponent. rewrite Z2Pos.id by lia.
      change (2 ^ 52 + 8) with 4503599627370504 in Hmr'. lia.
Qed.

Lemma finite_nonzero_is_finite (x : spec_float) :
  Py.is_finite x = true -> Py.neqb x Py.zero = true ->
  exists s m e, x = S754_finite s m e.
Proof. destruct x as [[]|[]| |s m e]; try discriminate. eauto. Qed.

(** The two quotients of two positive floats, when neither is infinite or
    zero, multiply to a float within the tolerance of one. *)
Lemma reciprocal_product (a b : spec_float) :
  Py.ltb Py.zero a = true -> Py.ltb Py.zero b = true ->
  Py.is_finite (Py.div b a) = true -> Py.neqb (Py.div b a) Py.zero = true ->
  Py.is_finite (Py.div a b) = true -> Py.neqb (Py.div a b) Py.zero = true ->
  Py.near_one (Py.mul (Py.div b a) (Py.div a b)) = true.
Proof.
  intros Ha Hb F1 N1 F2 N2.
  destruct (finite_nonzero_is_finite _ F1 N1) as (s1 & m1 & e1 & E1).
  destruct (finite_nonzero_is_finite _ F2 N2) as (s2 & m2 & e2 & E2).
  rewrite E1, E2. clear F1 N1 F2 N2.
  destruct a as [[]|[]| |[] ma ea]; try discriminate Ha;
    destruct b as [[]|[]| |[] mb eb]; try discriminate Hb;
    try discriminate E1; try discriminate E2.
  clear Ha Hb.
  destruct (reciprocal_quotients _ _ _ _ _ _ _ _ _ _ E1 E2)
    as (t & Ht & He & B1 & B2 & L & U).
  destruct (div_finite_bounds _ _ _ _ _ _ _ E1) as (? & ? & -> & _).
  destruct (div_finite_bounds _ _ _ _ _ _ _ E2) as (? & ? & -> & _).
  now apply (product_near_one m1 m2 e1 e2 t).
Qed.

End Rounding.

(* ===================================================================== *)
(** ** Exchange rates *)
(* ===================================================================== *)

Section Rates.

Implicit Types (o : Online.t) (p : Offline.t) (c x y : string).

Lemma entry_absent (rates : table) c : rates !! c = None -> entry rates c = Py.zero.
Proof. unfold entry. now intros ->. Qed.

Lemma entry_present (rates : table) c v : rates !! c = Some v -> entry rates c = v.
Proof. unfold entry. now intros ->. Qed.

(** A table that holds a code is not the empty one. *)
Lemma holds_not_empty (rates : table) c v : rates !! c = Some v -> rates ≠ ∅.
Proof. intros H ->. now rewrite lookup_empty in H. Qed.

Lemma online_same o c :
  Online.get_exchange_rate o c c
  = Some (if bool_decide (Online.rates o = ∅) then Py.zero else Py.one).
Proof.
  unfold Online.get_exchange_rate.
  case_bool_decide; [reflexivity|].
  now rewrite bool_decide_eq_true_2.
Qed.

Lemma offline_same p c : Offline.get_exchange_rate p c c = Some Py.one.
Proof. unfold Offline.get_exchange_rate. now rewrite bool_decide_eq_true_2. Qed.

Lemma online_distinct o x y :
  Online.rates o ≠ ∅ -> x ≠ y ->
  Online.get_exchange_rate o x y
  = match Online.lookup_rate o x y with
    | Some (Some r) => Some r
    | _ => Some Py.zero
    end.
Proof.
  intros Hne Hxy. unfold Online.get_exchange_rate.
  rewrite (bool_decide_eq_false_2 _ Hne), (bool_decide_eq_false_2 _ Hxy).
  now destruct (Online.lookup_rate o x y) as [[r|]|].
Qed.

Lemma online_from_base o y :
  Online.rates o ≠ ∅ -> Online.base_currency o ≠ y ->
  Online.get_exchange_rate o (Online.base_currency o) y
  = Some (entry (Online.rates o) y).
Proof.
  intros Hne Hy. rewrite online_distinct by assumption.
  unfold Online.lookup_rate. now rewrite bool_decide_eq_true_2.
Qed.

Lemma online_to_base o x :
  Online.rates o ≠ ∅ -> x ≠ Online.base_currency o ->
  Online.get_exchange_rate o x (Online.base_currency o)
  = Some (if Py.eqb (entry (Online.rates o) x) Py.zero then Py.zero
          else Py.div Py.one (entry (Online.rates o) x)).
Proof.
  intros Hne Hx. rewrite online_distinct by assumption.
  unfold Online.lookup_rate.
  rewrite (bool_decide_eq_false_2 _ Hx), bool_decide_eq_true_2 by reflexivity.
  unfold Py.neqb, Py.truediv.
  now destruct (Py.eqb (entry (Online.rates o) x) Py.zero).
Qed.

Lemma online_cross o x y :
  Online.rates o ≠ ∅ -> x ≠ y ->
  x ≠ Online.base_currency o -> y ≠ Online.base_currency o ->
  Online.get_exchange_rate o x y = Some (cross (Online.rates o) x y).
Proof.
  intros Hne Hxy Hx Hy. rewrite online_distinct by assumption.
  unfold Online.lookup_rate, cross.
  rewrite (bool_decide_eq_false_2 _ Hx), (bool_decide_eq_false_2 _ Hy).
  unfold Py.neqb, Py.truediv.
  destruct (Py.eqb (entry (Online.rates o) x) Py.zero); [reflexivity|].
  now destruct (Py.eqb (entry (Online.rates o) y) Py.zero).
Qed.

Lemma offline_cross p x y :
  x ≠ y -> Offline.get_exchange_rate p x y = Some (cross (Offline.rates p) x y).
Proof.
  intros Hxy. unfold Offline.get_exchange_rate, cross.
  rewrite (bool_decide_eq_false_2 _ Hxy).
  unfold Py.neqb, Py.truediv.
  destruct (Py.eqb (entry (Offline.rates p) x) Py.zero); [reflexivity|].
  now destruct (Py.eqb (entry (Offline.rates p) y) Py.zero).
Qed.

(** On a table of numbers the guards keep the divisions from raising. *)
Lemma online_total o x y : is_Some (Online.get_exchange_rate o x y).
Proof.
  unfold Online.get_exchange_rate.
  repeat case_bool_decide; eauto.
  destruct (Online.lookup_rate o x y) as [[r|]|]; eauto.
Qed.

Lemma offline_total p x y : is_Some (Offline.get_exchange_rate p x y).
Proof.
  destruct (decide (x = y)) as [->|Hxy].
  - rewrite offline_same. eauto.
  - rewrite offline_cross by assumption. eauto.
Qed.

Lemma provider_total (P : provider) x y : is_Some (get_exchange_rate P x y).
Proof. destruct P; [apply online_total | apply offline_total]. Qed.

End Rates.

(* ===================================================================== *)
(** ** The history *)
(* ===================================================================== *)

Section HistoryFacts.

Implicit Types (h : History.t) (e : History.record) (es : list History.record).

Lemma save_entry_list h e :
  History.history_list (History.save_entry h e)
  = if (50 <? length (History.history_list h ++ [e]))%nat
    then tail (History.history_list h ++ [e])
    else History.history_list h ++ [e].
Proof.
  unfold History.save_entry, History.pop0.
  now destruct (50 <? length (History.history_list h ++ [e]))%nat.
Qed.

(** One call: the entry goes to the end, and the oldest record leaves when
    fifty were held. *)
Lemma save_entry_snoc h e :
  History.history_list (History.save_entry h e)
  = (if (50 <=? length (History.history_list h))%nat
     then tail (History.history_list h)
     else History.history_list h) ++ [e].
Proof.
  rewrite save_entry_list, length_app.
  change (length [e]) with 1%nat.
  destruct (Nat.ltb_spec 50 (length (History.history_list h) + 1));
    destruct (Nat.leb_spec 50 (length (History.history_list h))); try lia.
  - destruct (History.history_list h); [simpl in *; lia | reflexivity].
  - reflexivity.
Qed.

Lemma save_entry_drop h e :
  (length (History.history_list h) <= 50)%nat ->
  History.history_list (History.save_entry h e)
  = drop (length (History.history_list h) + 1 - 50) (History.history_list h ++ [e]).
Proof.
  intros Hlen. rewrite save_entry_list, length_app. simpl.
  destruct (50 <? length (History.history_list h) + 1)%nat eqn:E.
  - apply Nat.ltb_lt in E.
    replace (length (History.history_list h) + 1 - 50)%nat with 1%nat by lia.
    now destruct (History.history_list h ++ [e]).
  - apply Nat.ltb_ge in E.
    now replace (length (History.history_list h) + 1 - 50)%nat with 0%nat by lia.
Qed.

Lemma save_entry_length h e :
  (length (History.history_list h) <= 50)%nat ->
  (length (History.history_list (History.save_entry h e)) <= 50)%nat.
Proof.
  intros Hlen. rewrite save_entry_drop by assumption.
  rewrite length_drop, length_app. simpl. lia.
Qed.

(** Any number of calls keeps the last fifty of what was offered. *)
Lemma save_all_drop es : forall h,
  (length (History.history_list h) <= 50)%nat ->
  History.history_list (History.save_all es h)
  = drop (length (History.history_list h ++ es) - 50) (History.history_list h ++ es).
Proof.
  induction es as [|e es IH]; intros h Hlen.
  - simpl. rewrite app_nil_r.
    now replace (length (History.history_list h) - 50)%nat with 0%nat by lia.
  - change (History.save_all (e :: es) h)
      with (History.save_all es (History.save_entry h e)).
    rewrite IH by now apply save_entry_length.
    rewrite save_entry_drop by assumption.
    set (l := History.history_list h) in *.
    set (k := (length l + 1 - 50)%nat).
    assert (Hk : (k <= length (l ++ [e]))%nat) by (rewrite length_app; simpl; lia).
    rewrite <- (drop_app_le (l ++ [e]) es k Hk), <- app_assoc. simpl.
    rewrite drop_drop. f_equal.
    rewrite length_drop, !length_app. simpl. lia.
Qed.

Lemma save_all_length es h :
  (length (History.history_list h) <= 50)%nat ->
  (length (History.history_list (History.save_all es h)) <= 50)%nat.
Proof.
  intros Hlen. rewrite save_all_drop by assumption.
  rewrite length_drop. lia.
Qed.

End HistoryFacts.

(* ===================================================================== *)
(** ** Time stamps: [strptime] reads what [strftime] writes *)
(* ===================================================================== *)

Section Timestamps.

Import Datetime.

(** A property of the numbers below a bound holds when it holds for each
    of them. *)
Lemma below_cases (P : Z -> Prop) (b : nat) :
  (forall k : nat, (k < b)%nat -> P (Z.of_nat k)) ->
  forall n, 0 <= n < Z.of_nat b -> P n.
Proof.
  intros H n Hn. rewrite <- (Z2Nat.id n) by lia. apply H. lia.
Qed.

Ltac each_below b :=
  let n := fresh "n" in
  let Hn := fresh "Hn" in
  let k := fresh "k" in
  let Hk := fresh "Hk" in
  intros n Hn; pattern n; apply (below_cases _ b); [|exact Hn];
  clear n Hn; intros k Hk; lazy beta;
  repeat (destruct k as [|k]; [try reflexivity; intros; lia | try lia]).

Lemma digit_char_mod n : digit_char n = digit_char (n mod 10).
Proof. unfold digit_char. now rewrite Z.mod_mod. Qed.

Lemma digit_char_digit n : Py.is_digit (digit_char n) = true.
Proof.
  rewrite digit_char_mod.
  assert (Hn : 0 <= n mod 10 < Z.of_nat 10) by (apply Z.mod_pos_bound; lia).
  revert Hn. generalize (n mod 10). each_below 10%nat.
Qed.

Lemma digit_char_space n : Py.is_space (digit_char n) = false.
Proof.
  rewrite digit_char_mod.
  assert (Hn : 0 <= n mod 10 < Z.of_nat 10) by (apply Z.mod_pos_bound; lia).
  revert Hn. generalize (n mod 10). each_below 10%nat.
Qed.

(** The code point of a digit, and what [strptime] sees in it. *)
Lemma byte_digit_char n : Unicode.byte (digit_char n) = 48 + n mod 10.
Proof.
  rewrite digit_char_mod.
  assert (Hn : 0 <= n mod 10 < Z.of_nat 10) by (apply Z.mod_pos_bound; lia).
  revert Hn. generalize (n mod 10). each_below 10%nat.
Qed.

Lemma digit_code_decimal n : Unicode.isdecimal (48 + n mod 10) = true.
Proof.
  assert (Hn : 0 <= n mod 10 < Z.of_nat 10) by (apply Z.mod_pos_bound; lia).
  revert Hn. generalize (n mod 10). each_below 10%nat.
Qed.

Lemma digit_code_val n : dv (48 + n mod 10) = n mod 10.
Proof.
  assert (Hn : 0 <= n mod 10 < Z.of_nat 10) by (apply Z.mod_pos_bound; lia).
  revert Hn. generalize (n mod 10). each_below 10%nat.
Qed.

Lemma dir_Y_digits y r :
  0 <= y <= 9999 ->
  dir_Y (48 + (y / 1000) mod 10 :: 48 + (y / 100) mod 10 :: 48 + (y / 10) mod 10
         :: 48 + y mod 10 :: r)
  = Some (y, r).
Proof.
  intros Hy. unfold dir_Y.
  rewrite !digit_code_decimal, !digit_code_val. cbn [andb]. do 2 f_equal.
  Z.div_mod_to_equations. lia.
Qed.

Lemma dir_m_digits r : forall n, 0 <= n < Z.of_nat 13 ->
  1 <= n -> dir_m (48 + (n / 10) mod 10 :: 48 + n mod 10 :: r) = Some (n, r).
Proof. each_below 13%nat. Qed.

Lemma dir_d_digits r : forall n, 0 <= n < Z.of_nat 32 ->
  1 <= n -> dir_d (48 + (n / 10) mod 10 :: 48 + n mod 10 :: r) = Some (n, r).
Proof. each_below 32%nat. Qed.

Lemma dir_H_digits r : forall n, 0 <= n < Z.of_nat 24 ->
  dir_H (48 + (n / 10) mod 10 :: 48 + n mod 10 :: r) = Some (n, r).
Proof. each_below 24%nat. Qed.

Lemma dir_M_digits r : forall n, 0 <= n < Z.of_nat 60 ->
  dir_M (48 + (n / 10) mod 10 :: 48 + n mod 10 :: r) = Some (n, r).
Proof. each_below 60%nat. Qed.

Lemma dir_S_digits r : forall n, 0 <= n < Z.of_nat 60 ->
  dir_S (48 + (n / 10) mod 10 :: 48 + n mod 10 :: r) = Some (n, r).
Proof. each_below 60%nat. Qed.

Lemma spaces_digit n r :
  spaces (32 :: 48 + n mod 10 :: r) = Some (48 + n mod 10 :: r).
Proof.
  assert (Hn : 0 <= n mod 10 < Z.of_nat 10) by (apply Z.mod_pos_bound; lia).
  revert Hn. generalize (n mod 10). each_below 10%nat.
Qed.

(** A byte below 128 is its own code point. *)
Lemma decode_ascii c l :
  Unicode.byte c < 128 ->
  Unicode.decode (c :: l) = cons (Unicode.byte c) <$> Unicode.decode l.
Proof.
  intros H. cbn [Unicode.decode]. cbv zeta.
  now rewrite (proj2 (Z.ltb_lt _ _) H).
Qed.

Lemma decode_digit_char n l :
  Unicode.decode (digit_char n :: l) = cons (48 + n mod 10) <$> Unicode.decode l.
Proof.
  rewrite decode_ascii; rewrite byte_digit_char; [reflexivity|].
  pose proof (Z.mod_pos_bound n 10). lia.
Qed.

(** From the year 1000 on, the year has its four digits. *)
Lemma year_text_pad4 y : 1000 <= y <= 9999 -> year_text y = pad4 y.
Proof.
  intros Hy.
  assert (H : forallb (fun k => bool_decide (year_text (1000 + Z.of_nat k)
                                             = pad4 (1000 + Z.of_nat k)))
                (seq 0 (90 * 100)) = true) by (vm_compute; reflexivity).
  rewrite forallb_forall in H.
  specialize (H (Z.to_nat (y - 1000)) ltac:(apply in_seq; lia)).
  apply bool_decide_eq_true in H.
  now replace (1000 + Z.of_nat (Z.to_nat (y - 1000))) with y in H by lia.
Qed.

Lemma days_in_month_le y m : days_in_month y m <= 31.
Proof.
  unfold days_in_month.
  destruct m as [|[[[[]|[]|]|[[]|[]|]|]|[[[]|[]|]|[[]|[]|]|]|]|];
    try destruct (is_leap y); lia.
Qed.

Lemma valid_fields d :
  valid d = true ->
  1 <= year d <= 9999 /\ 1 <= month d <= 12
  /\ 1 <= day d <= days_in_month (year d) (month d)
  /\ 0 <= hour d < 24 /\ 0 <= minute d < 60 /\ 0 <= second d < 60
  /\ 0 <= microsecond d < 1000000.
Proof.
  unfold valid. rewrite !andb_true_iff.
  rewrite !Z.leb_le, !Z.ltb_lt. tauto.
Qed.

Lemma clock_fields d :
  clock d = true -> valid d = true /\ 1000 <= year d <= 9999.
Proof.
  unfold clock. rewrite andb_true_iff, Z.leb_le. intros [Hv Hy].
  pose proof (valid_fields d Hv). split; [assumption | lia].
Qed.

Lemma valid_truncate d : valid d = true -> valid (truncate d) = true.
Proof.
  intros H. pose proof (valid_fields d H) as Hf.
  unfold valid, truncate; simpl.
  rewrite !andb_true_iff, !Z.leb_le, !Z.ltb_lt. lia.
Qed.

(** The seconds format does not show the microseconds. *)
Lemma strftime_truncate d : strftime_iso (truncate d) = strftime_iso d.
Proof. reflexivity. Qed.

Lemma strftime_not_empty d : strftime_iso d ≠ ""%string.
Proof.
  unfold strftime_iso. destruct (year_text (year d)); discriminate.
Qed.

(** The text of a four-digit year and its fields, digit by digit. *)
Lemma decode_fields (y mo da ho mi se : Z) :
  Unicode.decode
    (pad4 y ++ "-"%char :: pad2 mo ++ "-"%char :: pad2 da
     ++ " "%char :: pad2 ho ++ ":"%char :: pad2 mi ++ ":"%char :: pad2 se)
  = Some
      (48 + (y / 1000) mod 10 :: 48 + (y / 100) mod 10 :: 48 + (y / 10) mod 10
       :: 48 + y mod 10 :: 45
       :: 48 + (mo / 10) mod 10 :: 48 + mo mod 10 :: 45
       :: 48 + (da / 10) mod 10 :: 48 + da mod 10 :: 32
       :: 48 + (ho / 10) mod 10 :: 48 + ho mod 10 :: 58
       :: 48 + (mi / 10) mod 10 :: 48 + mi mod 10 :: 58
       :: 48 + (se / 10) mod 10 :: 48 + se mod 10 :: []).
Proof.
  unfold pad4, pad2. cbn [app].
  repeat (rewrite decode_digit_char
          || (rewrite decode_ascii by (vm_compute; reflexivity))).
  reflexivity.
Qed.

Lemma strptime_strftime d :
  clock d = true -> strptime_iso (strftime_iso d) = Some (truncate d).
Proof.
  intros Hc. destruct (clock_fields d Hc) as [Hv Hy].
  pose proof (valid_fields d Hv) as Hf.
  pose proof (days_in_month_le (year d) (month d)) as Hd.
  pose proof (valid_truncate d Hv) as Ht.
  unfold strptime_iso, strftime_iso.
  rewrite list_ascii_of_string_of_list_ascii.
  rewrite (year_text_pad4 (year d) Hy), decode_fields.
  cbn [mbind option_bind].
  assert (Hm : forall r, expect "-" (45 :: r) = Some r) by reflexivity.
  assert (Hk : forall r, expect ":" (58 :: r) = Some r) by reflexivity.
  rewrite dir_Y_digits by lia. cbn [mbind option_bind]. rewrite Hm.
  cbn [mbind option_bind].
  rewrite dir_m_digits by (simpl; lia). cbn [mbind option_bind]. rewrite Hm.
  cbn [mbind option_bind].
  rewrite dir_d_digits by (simpl; lia). cbn [mbind option_bind].
  rewrite spaces_digit. cbn [mbind option_bind].
  rewrite dir_H_digits by (simpl; lia). cbn [mbind option_bind]. rewrite Hk.
  cbn [mbind option_bind].
  rewrite dir_M_digits by (simpl; lia). cbn [mbind option_bind]. rewrite Hk.
  cbn [mbind option_bind].
  rewrite dir_S_digits by (simpl; lia). cbn [mbind option_bind].
  change (mk (year d) (month d) (day d) (hour d) (minute d) (second d) 0)
    with (truncate d).
  now rewrite Ht.
Qed.

(** Below the year 1000 the year has fewer than four digits. *)
Lemma year_text_short y :
  1 <= y < 1000 ->
  (length (year_text y) <= 3)%nat
  /\ Forall (fun c => Unicode.byte c < 128) (year_text y).
Proof.
  intros Hy.
  assert (H : forallb (fun k => (length (year_text (Z.of_nat k)) <=? 3)%nat
                                && forallb (fun c => Unicode.byte c <? 128)
                                     (year_text (Z.of_nat k)))
                (seq 0 (10 * 100)) = true) by (vm_compute; reflexivity).
  rewrite forallb_forall in H.
  specialize (H (Z.to_nat y) ltac:(apply in_seq; lia)).
  rewrite Z2Nat.id in H by lia.
  apply andb_true_iff in H as [H1 H2]. split; [now apply Nat.leb_le|].
  apply Forall_forall. intros c Hc. rewrite forallb_forall in H2.
  apply Z.ltb_lt, H2. now apply list_elem_of_In.
Qed.

Lemma dir_Y_short (l r : list Z) :
  (length l <= 3)%nat -> dir_Y (l ++ 45 :: r) = None.
Proof.
  assert (H45 : Unicode.isdecimal 45 = false) by reflexivity.
  intros Hl. destruct l as [|a [|b [|c [|e l]]]]; cbn [app length] in *; try lia;
    unfold dir_Y.
  - destruct r as [|x [|y [|z r]]]; reflexivity.
  - destruct r as [|x [|y r]]; try reflexivity.
    now rewrite H45, andb_false_r.
  - destruct r as [|x r]; try reflexivity.
    now rewrite H45, andb_false_r.
  - now rewrite H45, andb_false_r.
Qed.

Lemma decode_app_ascii (l r : list ascii) :
  Forall (fun c => Unicode.byte c < 128) l ->
  Unicode.decode (l ++ r) = app (map Unicode.byte l) <$> Unicode.decode r.
Proof.
  induction 1 as [|c l Hc _ IH]; cbn [app map].
  - now destruct (Unicode.decode r).
  - rewrite decode_ascii, IH by assumption. now destruct (Unicode.decode r).
Qed.

(** [strptime] does not read the text that [strftime] writes for a year
    below 1000. *)
Lemma strptime_short_year d :
  valid d = true -> year d < 1000 -> strptime_iso (strftime_iso d) = None.
Proof.
  intros Hv Hy. pose proof (valid_fields d Hv) as Hf.
  destruct (year_text_short (year d) ltac:(lia)) as [Hl Ha].
  unfold strptime_iso, strftime_iso.
  rewrite list_ascii_of_string_of_list_ascii.
  rewrite (decode_app_ascii _ _ Ha).
  rewrite decode_ascii by (vm_compute; reflexivity).
  destruct (Unicode.decode _) as [r|]; [|reflexivity].
  cbn [fmap option_fmap option_map mbind option_bind].
  change (Unicode.byte "-") with 45.
  rewrite dir_Y_short; [reflexivity|]. now rewrite length_map.
Qed.

End Timestamps.

(* ===================================================================== *)
(** ** The cache protocol of the online provider *)
(* ===================================================================== *)

Section CacheProtocol.

Implicit Types (self : Online.t) (f : Cache.file) (d : Cache.document).

Lemma fetch_stores self now net w f r :
  Online.fetched net = Some r ->
  Online.fetch_rates self now net w f
  = (true, Online.mk r (Online.base_currency self) (Some now),
     Online.save_cache (Online.mk r (Online.base_currency self) (Some now)) w f).
Proof. unfold Online.fetch_rates. now intros ->. Qed.

Lemma fetch_falls_back self now net w f :
  Online.fetched net = None ->
  Online.fetch_rates self now net w f
  = (fst (Online.load_cache self f), snd (Online.load_cache self f), f).
Proof.
  unfold Online.fetch_rates. intros ->.
  now destruct (Online.load_cache self f).
Qed.

(** What [load_cache] does with a document, by its time stamp. *)
Lemma load_cache_json self d :
  Online.load_cache self (Cache.Json d)
  = let rates' := default ∅ (Cache.rates d) in
    let base' := default "USD"%string (Cache.base_currency d) in
    let stamp := default ""%string (Cache.last_update d) in
    if bool_decide (stamp = ""%string)
    then (negb (bool_decide (rates' = ∅)),
          Online.mk rates' base' (Online.last_update self))
    else match Datetime.strptime_iso stamp with
         | Some t => (negb (bool_decide (rates' = ∅)), Online.mk rates' base' (Some t))
         | None => (false, Online.mk rates' base' (Online.last_update self))
         end.
Proof. reflexivity. Qed.

Lemma load_cache_rates self d :
  Online.rates (snd (Online.load_cache self (Cache.Json d)))
  = default ∅ (Cache.rates d).
Proof.
  rewrite load_cache_json. cbv zeta.
  case_bool_decide; [reflexivity|].
  now destruct (Datetime.strptime_iso _).
Qed.

Lemma load_cache_base self d :
  Online.base_currency (snd (Online.load_cache self (Cache.Json d)))
  = default "USD"%string (Cache.base_currency d).
Proof.
  rewrite load_cache_json. cbv zeta.
  case_bool_decide; [reflexivity|].
  now destruct (Datetime.strptime_iso _).
Qed.

(** A load that reports [False] has either changed nothing or taken the
    document's table. *)
Lemma load_cache_false self f self' :
  Online.load_cache self f = (false, self') ->
  self' = self
  \/ exists d, f = Cache.Json d /\ Online.rates self' = default ∅ (Cache.rates d).
Proof.
  destruct f as [| |d].
  - intros [= <-]. now left.
  - intros [= <-]. now left.
  - intros H. right. exists d. split; [reflexivity|].
    rewrite <- (load_cache_rates self d). now rewrite H.
Qed.

End CacheProtocol.

(* ===================================================================== *)
(** ** Conversion *)
(* ===================================================================== *)

Section Conversion.

Implicit Types (self : Converter.t) (now : Datetime.t).

Lemma convert_invalid self now text x y :
  Py.float_of_str text = None ->
  Converter.convert self now text x y = ((None, Some Converter.InvalidAmount), self).
Proof. unfold Converter.convert. now intros ->. Qed.

Lemma convert_negative self now text x y a :
  Py.float_of_str text = Some a -> Py.ltb a Py.zero = true ->
  Converter.convert self now text x y = ((None, Some Converter.NegativeAmount), self).
Proof. unfold Converter.convert. now intros -> ->. Qed.

Lemma convert_no_rate self now text x y a r :
  Py.float_of_str text = Some a -> Py.ltb a Py.zero = false ->
  Converter.get_exchange_rate self x y = Some r -> Py.leb r Py.zero = true ->
  Converter.convert self now text x y = ((None, Some Converter.RateUnavailable), self).
Proof. unfold Converter.convert. now intros -> -> -> ->. Qed.

Lemma convert_ok self now text x y a r :
  Py.float_of_str text = Some a -> Py.ltb a Py.zero = false ->
  Converter.get_exchange_rate self x y = Some r -> Py.leb r Py.zero = false ->
  Converter.convert self now text x y
  = ((Some (Py.mul a r), None),
     Converter.mk (Converter.exchange_rate_provider self)
       (History.save_entry (Converter.history_manager self)
          (History.mk_record (Datetime.strftime_dmy now) a x y r (Py.mul a r)))).
Proof. unfold Converter.convert. now intros -> -> -> ->. Qed.

(** An error leaves the converter as it was. *)
Lemma error_leaves_converter self now text x y :
  snd (fst (Converter.convert self now text x y)) ≠ None ->
  snd (Converter.convert self now text x y) = self.
Proof.
  unfold Converter.convert.
  destruct (Py.float_of_str text) as [a|]; [|reflexivity].
  destruct (Py.ltb a Py.zero); [reflexivity|].
  destruct (Converter.get_exchange_rate self x y) as [r|]; [|reflexivity].
  destruct (Py.leb r Py.zero); [reflexivity|].
  simpl. congruence.
Qed.

End Conversion.

(* ===================================================================== *)
(** ** The embedding at work *)
(* ===================================================================== *)

Section Scenario.

Example float_of_decimal_text :
  Py.float_of_str "0.85" = Some (S754_finite false 7656119366529843 (-53))
  /\ Py.float_of_str " -1.5e3 " = Some (S754_finite true 6597069766656000 (-42))
  /\ Py.float_of_str "1_000" = Some (S754_finite false 8796093022208000 (-43))
  /\ Py.float_of_str "4.9e-324" = Some (S754_finite false 1 (-1074))
  /\ Py.float_of_str "1e400" = Some Py.inf
  /\ Py.float_of_str "-Infinity" = Some (S754_infinity true)
  /\ Py.float_of_str "1" = Some Py.one.
Proof. repeat split; vm_compute; reflexivity. Qed.

Example float_of_other_text :
  map Py.float_of_str ["abc"; ""; "."; "1e"; "--1"; "1__0"; "0x10"; "1 2"]%string
  = [None; None; None; None; None; None; None; None].
Proof. vm_compute. reflexivity. Qed.

(** [float] reads the digits and the white space of Unicode, and strips
    no other white space than that of ASCII: Arabic-Indic [123], a
    no-break space before [5], and the separator [0x1c] before [1]. *)
Example float_of_unicode_text :
  Py.float_of_str "١٢٣" = Some (Py.lit "123")
  /\ Py.float_of_str "१२.५" = Some (Py.lit "12.5")
  /\ Py.float_of_str (String "194" (String "160" "5")) = Some (Py.lit "5")
  /\ Py.float_of_str (String "028" "1") = None
  /\ Py.float_of_str (String "011" "1") = Some Py.one
  /\ Py.float_of_str "٣٫٥" = None.
Proof. repeat split; vm_compute; reflexivity. Qed.

Example tolerance_bounds :
  Py.tolerance = S754_finite false 4503599627370496 (-101)
  /\ Py.sub Py.one Py.tolerance = S754_finite false 9007199254740976 (-53)
  /\ Py.add Py.one Py.tolerance = S754_finite false 4503599627370504 (-52).
Proof. repeat split; vm_compute; reflexivity. Qed.

Example strftime_now :
  Datetime.strftime_iso Sample.now = "2024-01-05 03:04:09"%string
  /\ Datetime.strftime_dmy Sample.now = "05.01.2024 03:04"%string
  /\ Datetime.strftime_iso Sample.long_ago = "999-01-02 03:04:05"%string
  /\ Datetime.strftime_dmy Sample.long_ago = "02.01.999 03:04"%string.
Proof. repeat split; vm_compute; reflexivity. Qed.

Example strptime_texts :
  Datetime.strptime_iso "2024-01-05 03:04:09"
  = Some (Datetime.mk 2024 1 5 3 4 9 0)
  /\ Datetime.strptime_iso "2024-1-5 3:4:9" = Some (Datetime.mk 2024 1 5 3 4 9 0)
  /\ Datetime.strptime_iso "2023-02-29 00:00:00" = None
  /\ Datetime.strptime_iso "2024-01-05 03:04:60" = None
  /\ Datetime.strptime_iso "2024-01-05T03:04:09" = None
  /\ Datetime.strptime_iso "yesterday" = None
  /\ Datetime.strptime_iso "0999-01-02 03:04:05" = Some Sample.long_ago
  /\ Datetime.strptime_iso "999-01-02 03:04:05" = None
  /\ Datetime.strptime_iso "٢٠٢٤-01-1٥ 0٣:04:0٩"
     = Some (Datetime.mk 2024 1 15 3 4 9 0)
  /\ Datetime.strptime_iso "2024-٠١-05 03:04:09" = None.
Proof. repeat split; vm_compute; reflexivity. Qed.

(** The scenario of the specification: the table [USD: 1, EUR: 0.85,
    UAH: 37.0] with base [USD]. *)
Example scenario_rate :
  get_exchange_rate Sample.online "UAH" "EUR"
  = Some (S754_finite false 6621508641323107 (-58)).
Proof. vm_compute. reflexivity. Qed.

Example scenario_result :
  fst (Converter.convert Sample.converter Sample.now "100" "UAH" "EUR")
  = (Some (S754_finite false 5173053626033677 (-51)), None).
Proof. vm_compute. reflexivity. Qed.

Example scenario_errors :
  fst (Converter.convert Sample.converter Sample.now "-5" "USD" "EUR")
  = (None, Some Converter.NegativeAmount)
  /\ fst (Converter.convert Sample.converter Sample.now "abc" "USD" "EUR")
     = (None, Some Converter.InvalidAmount)
  /\ fst (Converter.convert Converter.init Sample.now "10" "USD" "EUR")
     = (None, Some Converter.RateUnavailable).
Proof. repeat split; vm_compute; reflexivity. Qed.

(** Without a cache file the offline provider holds the static table, in
    which the base has the rate one. *)
Example offline_static :
  Offline.rates (Offline.init Cache.Missing) = Offline.static_rates
  /\ Offline.static_rates !! "USD"%string = Some Py.one
  /\ size Offline.static_rates = 15%nat.
Proof. repeat split; vm_compute; reflexivity. Qed.

End Scenario.

(* ===================================================================== *)
(** ** The properties of the specification *)
(* ===================================================================== *)

(** C1, as the code has it: when [fetch_rates] obtains no rates from the
    remote source and the cache file holds a table that is not empty, the
    provider takes that table and the base currency of the file, and the file
    is left as it is.  With an empty time stamp in the file the call returns
    [True] and [last_update] stays; with a time stamp in the format it returns
    [True] and [last_update] becomes that time; with any other time stamp it
    returns [False] and [last_update] stays. *)
Theorem fetch_rates_cache_fallback (self : Online.t) (now : Datetime.t)
    (net : Http.result) (w : Cache.write) (d : Cache.document) (cached : table) :
  Online.fetched net = None ->
  Cache.rates d = Some cached ->
  cached ≠ ∅ ->
  exists (ok : bool) (self' : Online.t),
    Online.fetch_rates self now net w (Cache.Json d) = (ok, self', Cache.Json d)
    /\ Online.rates self' = cached
    /\ Online.base_currency self' = default "USD"%string (Cache.base_currency d)
    /\ (default ""%string (Cache.last_update d) = ""%string ->
        ok = true /\ Online.last_update self' = Online.last_update self)
    /\ (forall t, default ""%string (Cache.last_update d) ≠ ""%string ->
        Datetime.strptime_iso (default ""%string (Cache.last_update d)) = Some t ->
        ok = true /\ Online.last_update self' = Some t)
    /\ (default ""%string (Cache.last_update d) ≠ ""%string ->
        Datetime.strptime_iso (default ""%string (Cache.last_update d)) = None ->
        ok = false /\ Online.last_update self' = Online.last_update self).
Proof.
  intros Hnet Hd Hne.
  exists (fst (Online.load_cache self (Cache.Json d))),
         (snd (Online.load_cache self (Cache.Json d))).
  split; [now apply fetch_falls_back|].
  split; [rewrite load_cache_rates, Hd; reflexivity|].
  split; [apply load_cache_base|].
  rewrite load_cache_json, Hd. cbv zeta.
  change (default ∅ (Some cached)) with cached.
  rewrite (bool_decide_eq_false_2 _ Hne). simpl negb.
  split; [|split].
  - intros Hs. rewrite (bool_decide_eq_true_2 _ Hs). split; reflexivity.
  - intros t Hs Ht. rewrite (bool_decide_eq_false_2 _ Hs), Ht. split; reflexivity.
  - intros Hs Ht. rewrite (bool_decide_eq_false_2 _ Hs), Ht. split; reflexivity.
Qed.

Lemma fetch_rates_cache_fallback_witness :
  Online.fetch_rates Online.init Sample.now Http.Raises Cache.Written Sample.cache
  = (true, Online.mk Sample.rates "USD" (Some (Datetime.truncate Sample.now)),
     Sample.cache)
  /\ Online.fetch_rates Online.init Sample.now (Http.Response 503 Http.NotJson)
       Cache.Written Sample.odd_cache
     = (false, Online.mk Sample.rates "USD" None, Sample.odd_cache).
Proof.
  assert (Hne : Sample.rates ≠ ∅)
    by (apply (holds_not_empty _ "USD" (Py.lit "1")); vm_compute; reflexivity).
  split.
  - destruct (fetch_rates_cache_fallback Online.init Sample.now Http.Raises
                Cache.Written (Online.cache_data Sample.online) Sample.rates
                eq_refl eq_refl Hne)
      as (ok & [rates' base' stamp'] & Hf & Hr & Hb & _ & Hstamp & _).
    destruct (Hstamp (Datetime.truncate Sample.now)) as [-> Hl];
      [discriminate | vm_compute; reflexivity |].
    simpl in Hr, Hb, Hl. subst rates' base' stamp'. exact Hf.
  - destruct (fetch_rates_cache_fallback Online.init Sample.now
                (Http.Response 503 Http.NotJson) Cache.Written
                (Cache.mk (Some Sample.rates) (Some "USD"%string)
                   (Some "yesterday"%string))
                Sample.rates eq_refl eq_refl Hne)
      as (ok & [rates' base' stamp'] & Hf & Hr & Hb & _ & _ & Hstamp).
    destruct Hstamp as [-> Hl]; [discriminate | vm_compute; reflexivity |].
    simpl in Hr, Hb, Hl. subst rates' base' stamp'. exact Hf.
Defined.

(** C1 fails on its last two points: with no answer from the remote source
    and the cache file that a provider wrote after a fetch, the call returns
    [True], and [last_update], which was unset, is the time of the file. *)
Lemma fallback_returns_true :
  Online.fetched Http.Raises = None
  /\ Online.rates (snd (Online.load_cache Online.init Sample.cache)) ≠ ∅
  /\ fst (fst (Online.fetch_rates Online.init Sample.now Http.Raises Cache.Written
                 Sample.cache))
     = true
  /\ Online.last_update
       (snd (fst (Online.fetch_rates Online.init Sample.now Http.Raises
                    Cache.Written Sample.cache)))
     ≠ Online.last_update Online.init.
Proof.
  split; [reflexivity|].
  split; [apply (holds_not_empty _ "USD" (Py.lit "1")); vm_compute; reflexivity|].
  split; [vm_compute; reflexivity|].
  vm_compute. discriminate.
Qed.

(** C2, as the code has it: asked for the rate of a currency to itself, the
    offline provider answers [1] whatever its table, and the online provider
    answers [1] when its table holds rates and [0] when it holds none, because
    it tests for an empty table first. *)
Theorem same_currency_rate (P : provider) (c : string) :
  get_exchange_rate P c c
  = Some match P with
         | OnlineRateProvider o =>
             if bool_decide (Online.rates o = ∅) then Py.zero else Py.one
         | OfflineRateProvider _ => Py.one
         end.
Proof.
  destruct P as [o|p]; [apply online_same | apply offline_same].
Qed.

(** C2 fails for an online provider that has no rates: the rate of [USD] to
    [USD] is [0], not [1]. *)
Lemma same_currency_without_rates :
  get_exchange_rate (OnlineRateProvider Online.init) "USD" "USD" = Some Py.zero
  /\ Some Py.zero ≠ Some Py.one.
Proof. split; [reflexivity | discriminate]. Qed.

(** C3: an amount text that parses to [a >= 0] and a pair whose rate is
    [r > 0] convert to [a * r] without an error, and the record of the
    conversion is appended to the history: it becomes the last record, behind
    the records held before (without the oldest one when fifty were held). *)
Theorem convert_success (self : Converter.t) (now : Datetime.t)
    (text x y : string) (a r : spec_float) :
  Py.float_of_str text = Some a ->
  Py.leb Py.zero a = true ->
  get_exchange_rate (Converter.exchange_rate_provider self) x y = Some r ->
  Py.ltb Py.zero r = true ->
  let e := History.mk_record (Datetime.strftime_dmy now) a x y r (Py.mul a r) in
  let old := History.get_history (Converter.history_manager self) in
  exists self',
    Converter.convert self now text x y = ((Some (Py.mul a r), None), self')
    /\ Converter.exchange_rate_provider self' = Converter.exchange_rate_provider self
    /\ Converter.history_manager self'
       = History.save_entry (Converter.history_manager self) e
    /\ History.get_history (Converter.history_manager self')
       = (if (50 <=? length old)%nat then tail old else old) ++ [e].
Proof.
  intros Ha Hpos Hr Hrate e old.
  eexists. split.
  - apply (convert_ok self now text x y a r Ha (leb_zero_ltb a Hpos) Hr
             (ltb_zero_leb r Hrate)).
  - simpl. repeat split. apply save_entry_snoc.
Qed.

Lemma convert_success_witness :
  exists self',
    Converter.convert Sample.converter Sample.now "100" "UAH" "EUR"
    = ((Some (Py.mul (Py.lit "100") (Py.div (Py.lit "0.85") (Py.lit "37.0"))), None),
       self')
    /\ length (History.get_history (Converter.history_manager self')) = 1%nat.
Proof.
  destruct (convert_success Sample.converter Sample.now "100" "UAH" "EUR"
              (Py.lit "100") (Py.div (Py.lit "0.85") (Py.lit "37.0")))
    as (self' & Hc & _ & _ & Hh); try (vm_compute; reflexivity).
  exists self'. split; [exact Hc|]. rewrite Hh. reflexivity.
Defined.

(** C4: [convert] returns each failure as a pair without a result: text that
    [float] does not read gives [InvalidAmount], a parsed amount below zero
    gives [NegativeAmount] (zero does not), a rate that is not above zero
    gives [RateUnavailable]; and whenever an error is returned, whichever it
    is, there is no result and the converter, and with it the history, is as
    before. *)
Theorem convert_errors (self : Converter.t) (now : Datetime.t) (text x y : string) :
  (Py.float_of_str text = None ->
   Converter.convert self now text x y
   = ((None, Some Converter.InvalidAmount), self))
  /\ (forall a, Py.float_of_str text = Some a -> Py.ltb a Py.zero = true ->
      Converter.convert self now text x y
      = ((None, Some Converter.NegativeAmount), self))
  /\ (forall a, Py.float_of_str text = Some a -> Py.eqb a Py.zero = true ->
      snd (fst (Converter.convert self now text x y))
      ≠ Some Converter.NegativeAmount)
  /\ (forall a r, Py.float_of_str text = Some a -> Py.ltb a Py.zero = false ->
      get_exchange_rate (Converter.exchange_rate_provider self) x y = Some r ->
      Py.leb r Py.zero = true ->
      Converter.convert self now text x y
      = ((None, Some Converter.RateUnavailable), self))
  /\ (snd (fst (Converter.convert self now text x y)) ≠ None ->
      fst (fst (Converter.convert self now text x y)) = None
      /\ snd (Converter.convert self now text x y) = self).
Proof.
  split; [apply convert_invalid|].
  split; [intros a; apply convert_negative|].
  split.
  { intros a Ha Hz. unfold Converter.convert. rewrite Ha.
    replace (Py.ltb a Py.zero) with false
      by (destruct a as [[]|[]| |[] m e]; cbv in Hz |- *; congruence).
    destruct (Converter.get_exchange_rate self x y) as [r|]; [|discriminate].
    destruct (Py.leb r Py.zero); discriminate. }
  split; [intros a r; apply convert_no_rate|].
  intros Herr. split; [|now apply error_leaves_converter].
  revert Herr. unfold Converter.convert.
  destruct (Py.float_of_str text) as [a|]; [|reflexivity].
  destruct (Py.ltb a Py.zero); [reflexivity|].
  destruct (Converter.get_exchange_rate self x y) as [r|]; [|reflexivity].
  destruct (Py.leb r Py.zero); [reflexivity|].
  simpl. congruence.
Qed.

Lemma convert_errors_witness :
  Converter.convert Sample.converter Sample.now "abc" "USD" "EUR"
  = ((None, Some Converter.InvalidAmount), Sample.converter)
  /\ Converter.convert Sample.converter Sample.now "-5" "USD" "EUR"
     = ((None, Some Converter.NegativeAmount), Sample.converter)
  /\ Converter.convert Converter.init Sample.now "10" "USD" "EUR"
     = ((None, Some Converter.RateUnavailable), Converter.init)
  /\ snd (Converter.convert Converter.init Sample.now "10" "USD" "EUR")
     = Converter.init.
Proof.
  split.
  { apply (convert_errors Sample.converter Sample.now "abc" "USD" "EUR").
    vm_compute; reflexivity. }
  split.
  { apply (proj1 (proj2 (convert_errors Sample.converter Sample.now "-5" "USD" "EUR"))
             (Py.lit "-5")); vm_compute; reflexivity. }
  split.
  { apply (proj1 (proj2 (proj2 (proj2
             (convert_errors Converter.init Sample.now "10" "USD" "EUR"))))
             (Py.lit "10") Py.zero); vm_compute; reflexivity. }
  apply (convert_errors Converter.init Sample.now "10" "USD" "EUR").
  vm_compute. discriminate.
Defined.

(** C5, as the code has it, for a table whose entries are floats.  For
    distinct codes and an online provider whose table is not empty: from the
    base currency the rate is the table entry of the target; to the base
    currency it is the reciprocal of the entry of the source, and [0] when
    that entry is [0]; otherwise it is the cross rate
    [entry(to) / entry(from)], and [0] when either entry is [0].  The offline
    provider takes the cross rate for every pair of distinct codes, whatever
    the base.  A code that the table lacks has the entry [0]. *)
Theorem exchange_rate_rules :
  (forall (o : Online.t) (x y : string),
      Online.rates o ≠ ∅ -> x ≠ y ->
      (x = Online.base_currency o ->
       get_exchange_rate o x y = Some (entry (Online.rates o) y))
      /\ (x ≠ Online.base_currency o -> y = Online.base_currency o ->
          get_exchange_rate o x y
          = Some (if Py.eqb (entry (Online.rates o) x) Py.zero then Py.zero
                  else Py.div Py.one (entry (Online.rates o) x)))
      /\ (x ≠ Online.base_currency o -> y ≠ Online.base_currency o ->
          get_exchange_rate o x y
          = Some (if Py.eqb (entry (Online.rates o) x) Py.zero
                     || Py.eqb (entry (Online.rates o) y) Py.zero
                  then Py.zero
                  else Py.div (entry (Online.rates o) y) (entry (Online.rates o) x))))
  /\ (forall (p : Offline.t) (x y : string),
         x ≠ y ->
         get_exchange_rate p x y
         = Some (if Py.eqb (entry (Offline.rates p) x) Py.zero
                    || Py.eqb (entry (Offline.rates p) y) Py.zero
                 then Py.zero
                 else Py.div (entry (Offline.rates p) y) (entry (Offline.rates p) x)))
  /\ (forall (rates : table) (c : string), rates !! c = None -> entry rates c = Py.zero).
Proof.
  split; [|split].
  - intros o x y Hne Hxy. split; [|split].
    + intros ->. now apply online_from_base.
    + intros Hx ->. now apply online_to_base.
    + intros Hx Hy. now apply online_cross.
  - intros p x y Hxy. now apply offline_cross.
  - apply entry_absent.
Qed.

Lemma exchange_rate_rules_witness :
  get_exchange_rate Sample.online "USD" "EUR" = Some (Py.lit "0.85")
  /\ get_exchange_rate Sample.online "UAH" "USD"
     = Some (Py.div Py.one (Py.lit "37.0"))
  /\ get_exchange_rate Sample.online "UAH" "EUR"
     = Some (Py.div (Py.lit "0.85") (Py.lit "37.0"))
  /\ get_exchange_rate (Offline.mk Sample.rates) "UAH" "EUR"
     = Some (Py.div (Py.lit "0.85") (Py.lit "37.0"))
  /\ entry Sample.rates "XXX" = Py.zero.
Proof.
  destruct exchange_rate_rules as (Hon & Hoff & Habsent).
  assert (Hne : Online.rates Sample.online ≠ ∅)
    by (apply (holds_not_empty _ "USD" (Py.lit "1")); vm_compute; reflexivity).
  split.
  { etransitivity.
    - apply (proj1 (Hon Sample.online "USD" "EUR" Hne ltac:(discriminate))).
      reflexivity.
    - vm_compute. reflexivity. }
  split.
  { etransitivity.
    - apply (proj1 (proj2 (Hon Sample.online "UAH" "USD" Hne ltac:(discriminate)))).
      + discriminate.
      + reflexivity.
    - vm_compute. reflexivity. }
  split.
  { etransitivity.
    - apply (proj2 (proj2 (Hon Sample.online "UAH" "EUR" Hne ltac:(discriminate))));
        discriminate.
    - vm_compute. reflexivity. }
  split.
  { etransitivity.
    - apply (Hoff (Offline.mk Sample.rates) "UAH" "EUR"). discriminate.
    - vm_compute. reflexivity. }
  apply Habsent. vm_compute. reflexivity.
Defined.

(** C5 fails for the offline provider: built from a cache whose base is [USD]
    and whose table lacks [USD], it answers [0] for [USD] to [EUR] and not the
    table entry of [EUR]. *)
Lemma offline_ignores_base :
  Cache.base_currency (Cache.mk (Some Sample.rates_without_base) (Some "USD"%string) None)
  = Some "USD"%string
  /\ Offline.rates
       (Offline.init (Cache.Json (Cache.mk (Some Sample.rates_without_base)
                                    (Some "USD"%string) None)))
     = Sample.rates_without_base
  /\ entry Sample.rates_without_base "EUR" = Py.lit "0.85"
  /\ get_exchange_rate
       (Offline.init (Cache.Json (Cache.mk (Some Sample.rates_without_base)
                                    (Some "USD"%string) None)))
       "USD" "EUR"
     = Some Py.zero
  /\ Py.eqb Py.zero (Py.lit "0.85") = false.
Proof. repeat split; vm_compute; reflexivity. Qed.

(** C6, as the code has it: when [fetch_rates] obtains no rates from the
    remote source and the cache file is missing or cannot be read, the call
    returns [False] and the provider and the file are as before; and whenever
    a call returns [False], the file is as before and the provider is either
    unchanged or holds the table of the cache document. *)
Theorem fetch_rates_failure_frame (self : Online.t) (now : Datetime.t)
    (net : Http.result) (w : Cache.write) (f : Cache.file) :
  (Online.fetched net = None ->
   f = Cache.Missing \/ f = Cache.Unreadable ->
   Online.fetch_rates self now net w f = (false, self, f))
  /\ (forall (self' : Online.t) (f' : Cache.file),
         Online.fetch_rates self now net w f = (false, self', f') ->
         f' = f
         /\ (self' = self
             \/ exists d, f = Cache.Json d
                          /\ Online.rates self' = default ∅ (Cache.rates d))).
Proof.
  split.
  - intros Hnet [-> | ->]; now rewrite fetch_falls_back.
  - intros self' f'. unfold Online.fetch_rates.
    destruct (Online.fetched net) as [r|]; [discriminate|].
    destruct (Online.load_cache self f) as [ok s] eqn:El.
    intros [= -> <- <-]. split; [reflexivity|].
    now apply (load_cache_false self f).
Qed.

Lemma fetch_rates_failure_frame_witness :
  Online.fetch_rates Sample.online Sample.now Http.Raises Cache.Written Cache.Missing
  = (false, Sample.online, Cache.Missing)
  /\ Online.fetch_rates Sample.online Sample.now (Http.Response 200 Http.NoRates)
       Cache.Written Cache.Unreadable
     = (false, Sample.online, Cache.Unreadable).
Proof.
  split.
  - apply (proj1 (fetch_rates_failure_frame Sample.online Sample.now Http.Raises
                    Cache.Written Cache.Missing)); [reflexivity | now left].
  - apply (proj1 (fetch_rates_failure_frame Sample.online Sample.now
                    (Http.Response 200 Http.NoRates) Cache.Written Cache.Unreadable));
      [reflexivity | now right].
Defined.

(** C6 fails when the cache file holds an empty table, as the file that a
    provider without rates writes does: the call returns [False] and the
    table that the provider held is replaced by the empty one. *)
Lemma failed_fetch_clears_rates :
  Online.fetched Http.Raises = None
  /\ Online.rates Sample.online ≠ ∅
  /\ Online.fetch_rates Sample.online Sample.now Http.Raises Cache.Written
       Sample.empty_cache
     = (false, Online.mk ∅ "USD" (Online.last_update Sample.online),
        Sample.empty_cache).
Proof.
  split; [reflexivity|].
  split; [apply (holds_not_empty _ "USD" (Py.lit "1")); vm_compute; reflexivity|].
  vm_compute. reflexivity.
Qed.

(** C7, as the code has it: for either provider and two distinct codes, none
    of them the base currency of an online provider, whose table entries are
    above zero, the rate from [x] to [y] is the float quotient
    [entry(y) / entry(x)] and the rate back is [entry(x) / entry(y)]; when
    neither quotient has overflowed to infinity or fallen to zero, their float
    product is within [2 ** -49] of one. *)
Theorem cross_rate_reciprocal (P : provider) (x y : string) :
  x ≠ y ->
  match P with
  | OnlineRateProvider o => x ≠ Online.base_currency o /\ y ≠ Online.base_currency o
  | OfflineRateProvider _ => True
  end ->
  Py.ltb Py.zero (entry (get_all_rates P) x) = true ->
  Py.ltb Py.zero (entry (get_all_rates P) y) = true ->
  let ex := entry (get_all_rates P) x in
  let ey := entry (get_all_rates P) y in
  get_exchange_rate P x y = Some (Py.div ey ex)
  /\ get_exchange_rate P y x = Some (Py.div ex ey)
  /\ (Py.is_finite (Py.div ey ex) = true -> Py.neqb (Py.div ey ex) Py.zero = true ->
      Py.is_finite (Py.div ex ey) = true -> Py.neqb (Py.div ex ey) Py.zero = true ->
      Py.near_one (Py.mul (Py.div ey ex) (Py.div ex ey)) = true).
Proof.
  intros Hxy Hbase Hx Hy ex ey.
  assert (Hc : forall rates : table,
             Py.ltb Py.zero (entry rates x) = true ->
             Py.ltb Py.zero (entry rates y) = true ->
             cross rates x y = Py.div (entry rates y) (entry rates x)
             /\ cross rates y x = Py.div (entry rates x) (entry rates y)).
  { intros rates Px Py. unfold cross.
    pose proof (ltb_zero_neqb _ Px) as Nx. pose proof (ltb_zero_neqb _ Py) as Ny.
    unfold Py.neqb in Nx, Ny. apply negb_true_iff in Nx, Ny.
    now rewrite Nx, Ny. }
  split; [|split].
  - destruct P as [o|p]; simpl in *.
    + rewrite online_cross; try tauto.
      * f_equal. now apply Hc.
      * intros He. unfold Online.get_all_rates in Hx. rewrite He in Hx. discriminate Hx.
    + rewrite offline_cross by assumption. f_equal. now apply Hc.
  - destruct P as [o|p]; simpl in *.
    + rewrite online_cross; try tauto; try congruence.
      * f_equal. now apply Hc.
      * intros He. unfold Online.get_all_rates in Hx. rewrite He in Hx. discriminate Hx.
    + rewrite offline_cross by congruence. f_equal. now apply Hc.
  - now apply reciprocal_product.
Qed.

Lemma cross_rate_reciprocal_witness :
  get_exchange_rate (OnlineRateProvider Sample.online) "UAH" "EUR"
  = Some (Py.div (Py.lit "0.85") (Py.lit "37.0"))
  /\ get_exchange_rate (OnlineRateProvider Sample.online) "EUR" "UAH"
     = Some (Py.div (Py.lit "37.0") (Py.lit "0.85"))
  /\ Py.near_one (Py.mul (Py.div (Py.lit "0.85") (Py.lit "37.0"))
                    (Py.div (Py.lit "37.0") (Py.lit "0.85")))
     = true.
Proof.
  destruct (cross_rate_reciprocal (OnlineRateProvider Sample.online) "UAH" "EUR")
    as (H1 & H2 & H3); try (vm_compute; reflexivity).
  - discriminate.
  - split; discriminate.
  - split; [exact H1|]. split; [exact H2|].
    apply H3; vm_compute; reflexivity.
Defined.

(** C7 fails on its product: with the entries [1e-200] and [1e200], both
    above zero, one rate is infinite and the other is zero, and their product
    is no number. *)
Lemma reciprocal_product_overflows :
  Py.ltb Py.zero (entry Sample.rates_far_apart "AAA") = true
  /\ Py.ltb Py.zero (entry Sample.rates_far_apart "ZZZ") = true
  /\ get_exchange_rate (OfflineRateProvider (Offline.mk Sample.rates_far_apart))
       "AAA" "ZZZ" = Some Py.inf
  /\ get_exchange_rate (OfflineRateProvider (Offline.mk Sample.rates_far_apart))
       "ZZZ" "AAA" = Some Py.zero
  /\ get_exchange_rate
       (OnlineRateProvider (Online.mk Sample.rates_far_apart "USD" None))
       "AAA" "ZZZ" = Some Py.inf
  /\ get_exchange_rate
       (OnlineRateProvider (Online.mk Sample.rates_far_apart "USD" None))
       "ZZZ" "AAA" = Some Py.zero
  /\ Py.mul Py.inf Py.zero = Py.nan
  /\ Py.near_one Py.nan = false.
Proof. repeat split; vm_compute; reflexivity. Qed.

(** C8: starting from the empty history, any sequence of [save_entry] calls
    leaves at most fifty records, namely the last fifty that were saved, in
    the order they were saved; each call puts its record at the end and, when
    fifty were held, drops the record at index [0] and no other; after
    fifty-one calls exactly fifty records are held, the first one saved is
    gone and the others are in their order. *)
Theorem history_bounded :
  (forall es : list History.record,
      (length (History.get_history (History.save_all es History.init)) <= 50)%nat
      /\ History.get_history (History.save_all es History.init)
         = drop (length es - 50) es)
  /\ (forall (h : History.t) (e : History.record),
         History.get_history (History.save_entry h e)
         = (if (50 <=? length (History.get_history h))%nat
            then tail (History.get_history h)
            else History.get_history h) ++ [e])
  /\ (forall (e0 : History.record) (es : list History.record),
         length es = 50%nat ->
         History.get_history (History.save_all (e0 :: es) History.init) = es).
Proof.
  assert (H0 : (length (History.history_list History.init) <= 50)%nat)
    by (simpl; lia).
  split; [|split].
  - intros es. split.
    + now apply save_all_length.
    + unfold History.get_history.
      rewrite (save_all_drop es History.init H0). reflexivity.
  - intros h e. apply save_entry_snoc.
  - intros e0 es Hlen. unfold History.get_history.
    rewrite (save_all_drop (e0 :: es) History.init H0). simpl app.
    simpl length. rewrite Hlen. reflexivity.
Qed.

Lemma history_bounded_witness :
  History.get_history (History.save_all (Sample.records 0 51) History.init)
  = Sample.records 1 50.
Proof.
  apply (proj2 (proj2 history_bounded) (Sample.record 0) (Sample.records 1 50)).
  reflexivity.
Defined.

(** C9, as the code has it.  A provider state whose write to the cache
    succeeds and that is loaded again, by any provider, gives the same table
    and the same base currency.  A time stamp of the clock, whose year has
    four digits, comes back cut to the second, which the format
    [YYYY-MM-DD HH:MM:SS] shows as the same text.  A time stamp with a year
    below 1000 is written with a shorter year, which the load does not read:
    it returns [False] and keeps the time stamp that the loading provider
    had.  A state without a time stamp is written with the empty text, and
    the load keeps the time stamp that the loading provider had. *)
Theorem cache_round_trip (saved loader : Online.t) (f : Cache.file) :
  let file := Online.save_cache saved Cache.Written f in
  let loaded := snd (Online.load_cache loader file) in
  Online.rates loaded = Online.rates saved
  /\ Online.base_currency loaded = Online.base_currency saved
  /\ (forall t, Online.last_update saved = Some t -> Datetime.clock t = true ->
      Online.last_update loaded = Some (Datetime.truncate t)
      /\ Datetime.strftime_iso (Datetime.truncate t) = Datetime.strftime_iso t)
  /\ (forall t, Online.last_update saved = Some t -> Datetime.valid t = true ->
      Datetime.year t < 1000 ->
      Online.last_update loaded = Online.last_update loader
      /\ fst (Online.load_cache loader file) = false)
  /\ (Online.last_update saved = None ->
      Online.last_update loaded = Online.last_update loader).
Proof.
  cbv zeta. unfold Online.save_cache.
  split; [now rewrite load_cache_rates|].
  split; [now rewrite load_cache_base|].
  rewrite load_cache_json. unfold Online.cache_data.
  cbn [Cache.rates Cache.base_currency Cache.last_update default from_option id].
  split; [|split].
  - intros t -> Hc.
    rewrite (bool_decide_eq_false_2 _ (strftime_not_empty t)).
    rewrite (strptime_strftime t Hc). split; reflexivity.
  - intros t -> Hv Hy.
    rewrite (bool_decide_eq_false_2 _ (strftime_not_empty t)).
    rewrite (strptime_short_year t Hv Hy). split; reflexivity.
  - intros ->. now rewrite bool_decide_eq_true_2.
Qed.

Lemma cache_round_trip_witness :
  let loaded :=
    snd (Online.load_cache Online.init
           (Online.save_cache Sample.online Cache.Written Cache.Missing)) in
  Online.rates loaded = Sample.rates
  /\ Online.base_currency loaded = "USD"%string
  /\ Online.last_update loaded = Some (Datetime.truncate Sample.now).
Proof.
  destruct (cache_round_trip Sample.online Online.init Cache.Missing)
    as (Hr & Hb & Hl & _).
  exact (conj Hr (conj Hb (proj1 (Hl Sample.now eq_refl eq_refl)))).
Defined.

(** C9 fails for a time stamp of the year 999: the text written has three
    digits for the year, the load returns [False] and the provider that
    loads has no time stamp afterwards.  It fails too for a state without a
    time stamp that a provider with a time stamp loads: that provider keeps
    its own. *)
Lemma short_year_not_read_back :
  Datetime.valid Sample.long_ago = true
  /\ Datetime.strftime_iso Sample.long_ago = "999-01-02 03:04:05"%string
  /\ Online.load_cache Online.init
       (Online.save_cache (Online.mk Sample.rates "USD" (Some Sample.long_ago))
          Cache.Written Cache.Missing)
     = (false, Online.mk Sample.rates "USD" None)
  /\ Online.last_update
       (snd (Online.load_cache Sample.online
               (Online.save_cache (Online.mk Sample.rates "USD" None)
                  Cache.Written Cache.Missing)))
     = Some Sample.now.
Proof. repeat split; vm_compute; reflexivity. Qed.

(** C10: the texts [inf] and [nan] parse, to the infinite float and to the
    float that is no number; with a rate above zero, [convert] of [inf]
    returns the infinite float and no error, and appends the record with
    that result to the history. *)
Theorem convert_non_finite (self : Converter.t) (now : Datetime.t)
    (x y : string) (r : spec_float) :
  get_exchange_rate (Converter.exchange_rate_provider self) x y = Some r ->
  Py.ltb Py.zero r = true ->
  Py.float_of_str "inf" = Some Py.inf
  /\ Py.float_of_str "nan" = Some Py.nan
  /\ Py.is_finite Py.inf = false
  /\ Converter.convert self now "inf" x y
     = ((Some Py.inf, None),
        Converter.mk (Converter.exchange_rate_provider self)
          (History.save_entry (Converter.history_manager self)
             (History.mk_record (Datetime.strftime_dmy now) Py.inf x y r Py.inf)))
  /\ last (History.get_history
             (Converter.history_manager (snd (Converter.convert self now "inf" x y))))
     = Some (History.mk_record (Datetime.strftime_dmy now) Py.inf x y r Py.inf).
Proof.
  intros Hr Hpos.
  assert (Hinf : Py.float_of_str "inf" = Some Py.inf) by (vm_compute; reflexivity).
  assert (Hc : Converter.convert self now "inf" x y
     = ((Some Py.inf, None),
        Converter.mk (Converter.exchange_rate_provider self)
          (History.save_entry (Converter.history_manager self)
             (History.mk_record (Datetime.strftime_dmy now) Py.inf x y r Py.inf)))).
  { rewrite (convert_ok self now "inf" x y Py.inf r Hinf eq_refl Hr
               (ltb_zero_leb r Hpos)).
    now rewrite (mul_inf_positive r Hpos). }
  split; [exact Hinf|].
  split; [vm_compute; reflexivity|].
  split; [reflexivity|].
  split; [exact Hc|].
  rewrite Hc. unfold History.get_history. simpl snd.
  cbn [Converter.history_manager]. rewrite save_entry_snoc. apply last_snoc.
Qed.

Lemma convert_non_finite_witness :
  Converter.convert Sample.converter Sample.now "inf" "USD" "EUR"
  = ((Some Py.inf, None),
     Converter.mk (OnlineRateProvider Sample.online)
       (History.save_entry History.init
          (History.mk_record (Datetime.strftime_dmy Sample.now) Py.inf "USD" "EUR"
             (Py.lit "0.85") Py.inf))).
Proof.
  apply (convert_non_finite Sample.converter Sample.now "USD" "EUR" (Py.lit "0.85"));
    vm_compute; reflexivity.
Defined.

(* ===================================================================== *)
(** ** Further properties of the code *)
(* ===================================================================== *)

(** *** The offline provider and the cache file *)

Section OfflineTable.

Lemma static_rates_not_empty : Offline.static_rates ≠ ∅.
Proof.
  apply (holds_not_empty _ "USD" Py.one). vm_compute. reflexivity.
Qed.

Lemma offline_init_rates (f : Cache.file) :
  Offline.rates (Offline.init f)
  = if bool_decide (Offline.load_cache f = ∅) then Offline.static_rates
    else Offline.load_cache f.
Proof. unfold Offline.init. now case_bool_decide. Qed.

Lemma offline_init_static (f : Cache.file) :
  Offline.load_cache f = ∅ -> Offline.init f = Offline.mk Offline.static_rates.
Proof. intros H. unfold Offline.init. now rewrite H, bool_decide_eq_true_2. Qed.

End OfflineTable.

(** X1: an offline provider never starts with an empty table: it holds the
    table of the cache file when that one is not empty, and the static
    table when the file is missing, unreadable, or holds no table or an
    empty one. *)
Theorem offline_never_empty (f : Cache.file) :
  Offline.rates (Offline.init f) ≠ ∅
  /\ (forall d r, f = Cache.Json d -> Cache.rates d = Some r -> r ≠ ∅ ->
      Offline.rates (Offline.init f) = r)
  /\ ((f = Cache.Missing \/ f = Cache.Unreadable
       \/ exists d, f = Cache.Json d /\ default ∅ (Cache.rates d) = ∅) ->
      Offline.rates (Offline.init f) = Offline.static_rates).
Proof.
  rewrite offline_init_rates.
  split; [|split].
  - case_bool_decide; [apply static_rates_not_empty | assumption].
  - intros d r -> Hr Hne. simpl. rewrite Hr. simpl.
    now rewrite (bool_decide_eq_false_2 _ Hne).
  - intros [-> | [-> | (d & -> & Hd)]]; simpl; try reflexivity.
    rewrite Hd. reflexivity.
Qed.

(** X2: after a fetch that obtained a table that is not empty and wrote
    the cache file, an offline provider built from the file holds the
    same table as the online provider. *)
Theorem offline_reads_fetched (o : Online.t) (now : Datetime.t)
    (net : Http.result) (f : Cache.file) (r : table) :
  Online.fetched net = Some r ->
  r ≠ ∅ ->
  exists o' f',
    Online.fetch_rates o now net Cache.Written f = (true, o', f')
    /\ Online.rates o' = r
    /\ Offline.rates (Offline.init f') = r.
Proof.
  intros Hnet Hne. rewrite (fetch_stores o now net Cache.Written f r Hnet).
  do 2 eexists. split; [reflexivity|]. split; [reflexivity|].
  simpl. unfold Offline.init. simpl.
  now rewrite (bool_decide_eq_false_2 _ Hne).
Qed.

Lemma offline_reads_fetched_witness :
  exists o' f',
    Online.fetch_rates Online.init Sample.now
      (Http.Response 200 (Http.Rates Sample.rates)) Cache.Written Cache.Missing
    = (true, o', f')
    /\ Online.rates o' = Sample.rates
    /\ Offline.rates (Offline.init f') = Sample.rates.
Proof.
  apply (offline_reads_fetched Online.init Sample.now
           (Http.Response 200 (Http.Rates Sample.rates)) Cache.Missing Sample.rates).
  - reflexivity.
  - apply (holds_not_empty _ "USD" (Py.lit "1")). vm_compute. reflexivity.
Defined.

(** *** Fetches in a row *)

Section Refetch.

Lemma load_cache_twice (self : Online.t) (f : Cache.file) :
  Online.load_cache (snd (Online.load_cache self f)) f = Online.load_cache self f.
Proof.
  destruct f as [| |d]; try reflexivity.
  rewrite !load_cache_json. cbv zeta.
  case_bool_decide; [reflexivity|].
  destruct (Datetime.strptime_iso _); reflexivity.
Qed.

End Refetch.

(** X3: of two failed fetches in a row, the second leaves the provider
    and the cache file as the first left them and returns the same
    boolean. *)
Theorem failed_fetch_twice (self : Online.t) (now now' : Datetime.t)
    (net net' : Http.result) (w w' : Cache.write) (f : Cache.file) :
  Online.fetched net = None ->
  Online.fetched net' = None ->
  let '(ok, self1, f1) := Online.fetch_rates self now net w f in
  Online.fetch_rates self1 now' net' w' f1 = (ok, self1, f1).
Proof.
  intros H1 H2. rewrite (fetch_falls_back self now net w f H1).
  rewrite (fetch_falls_back _ now' net' w' f H2).
  rewrite load_cache_twice.
  now destruct (Online.load_cache self f).
Qed.

Lemma failed_fetch_twice_witness :
  Online.fetch_rates
    (snd (fst (Online.fetch_rates Online.init Sample.now Http.Raises
                 Cache.Written Sample.cache)))
    Sample.earlier (Http.Response 500 Http.NotJson) Cache.Written Sample.cache
  = Online.fetch_rates Online.init Sample.now Http.Raises Cache.Written Sample.cache.
Proof.
  pose proof (failed_fetch_twice Online.init Sample.now Sample.earlier Http.Raises
                (Http.Response 500 Http.NotJson) Cache.Written Cache.Written
                Sample.cache eq_refl eq_refl) as H.
  destruct (Online.fetch_rates Online.init Sample.now Http.Raises Cache.Written
              Sample.cache) as [[ok self1] f1] eqn:E.
  assert (Ef : f1 = Sample.cache).
  { rewrite (fetch_falls_back Online.init Sample.now Http.Raises Cache.Written
               Sample.cache eq_refl) in E. now injection E. }
  subst f1. exact H.
Defined.

(** X4: a fetch that obtained a table and wrote the cache file, then a
    fetch that failed: the provider still holds the fetched table, and
    the time of the fetch to the second; the boolean says whether the
    table is empty. *)
Theorem fetch_then_failure (self : Online.t) (now now' : Datetime.t)
    (net net' : Http.result) (w' : Cache.write) (f : Cache.file) (r : table) :
  Online.fetched net = Some r ->
  Online.fetched net' = None ->
  Datetime.clock now = true ->
  let '(_, self1, f1) := Online.fetch_rates self now net Cache.Written f in
  Online.fetch_rates self1 now' net' w' f1
  = (negb (bool_decide (r = ∅)),
     Online.mk r (Online.base_currency self) (Some (Datetime.truncate now)),
     f1).
Proof.
  intros H1 H2 Hc.
  rewrite (fetch_stores self now net Cache.Written f r H1).
  rewrite (fetch_falls_back _ now' net' w' _ H2).
  unfold Online.save_cache. rewrite load_cache_json.
  unfold Online.cache_data.
  cbn -[Datetime.strftime_iso Datetime.strptime_iso bool_decide].
  rewrite (bool_decide_eq_false_2 _ (strftime_not_empty now)).
  rewrite (strptime_strftime now Hc). reflexivity.
Qed.

Lemma fetch_then_failure_witness :
  Online.rates
    (snd (fst (Online.fetch_rates
                 (snd (fst (Online.fetch_rates Online.init Sample.now
                              (Http.Response 200 (Http.Rates Sample.rates))
                              Cache.Written Cache.Missing)))
                 Sample.earlier Http.Raises Cache.OpenFails
                 (snd (Online.fetch_rates Online.init Sample.now
                         (Http.Response 200 (Http.Rates Sample.rates))
                         Cache.Written Cache.Missing)))))
  = Sample.rates.
Proof.
  pose proof (fetch_then_failure Online.init Sample.now Sample.earlier
                (Http.Response 200 (Http.Rates Sample.rates)) Http.Raises
                Cache.OpenFails Cache.Missing Sample.rates eq_refl eq_refl eq_refl) as H.
  destruct (Online.fetch_rates Online.init Sample.now
              (Http.Response 200 (Http.Rates Sample.rates)) Cache.Written Cache.Missing)
    as [[ok self1] f1].
  cbn [fst snd]. rewrite H. reflexivity.
Defined.

(** *** Conversions in a row *)

Section Sessions.

Implicit Types (c : Converter.t) (h : History.t) (e : History.record).

(** One call: either an error and the converter as before, or a result
    and one more record. *)
Lemma convert_cases c now text x y :
  (exists err, Converter.convert c now text x y = ((None, Some err), c))
  \/ (exists e,
        Converter.convert c now text x y
        = ((Some (History.result e), None),
           Converter.mk (Converter.exchange_rate_provider c)
             (History.save_entry (Converter.history_manager c) e))).
Proof.
  unfold Converter.convert.
  destruct (Py.float_of_str _) as [a|]; [|left; eauto].
  destruct (Py.ltb a Py.zero); [left; eauto|].
  destruct (Converter.get_exchange_rate c _ _) as [r|]; [|left; eauto].
  destruct (Py.leb r Py.zero); [left; eauto|].
  right. eexists (History.mk_record _ _ _ _ _ _). reflexivity.
Qed.

Lemma save_entry_length_exact h e :
  (length (History.history_list h) <= 50)%nat ->
  length (History.history_list (History.save_entry h e))
  = Nat.min 50 (length (History.history_list h) + 1).
Proof.
  intros H. rewrite save_entry_drop by assumption.
  rewrite length_drop, length_app. change (length [e]) with 1%nat. lia.
Qed.

End Sessions.

(** X5: any sequence of [convert] calls keeps the provider, and a history
    that held at most fifty records holds one more for each call that
    returned a result, up to fifty. *)
Theorem converts_history (calls : list Session.call) : forall self : Converter.t,
  (length (History.get_history (Converter.history_manager self)) <= 50)%nat ->
  let '(rs, self') := Session.converts self calls in
  length rs = length calls
  /\ Converter.exchange_rate_provider self' = Converter.exchange_rate_provider self
  /\ length (History.get_history (Converter.history_manager self'))
     = Nat.min 50 (length (History.get_history (Converter.history_manager self))
                   + Session.successes rs).
Proof.
  unfold History.get_history.
  induction calls as [|c calls IH]; intros self Hlen.
  - cbn [Session.converts Session.successes length]. repeat split. lia.
  - cbn [Session.converts]. unfold Session.convert.
    destruct (convert_cases self (Session.clock c) (Session.amount c)
                (Session.from_currency c) (Session.to_currency c))
      as [(err & ->) | (e & ->)].
    + specialize (IH self Hlen).
      destruct (Session.converts self calls) as [rs self'].
      destruct IH as (H1 & H2 & H3).
      cbn [Session.successes length]. split; [congruence|]. split; assumption.
    + set (self1 := Converter.mk _ _).
      assert (Hlen1 : (length (History.history_list (Converter.history_manager self1))
                       <= 50)%nat) by (apply save_entry_length; exact Hlen).
      specialize (IH self1 Hlen1).
      destruct (Session.converts self1 calls) as [rs self'].
      destruct IH as (H1 & H2 & H3).
      cbn [Session.successes length]. split; [congruence|]. split; [exact H2|].
      rewrite H3. subst self1. cbn [Converter.history_manager].
      rewrite save_entry_length_exact by exact Hlen. lia.
Qed.

Lemma converts_history_witness :
  length (History.get_history
            (Converter.history_manager
               (snd (Session.converts Sample.converter
                       [Session.mk_call Sample.now "100" "UAH" "EUR";
                        Session.mk_call Sample.now "abc" "UAH" "EUR";
                        Session.mk_call Sample.now "1" "USD" "UAH"]))))
  = 2%nat.
Proof.
  pose proof (converts_history
                [Session.mk_call Sample.now "100" "UAH" "EUR";
                 Session.mk_call Sample.now "abc" "UAH" "EUR";
                 Session.mk_call Sample.now "1" "USD" "UAH"]
                Sample.converter) as H.
  destruct (Session.converts Sample.converter _) as [rs self'] eqn:E.
  destruct H as (_ & _ & H); [simpl; lia|].
  cbn [snd]. rewrite H.
  apply (f_equal fst) in E. cbn [fst] in E. rewrite <- E. vm_compute. reflexivity.
Defined.

(** *** Signs *)

Section Signs.

Lemma binary_round_aux_sign s m e l :
  match binary_round_aux Py.prec Py.emax s m e l with
  | S754_zero s' | S754_infinity s' | S754_finite s' _ _ => s' = s
  | S754_nan => True
  end.
Proof.
  unfold binary_round_aux.
  destruct (shr_fexp _ _ m e l) as [mrs' e'].
  destruct (shr_fexp _ _ _ e' loc_Exact) as [mrs'' e''].
  destruct (shr_m mrs''); [reflexivity| |exact I].
  now destruct (e'' <=? _).
Qed.

Lemma mul_not_negative (a r : spec_float) :
  Py.ltb a Py.zero = false -> Py.leb r Py.zero = false ->
  Py.ltb (Py.mul a r) Py.zero = false.
Proof.
  destruct a as [sa|sa| |sa ma ea], r as [sr|sr| |sr mr er];
    try destruct sa; try destruct sr; try (cbv; congruence).
  intros _ _. unfold Py.mul, SFmul. simpl xorb.
  pose proof (binary_round_aux_sign false (Z.pos (ma * mr)) (ea + er) loc_Exact) as H.
  destruct (binary_round_aux _ _ _ _ _ _) as [s|s| |s m e]; try subst s; reflexivity.
Qed.

Lemma of_decimal_not_negative m e : Py.ltb (Py.of_decimal m e) Py.zero = false.
Proof.
  assert (H : forall p q e1 e2,
            Py.ltb (Py.div (S754_finite false p e1) (S754_finite false q e2)) Py.zero
            = false).
  { intros p q e1 e2. unfold Py.div, SFdiv.
    destruct (SFdiv_core_binary _ _ _ _ _ _) as [[mz ez] lz]. simpl xorb.
    pose proof (binary_round_aux_sign false mz ez lz) as Hs.
    destruct (binary_round_aux _ _ _ _ _ _) as [s|s| |s m' e']; try subst s; reflexivity. }
  unfold Py.of_decimal. destruct m as [|p|p]; try reflexivity.
  destruct e as [|q|q]; apply H.
Qed.

End Signs.

(** X6: what [convert] returns is never negative; the record it adds is
    the last of the history and holds that result, the amount as [float]
    read it, which is not negative, and a rate that is not zero or
    less. *)
Theorem convert_not_negative (self self' : Converter.t) (now : Datetime.t)
    (text from_currency to_currency : string) (v : spec_float)
    (err : option Converter.error) :
  Converter.convert self now text from_currency to_currency = ((Some v, err), self') ->
  Py.ltb v Py.zero = false
  /\ exists e,
       last (History.get_history (Converter.history_manager self')) = Some e
       /\ History.result e = v
       /\ Py.ltb (History.amount e) Py.zero = false
       /\ Py.leb (History.rate e) Py.zero = false
       /\ Py.float_of_str text = Some (History.amount e).
Proof.
  unfold Converter.convert.
  destruct (Py.float_of_str text) as [a|]; [|discriminate].
  destruct (Py.ltb a Py.zero) eqn:Ha; [discriminate|].
  destruct (Converter.get_exchange_rate self _ _) as [r|]; [|discriminate].
  destruct (Py.leb r Py.zero) eqn:Hr; [discriminate|].
  intros [= <- <- <-]. split; [now apply mul_not_negative|].
  eexists. split.
  - cbn [Converter.history_manager]. unfold History.get_history.
    rewrite save_entry_snoc. apply last_snoc.
  - repeat split; assumption.
Qed.

Lemma convert_not_negative_witness :
  Py.ltb (Py.lit "85") Py.zero = false.
Proof.
  apply (proj1 (convert_not_negative Sample.converter
                  (snd (Converter.convert Sample.converter Sample.now "100" "USD" "EUR"))
                  Sample.now "100" "USD" "EUR" (Py.lit "85") None
                  ltac:(vm_compute; reflexivity))).
Defined.

(** *** Values that are represented exactly *)

Section Exact.

(** Shifting out the zeros that a multiplication by a power of two put in:
    nothing is lost and nothing is remembered. *)
Lemma iter_shr_1_exact p : forall M,
  0 <= M ->
  SpecFloat.iter_pos shr_1 p (Build_shr_record (M * 2 ^ Zpos p) false false)
  = Build_shr_record M false false.
Proof.
  assert (H1 : forall M, 0 <= M ->
            shr_1 (Build_shr_record (M * 2) false false) = Build_shr_record M false false).
  { intros [|q|q] HM; try lia; [reflexivity|].
    rewrite Z.mul_comm. reflexivity. }
  induction p as [p IH|p IH|]; intros M HM; cbn [SpecFloat.iter_pos].
  - rewrite (Pos2Z.inj_xI p).
    replace (M * 2 ^ (2 * Zpos p + 1)) with (M * 2 ^ Zpos p * 2 ^ Zpos p * 2)
      by (rewrite Z.pow_add_r, <- Z.add_diag, Z.pow_add_r by lia; ring).
    rewrite H1 by (apply Z.mul_nonneg_nonneg; [apply Z.mul_nonneg_nonneg|]; lia).
    rewrite IH by (apply Z.mul_nonneg_nonneg; lia).
    now apply IH.
  - rewrite (Pos2Z.inj_xO p).
    replace (M * 2 ^ (2 * Zpos p)) with (M * 2 ^ Zpos p * 2 ^ Zpos p)
      by (rewrite <- Z.add_diag, Z.pow_add_r by lia; ring).
    rewrite IH by (apply Z.mul_nonneg_nonneg; lia).
    now apply IH.
  - change (2 ^ 1) with 2. now apply H1.
Qed.

Lemma Zdigits2_shift (m : positive) k :
  0 <= k -> Zdigits2 (Zpos m * 2 ^ k) = Zdigits2 (Zpos m) + k.
Proof.
  intros Hk. pose proof (Zdigits2_bounds m) as [Hlo Hhi].
  pose proof (Zdigits2_nonneg (Zpos m)) as Hd.
  assert (Hd1 : 1 <= Zdigits2 (Zpos m)) by (simpl; lia).
  assert (H2k : 0 < 2 ^ k) by (apply Z.pow_pos_nonneg; lia).
  apply Zdigits2_unique_Z; [lia|]. split.
  - replace (Zdigits2 (Zpos m) + k - 1) with (Zdigits2 (Zpos m) - 1 + k) by lia.
    rewrite Z.pow_add_r by lia. apply Z.mul_le_mono_nonneg_r; lia.
  - rewrite Z.pow_add_r by lia. apply Z.mul_lt_mono_pos_r; lia.
Qed.

(** Rounding a value that is representable gives that value. *)
Lemma round_exact s (m : positive) e k :
  bounded Py.prec Py.emax m e = true -> 0 <= k ->
  binary_round_aux Py.prec Py.emax s (Zpos m * 2 ^ k) (e - k) loc_Exact
  = S754_finite s m e.
Proof.
  intros Hb Hk. apply andb_true_iff in Hb as [Hc He].
  unfold canonical_mantissa in Hc. apply Z.eqb_eq in Hc.
  change (Zpos (digits2_pos m)) with (Zdigits2 (Zpos m)) in Hc.
  unfold binary_round_aux, shr_fexp.
  rewrite Zdigits2_shift by assumption.
  replace (Zdigits2 (Zpos m) + k + (e - k)) with (Zdigits2 (Zpos m) + e) by lia.
  rewrite Hc. replace (e - (e - k)) with k by lia.
  assert (Hs : shr (shr_record_of_loc (Zpos m * 2 ^ k) loc_Exact) (e - k) k
               = (Build_shr_record (Zpos m) false false, e)).
  { unfold shr. destruct k as [|p|p]; try lia.
    - rewrite Z.pow_0_r, Z.mul_1_r. cbn [shr_record_of_loc]. f_equal. lia.
    - cbn [shr_record_of_loc]. rewrite iter_shr_1_exact by lia. f_equal. lia. }
  rewrite Hs. cbn [shr_m loc_of_shr_record round_nearest_even].
  rewrite Hc, Z.sub_diag. cbn [shr shr_record_of_loc shr_m].
  now rewrite He.
Qed.

(** [x * 1.0] is [x]. *)
Lemma mul_one (x : spec_float) :
  valid_binary Py.prec Py.emax x = true -> Py.mul x Py.one = x.
Proof.
  destruct x as [[]|[]| |s m e]; try reflexivity.
  intros Hb. unfold Py.mul, Py.one, SFmul.
  rewrite xorb_false_r.
  change (Zpos (m * 4503599627370496)) with (Zpos m * 2 ^ 52).
  change (e + -52) with (e - 52).
  now apply round_exact.
Qed.

(** [x / 1.0] is [x]. *)
Lemma div_one (x : spec_float) :
  valid_binary Py.prec Py.emax x = true -> Py.div x Py.one = x.
Proof.
  destruct x as [[]|[]| |s m e]; try reflexivity.
  intros Hb. unfold Py.div, Py.one, SFdiv.
  rewrite xorb_false_r.
  pose proof Hb as Hb'. apply andb_true_iff in Hb' as [Hc He].
  unfold canonical_mantissa in Hc. apply Z.eqb_eq in Hc.
  change (Zpos (digits2_pos m)) with (Zdigits2 (Zpos m)) in Hc.
  rewrite fexp_eq in Hc.
  unfold SFdiv_core_binary.
  change (Zdigits2 4503599627370496) with 53.
  set (d := Zdigits2 (Zpos m)) in *.
  rewrite fexp_eq.
  replace (d + e - (53 + -52) - 53) with (d + e - 54) by lia.
  replace (e - -52) with (e + 52) by lia.
  set (e' := Z.min (Z.max (d + e - 54) (-1074)) (e + 52)).
  assert (He' : e' <= e) by (unfold e'; lia).
  destruct (e + 52 - e') as [|p|p] eqn:Es; try lia.
  rewrite Z.shiftl_mul_pow2 by lia.
  replace (Zpos m * 2 ^ Zpos p) with (Zpos m * 2 ^ (e - e') * 4503599627370496).
  2:{ rewrite <- Es. replace (e + 52 - e') with (e - e' + 52) by lia.
      rewrite Z.pow_add_r by lia. change (2 ^ 52) with 4503599627370496. ring. }
  assert (Hq : Z.div_eucl (Zpos m * 2 ^ (e - e') * 4503599627370496) 4503599627370496
               = (Zpos m * 2 ^ (e - e'), 0)).
  { pose proof (Z_div_mod_full (Zpos m * 2 ^ (e - e') * 4503599627370496)
                  4503599627370496 ltac:(lia)) as H.
    destruct (Z.div_eucl _ _) as [q r]. destruct H as [H1 H2].
    assert (r = 0 /\ q = Zpos m * 2 ^ (e - e')) as [-> ->]; [|reflexivity].
    destruct H2 as [H2|H2]; lia. }
  rewrite Hq. change (new_location 4503599627370496 0) with loc_Exact.
  replace e' with (e - (e - e')) at 2 by lia.
  apply round_exact; [assumption | lia].
Qed.

Lemma valid_of_bounds (m : positive) e :
  Zpos m < 2 ^ 53 -> -1074 <= e <= 971 -> (Zpos m < 2 ^ 52 -> e = -1074) ->
  bounded Py.prec Py.emax m e = true.
Proof.
  intros Hm He Hs. unfold bounded, canonical_mantissa.
  change (Zpos (digits2_pos m)) with (Zdigits2 (Zpos m)).
  rewrite fexp_eq. apply andb_true_iff.
  split; [|apply Z.leb_le; unfold Py.emax, Py.prec; lia].
  apply Z.eqb_eq.
  pose proof (Zdigits2_bounds m) as [Hlo Hhi].
  assert (Hd : Zdigits2 (Zpos m) <= 53) by (apply Zdigits2_le; lia).
  destruct (Z_lt_ge_dec (Zpos m) (2 ^ 52)) as [Hlt|Hge].
  - rewrite (Hs Hlt). lia.
  - assert (52 < Zdigits2 (Zpos m)); [|lia].
    apply pow2_lt_inv; [apply Zdigits2_nonneg|]. lia.
Qed.

Lemma of_decimal_valid m e : valid_binary Py.prec Py.emax (Py.of_decimal m e) = true.
Proof.
  assert (H : forall p q, valid_binary Py.prec Py.emax
                (Py.div (S754_finite false p 0) (S754_finite false q 0)) = true).
  { intros p q.
    destruct (Py.div _ _) as [| | |s m' e'] eqn:E; try reflexivity.
    destruct (div_finite_valid _ _ _ _ _ _ _ E) as (H1 & H2 & H3).
    now apply valid_of_bounds. }
  unfold Py.of_decimal. destruct m as [|p|p]; try reflexivity.
  destruct e as [|q|q]; apply H.
Qed.

Lemma valid_opp x :
  valid_binary Py.prec Py.emax (SFopp x) = valid_binary Py.prec Py.emax x.
Proof. now destruct x. Qed.

Lemma float_of_chars_valid s a :
  Py.float_of_chars s = Some a -> valid_binary Py.prec Py.emax a = true.
Proof.
  unfold Py.float_of_chars.
  destruct (Py.sign _) as [neg r].
  destruct (_ || _).
  - intros [= <-]. now destruct neg.
  - destruct (bool_decide _); [now intros [= <-]|].
    destruct (Py.decimal r) as [[m e]|]; [|discriminate].
    intros [= <-]. destruct neg; [rewrite valid_opp|]; apply of_decimal_valid.
Qed.

(** [float(text)] is a binary64 value. *)
Lemma float_of_str_valid text a :
  Py.float_of_str text = Some a -> valid_binary Py.prec Py.emax a = true.
Proof.
  unfold Py.float_of_str.
  destruct (Unicode.decode _) as [cps|]; [apply float_of_chars_valid | discriminate].
Qed.

Lemma entry_valid (r : table) c :
  (forall k v, r !! k = Some v -> valid_binary Py.prec Py.emax v = true) ->
  valid_binary Py.prec Py.emax (entry r c) = true.
Proof.
  intros H. unfold entry. destruct (r !! c) as [v|] eqn:E; [|reflexivity].
  exact (H c v E).
Qed.

Lemma eqb_zero_cases x :
  Py.eqb x Py.zero = true -> x = Py.zero \/ x = S754_zero true.
Proof. destruct x as [[]|[]| |[] m e]; cbv; auto; discriminate. Qed.

End Exact.

(** X7: converting a currency into itself returns the amount as [float]
    read it, bit for bit, whenever the provider holds a table; the record
    holds the rate [1] and the amount twice. *)
Theorem same_currency_amount (self : Converter.t) (now : Datetime.t)
    (text c : string) (a : spec_float) :
  get_all_rates (Converter.exchange_rate_provider self) ≠ ∅ ->
  Py.float_of_str text = Some a ->
  Py.ltb a Py.zero = false ->
  Converter.convert self now text c c
  = ((Some a, None),
     Converter.mk (Converter.exchange_rate_provider self)
       (History.save_entry (Converter.history_manager self)
          (History.mk_record (Datetime.strftime_dmy now) a c c Py.one a))).
Proof.
  intros Hne Ha Hpos. unfold Converter.convert. rewrite Ha, Hpos.
  assert (Hr : Converter.get_exchange_rate self c c = Some Py.one).
  { unfold Converter.get_exchange_rate.
    destruct (Converter.exchange_rate_provider self) as [o|p]; simpl in *.
    - rewrite online_same. unfold Online.get_all_rates in Hne.
      now rewrite (bool_decide_eq_false_2 _ Hne).
    - apply offline_same. }
  rewrite Hr. change (Py.leb Py.one Py.zero) with false. cbv iota.
  now rewrite (mul_one a (float_of_str_valid text a Ha)).
Qed.

Lemma same_currency_amount_witness :
  fst (Converter.convert Sample.converter Sample.now "12.345" "EUR" "EUR")
  = (Some (Py.lit "12.345"), None).
Proof.
  rewrite (same_currency_amount Sample.converter Sample.now "12.345" "EUR"
             (Py.lit "12.345")).
  - reflexivity.
  - apply (holds_not_empty _ "USD" (Py.lit "1")). vm_compute. reflexivity.
  - vm_compute. reflexivity.
  - vm_compute. reflexivity.
Defined.

(** X8: the two providers give the same rate for the same table of
    binary64 values when the entry of the online provider's base currency
    is [1.0]; the one difference is the sign of a zero that the table
    holds for the target. *)
Theorem providers_agree (o : Online.t) (x y : string) :
  Online.rates o !! Online.base_currency o = Some Py.one ->
  (forall k v, Online.rates o !! k = Some v -> valid_binary Py.prec Py.emax v = true) ->
  Online.get_exchange_rate o x y
  = Offline.get_exchange_rate (Offline.mk (Online.rates o)) x y
  \/ (x = Online.base_currency o
      /\ Online.get_exchange_rate o x y = Some (S754_zero true)
      /\ Offline.get_exchange_rate (Offline.mk (Online.rates o)) x y = Some Py.zero).
Proof.
  intros Hbase Hvalid.
  pose proof (holds_not_empty _ _ _ Hbase) as Hne.
  pose proof (entry_present _ _ _ Hbase) as Eb.
  destruct (decide (x = y)) as [->|Hxy].
  { left. rewrite online_same, offline_same.
    now rewrite (bool_decide_eq_false_2 _ Hne). }
  rewrite (offline_cross _ x y Hxy). cbn [Offline.rates].
  destruct (decide (x = Online.base_currency o)) as [->|Hx].
  - rewrite online_from_base by assumption.
    unfold cross. rewrite Eb. change (Py.eqb Py.one Py.zero) with false.
    cbn [orb].
    destruct (Py.eqb (entry (Online.rates o) y) Py.zero) eqn:E.
    + destruct (eqb_zero_cases _ E) as [->| ->]; [now left|right; auto].
    + left. now rewrite (div_one _ (entry_valid _ y Hvalid)).
  - destruct (decide (y = Online.base_currency o)) as [->|Hy].
    + left. rewrite online_to_base by assumption.
      unfold cross. rewrite Eb. change (Py.eqb Py.one Py.zero) with false.
      now rewrite orb_false_r.
    + left. now apply online_cross.
Qed.

Lemma providers_agree_witness :
  Online.get_exchange_rate Sample.online "USD" "UAH" = Some (Py.lit "37.0")
  /\ Offline.get_exchange_rate (Offline.mk Sample.rates) "USD" "UAH"
     = Some (Py.lit "37.0").
Proof.
  assert (Hv : forall k v, Sample.rates !! k = Some v ->
                 valid_binary Py.prec Py.emax v = true).
  { intros k v H.
    apply (map_Forall_lookup_1 (fun _ v => valid_binary Py.prec Py.emax v = true)
             Sample.rates k v); [|exact H].
    apply map_Forall_to_list. vm_compute. repeat constructor. }
  destruct (providers_agree Sample.online "USD" "UAH"
              ltac:(vm_compute; reflexivity) Hv) as [H|(_ & H & _)].
  - split; [|etransitivity; [symmetry; exact H|]]; vm_compute; reflexivity.
  - vm_compute in H. discriminate H.
Defined.

(** *** The items of the dropdowns *)

Section Texts.

Implicit Types (sep s t : string) (c : ascii).

Lemma prefix_empty sep : String.prefix sep EmptyString = true -> sep = EmptyString.
Proof. now destruct sep. Qed.

Lemma prefix_nil s : String.prefix EmptyString s = true.
Proof. now destruct s. Qed.

Lemma prefix_cons c sep s :
  String.prefix (String c sep) (String c s) = String.prefix sep s.
Proof. simpl. now destruct (ascii_dec c c). Qed.

Lemma prefix_cons_ne c c' sep s :
  c <> c' -> String.prefix (String c sep) (String c' s) = false.
Proof. intros H. simpl. now destruct (ascii_dec c c'). Qed.

Lemma prefix_app sep s : String.prefix sep (sep +:+ s) = true.
Proof.
  induction sep as [|c sep IH]; [apply prefix_nil|].
  change (String c sep +:+ s) with (String c (sep +:+ s)).
  now rewrite prefix_cons.
Qed.

Lemma split_head_nil sep : Text.split_head sep EmptyString = EmptyString.
Proof. now destruct sep. Qed.

Lemma split_head_cons sep c s :
  Text.split_head sep (String c s)
  = if String.prefix sep (String c s) then EmptyString
    else String c (Text.split_head sep s).
Proof. reflexivity. Qed.

Lemma contains_nil sep :
  sep <> EmptyString -> Text.contains sep EmptyString = false.
Proof. now destruct sep. Qed.

Lemma contains_cons sep c s :
  Text.contains sep (String c s)
  = String.prefix sep (String c s) || Text.contains sep s.
Proof. reflexivity. Qed.

(** What stands before the first [sep] starts the text. *)
Lemma prefix_split_head sep t : forall a,
  String.prefix a (Text.split_head sep t) = true -> String.prefix a t = true.
Proof.
  induction t as [|c t IH]; intros a.
  - now rewrite split_head_nil.
  - rewrite split_head_cons. destruct (String.prefix sep (String c t)).
    + intros H. rewrite (prefix_empty _ H). reflexivity.
    + destruct a as [|c' a]; [reflexivity|]. simpl.
      destruct (ascii_dec c' c); [apply IH | discriminate].
Qed.

Lemma contains_split_head sep s :
  sep <> EmptyString -> Text.contains sep (Text.split_head sep s) = false.
Proof.
  intros Hsep. pose proof (contains_nil sep Hsep) as H0.
  induction s as [|c s IH].
  - now rewrite split_head_nil.
  - rewrite split_head_cons.
    destruct (String.prefix sep (String c s)) eqn:E; [exact H0|].
    rewrite contains_cons, IH, orb_false_r.
    destruct (String.prefix sep (String c (Text.split_head sep s))) eqn:E'; [|reflexivity].
    rewrite <- E. symmetry.
    apply (prefix_split_head sep (String c s)).
    rewrite split_head_cons. now rewrite E.
Qed.

Lemma contains_char_cons c c' s :
  Text.contains (String c EmptyString) (String c' s) = false ->
  c <> c' /\ Text.contains (String c EmptyString) s = false.
Proof.
  rewrite contains_cons. intros H. apply orb_false_iff in H as [H1 H2].
  split; [|exact H2]. intros ->. rewrite prefix_cons, prefix_nil in H1. discriminate.
Qed.

(** A text without the first character of [sep], then [sep]: the first
    [sep] is the one that was added. *)
Lemma split_head_app c sep s t :
  Text.contains (String c EmptyString) s = false ->
  Text.split_head (String c sep) (s +:+ String c sep +:+ t) = s
  /\ Text.contains (String c sep) (s +:+ String c sep +:+ t) = true.
Proof.
  induction s as [|c' s IH]; intros H.
  - change (EmptyString +:+ String c sep +:+ t) with (String c (sep +:+ t)).
    pose proof (prefix_app (String c sep) t) as P.
    change (String c sep +:+ t) with (String c (sep +:+ t)) in P.
    rewrite split_head_cons, contains_cons, P. now split.
  - apply contains_char_cons in H as [Hne H]. destruct (IH H) as [IH1 IH2].
    change (String c' s +:+ String c sep +:+ t)
      with (String c' (s +:+ String c sep +:+ t)).
    rewrite split_head_cons, contains_cons, IH1, IH2.
    rewrite (prefix_cons_ne c c') by assumption. now split.
Qed.

Lemma selected_without_separator v :
  Text.contains " - " (UI.get_selected_currency_code v) = false.
Proof.
  unfold UI.get_selected_currency_code.
  destruct (Text.contains " - " v) eqn:E; [|exact E].
  now apply contains_split_head.
Qed.

End Texts.

(** X9: the code that [get_selected_currency_code] returns holds no
    separator, so the function returns its own results unchanged. *)
Theorem selected_code_idempotent (v : string) :
  Text.contains " - " (UI.get_selected_currency_code v) = false
  /\ UI.get_selected_currency_code (UI.get_selected_currency_code v)
     = UI.get_selected_currency_code v.
Proof.
  split; [apply selected_without_separator|].
  unfold UI.get_selected_currency_code at 1.
  now rewrite selected_without_separator.
Qed.

(** X10: an item that is made of a code without a space, the separator
    and a name gives back the code, whatever the name holds. *)
Theorem selected_code_of_item (code name : string) :
  Text.contains " " code = false ->
  UI.get_selected_currency_code (code +:+ " - " +:+ name) = code.
Proof.
  intros H. unfold UI.get_selected_currency_code.
  destruct (split_head_app " " "- " code name H) as [H1 H2].
  now rewrite H2, H1.
Qed.

Lemma selected_code_of_item_witness :
  UI.get_selected_currency_code "UAH - A - B" = "UAH"%string.
Proof.
  apply (selected_code_of_item "UAH" "A - B"). vm_compute. reflexivity.
Defined.

(** *** The window between events *)

Section Window.

Implicit Types (self : UI.t) (c : Converter.t) (f : Cache.file).

Lemma conversion_cases self now d :
  (exists err, UI.conversion self now d = ((None, Some err), UI.converter self))
  \/ (exists e,
        UI.conversion self now d
        = ((Some (History.result e), None),
           Converter.mk (Converter.exchange_rate_provider (UI.converter self))
             (History.save_entry (Converter.history_manager (UI.converter self)) e))).
Proof. unfold UI.conversion. destruct d; apply convert_cases. Qed.

(** [update_conversion] after a call of [convert] that returned a result:
    the provider returns a rate, so the handler of exceptions is not
    reached. *)
Lemma update_conversion_result self now d e c :
  UI.conversion self now d = ((Some (History.result e), None), c) ->
  exists rate,
    UI.update_conversion self now d
    = UI.update_history_display
        (let self2 :=
           UI.set_updating
             match d with
             | UI.Forward =>
                 UI.set_amount2 (UI.set_converter self c) (UI.amount_text (History.result e))
             | UI.Backward =>
                 UI.set_amount1 (UI.set_converter self c) (UI.amount_text (History.result e))
             end false in
         if Py.ltb Py.zero rate
         then UI.set_rate_label self2
                (UI.RateLine
                   (UI.rate_text
                      (UI.get_selected_currency_code (UI.dropdown_get (UI.from_dropdown self)))
                      (UI.get_selected_currency_code (UI.dropdown_get (UI.to_dropdown self)))
                      rate))
         else self2).
Proof.
  intros E. unfold UI.update_conversion. rewrite E. cbv zeta.
  assert (Hc : UI.converter
                 (UI.set_updating
                    match d with
                    | UI.Forward =>
                        UI.set_amount2 (UI.set_converter self c)
                          (UI.amount_text (History.result e))
                    | UI.Backward =>
                        UI.set_amount1 (UI.set_converter self c)
                          (UI.amount_text (History.result e))
                    end false) = c) by (now destruct d).
  rewrite Hc. unfold Converter.get_exchange_rate.
  destruct (provider_total (Converter.exchange_rate_provider c)
              (UI.get_selected_currency_code (UI.dropdown_get (UI.from_dropdown self)))
              (UI.get_selected_currency_code (UI.dropdown_get (UI.to_dropdown self))))
    as [rate ->].
  now exists rate.
Qed.

Lemma last_ten_length (h : list History.record) :
  (length (UI.last_ten h) <= 10)%nat.
Proof. unfold UI.last_ten. rewrite length_drop. lia. Qed.

Lemma head_panel (h : list History.record) (e : History.record) :
  head (map UI.history_line (rev (UI.last_ten (h ++ [e])))) = Some (UI.history_line e).
Proof.
  unfold UI.last_ten. rewrite <- firstn_rev, rev_app_distr. reflexivity.
Qed.

Lemma retitle_offline :
  UI.retitle_buttons "Офлайн режим" "🌐 Онлайн режим" UI.create_widgets
  = UI.create_widgets.
Proof. vm_compute. reflexivity. Qed.

Lemma retitle_online :
  UI.retitle_buttons "Онлайн режим" "📱 Офлайн режим" UI.create_widgets
  = UI.create_widgets.
Proof. vm_compute. reflexivity. Qed.

Lemma settled_main : UI.settled true UI.main.
Proof. repeat split. simpl. lia. Qed.

Lemma settled_update_conversion shown self now d :
  UI.settled shown self -> UI.settled shown (UI.update_conversion self now d).
Proof.
  intros (Hp & Hu & Hw & Hl).
  destruct (conversion_cases self now d) as [(err & E) | (e & E)].
  - unfold UI.update_conversion. rewrite E. repeat split; assumption.
  - destruct (update_conversion_result self now d e _ E) as [rate ->].
    assert (Hlen : (length (History.get_history
                      (History.save_entry (Converter.history_manager (UI.converter self)) e))
                    <= 50)%nat) by (now apply save_entry_length).
    destruct (Py.ltb Py.zero rate), d;
      (split; [intros _; reflexivity|]); repeat split; assumption.
Qed.

Lemma settled_refresh_rates shown self now net w f :
  UI.settled shown self -> UI.settled shown (fst (UI.refresh_rates self now net w f)).
Proof.
  intros (Hp & Hu & Hw & Hl). unfold UI.refresh_rates.
  destruct (Converter.exchange_rate_provider (UI.converter self)) as [p|p];
    [|repeat split; assumption].
  destruct (Online.fetch_rates p now net w f) as [[success p'] f'].
  destruct success; [destruct (Online.last_update p')|]; repeat split; assumption.
Qed.

Lemma settled_toggle_offline_mode shown self f :
  UI.settled shown self -> UI.settled shown (UI.toggle_offline_mode self f).
Proof.
  intros (Hp & Hu & Hw & Hl). unfold UI.toggle_offline_mode.
  destruct (Converter.exchange_rate_provider (UI.converter self)) as [p|p];
    (split; [exact Hp|]; split; [exact Hu|]; split; [|exact Hl]);
    cbn [UI.window UI.set_window UI.set_update_label UI.set_status UI.set_converter];
    rewrite Hw; [apply retitle_offline | apply retitle_online].
Qed.

Lemma settled_handle shown self f ev :
  UI.settled shown self ->
  UI.settled (shown && negb (UI.edits_panel ev)) (fst (UI.handle self f ev)).
Proof.
  intros H.
  assert (H' : UI.edits_panel ev = false -> UI.settled shown (fst (UI.handle self f ev))).
  { intros Hev. pose proof H as (Hp & Hu & Hw & Hl).
    destruct ev as [text now|text now|text|text|lines|i now|i now| | | | |now net w];
      try discriminate Hev; cbn [UI.handle fst].
    - unfold UI.on_amount1_change. cbn [UI.updating_from_code UI.set_amount1].
      rewrite Hu. apply settled_update_conversion. repeat split; assumption.
    - unfold UI.on_amount2_change. cbn [UI.updating_from_code UI.set_amount2].
      rewrite Hu. apply settled_update_conversion. repeat split; assumption.
    - repeat split; assumption.
    - repeat split; assumption.
    - apply settled_update_conversion. repeat split; assumption.
    - apply settled_update_conversion. repeat split; assumption.
    - repeat split; assumption.
    - repeat split; assumption.
    - split; [intros _; reflexivity|]. repeat split; try assumption. simpl. lia.
    - now apply settled_toggle_offline_mode.
    - now apply settled_refresh_rates. }
  destruct (UI.edits_panel ev) eqn:Hev.
  - rewrite andb_false_r. destruct ev; try discriminate Hev.
    destruct H as (_ & Hu & Hw & Hl). cbn [UI.handle fst].
    split; [discriminate|]. repeat split; assumption.
  - rewrite andb_true_r. now apply H'.
Qed.

Lemma settled_run events : forall shown self f,
  UI.settled shown self ->
  UI.settled (shown && forallb (fun ev => negb (UI.edits_panel ev)) events)
    (fst (UI.run self f events)).
Proof.
  unfold UI.run.
  induction events as [|ev events IH]; intros shown self f H.
  - cbn [forallb foldl fst]. now rewrite andb_true_r.
  - cbn [foldl forallb]. pose proof (settled_handle shown self f ev H) as H'.
    destruct (UI.handle self f ev) as [self' f']. rewrite andb_assoc.
    now apply IH.
Qed.

End Window.

(** X11: from the start of [main], whatever happens, the history holds at
    most fifty records; and as long as the user does not type into the
    history panel, the panel shows the last ten records of the history, the
    newest first. *)
Theorem history_panel_in_step (events : list UI.event) (f : Cache.file) :
  let self := fst (UI.run UI.main f events) in
  let history := History.get_history (Converter.history_manager (UI.converter self)) in
  (length history <= 50)%nat
  /\ (forallb (fun ev => negb (UI.edits_panel ev)) events = true ->
      UI.history_text self = map UI.history_line (take 10 (rev history))
      /\ (length (UI.history_text self) = Nat.min 10 (length history))%nat).
Proof.
  cbv zeta.
  destruct (settled_run events true UI.main f settled_main) as (Hp & _ & _ & Hl).
  split; [exact Hl|]. intros Hev. rewrite Hev in Hp. rewrite (Hp eq_refl).
  unfold UI.panel, UI.last_ten.
  set (h := History.get_history _) in *.
  rewrite <- firstn_rev. split; [reflexivity|].
  rewrite length_map, length_take, length_rev. reflexivity.
Qed.

Lemma history_panel_in_step_witness :
  UI.history_text
    (fst (UI.run UI.main Cache.Missing
            [UI.Refresh Sample.now (Http.Response 200 (Http.Rates Sample.rates))
               Cache.Written;
             UI.Amount1 "100" Sample.now; UI.Paste2 "7"; UI.Swap;
             UI.Amount2 "abc" Sample.now; UI.ToggleMode;
             UI.SelectTo 0 Sample.earlier]))
  = [ "31.12.2023 23:59 | 7.00 EUR → 8.2353 USD (курс: 1.1765)"
      +:+ String "010" EmptyString;
      "05.01.2024 03:04 | 100.00 UAH → 2.2973 EUR (курс: 0.0230)"
      +:+ String "010" EmptyString ]%string.
Proof.
  etransitivity.
  - apply (proj2 (history_panel_in_step
                    [UI.Refresh Sample.now (Http.Response 200 (Http.Rates Sample.rates))
                       Cache.Written;
                     UI.Amount1 "100" Sample.now; UI.Paste2 "7"; UI.Swap;
                     UI.Amount2 "abc" Sample.now; UI.ToggleMode;
                     UI.SelectTo 0 Sample.earlier]
                    Cache.Missing)).
    reflexivity.
  - vm_compute. reflexivity.
Defined.

(** X12: whatever the user does, the buttons keep their texts: the loops
    of [toggle_offline_mode] look for the button among the children of the
    main frame, where no button is, so the button that switches the mode
    reads the same in both modes. *)
Theorem mode_button_text (events : list UI.event) (f : Cache.file) :
  UI.window (fst (UI.run UI.main f events)) = UI.create_widgets.
Proof.
  now destruct (settled_run events true UI.main f settled_main) as (_ & _ & Hw & _).
Qed.

(** *** The offline mode and the dropdowns *)

Section Dropdowns.

Lemma static_rates_usable (i j : nat) :
  (i < 14)%nat -> (j < 14)%nat -> UI.usable (UI.static_rate i j) = true.
Proof.
  intros Hi Hj.
  assert (H : forallb (fun i => forallb (fun j => UI.usable (UI.static_rate i j)) (seq 0 14))
                (seq 0 14) = true) by (vm_compute; reflexivity).
  rewrite forallb_forall in H.
  specialize (H i ltac:(apply in_seq; lia)).
  rewrite forallb_forall in H. apply H. apply in_seq. lia.
Qed.

End Dropdowns.

(** X13: after the switch to the offline mode without a saved table, every
    pair of dropdown items has a rate that is positive and finite, and any
    amount that is not negative is converted with it. *)
Theorem offline_mode_converts_all (self : UI.t) (f : Cache.file) (p : Online.t)
    (i j : nat) (now : Datetime.t) (text : string) (a : spec_float) :
  Converter.exchange_rate_provider (UI.converter self) = OnlineRateProvider p ->
  Offline.load_cache f = ∅ ->
  (i < 14)%nat -> (j < 14)%nat ->
  Py.float_of_str text = Some a ->
  Py.ltb a Py.zero = false ->
  let c := UI.converter (UI.toggle_offline_mode self f) in
  let from_curr := UI.get_selected_currency_code (UI.dropdown_get i) in
  let to_curr := UI.get_selected_currency_code (UI.dropdown_get j) in
  exists r,
    Converter.get_exchange_rate c from_curr to_curr = Some r
    /\ Py.ltb Py.zero r = true
    /\ Py.is_finite r = true
    /\ fst (Converter.convert c now text from_curr to_curr) = (Some (Py.mul a r), None).
Proof.
  intros Hp Hf Hi Hj Ha Hpos. cbv zeta.
  unfold UI.toggle_offline_mode. rewrite Hp.
  cbn [UI.converter UI.set_window UI.set_update_label UI.set_status UI.set_converter].
  rewrite (offline_init_static f Hf).
  pose proof (static_rates_usable i j Hi Hj) as Hu.
  unfold UI.static_rate in Hu.
  destruct (Offline.get_exchange_rate _ _ _) as [r|] eqn:Er; [|discriminate Hu].
  apply andb_true_iff in Hu as [H1 H2].
  exists r. split; [exact Er|]. split; [exact H1|]. split; [exact H2|].
  erewrite convert_ok; [reflexivity | exact Ha | exact Hpos | exact Er |].
  now apply ltb_zero_leb.
Qed.

Lemma offline_mode_converts_all_witness :
  exists r,
    Converter.get_exchange_rate
      (UI.converter (UI.toggle_offline_mode UI.main Cache.Missing)) "UAH" "EUR" = Some r
    /\ Py.ltb Py.zero r = true.
Proof.
  destruct (offline_mode_converts_all UI.main Cache.Missing Online.init 2 1
              Sample.now "100" (Py.lit "100"))
    as (r & H1 & H2 & _); try reflexivity; try lia.
  exists r. split; [exact H1 | exact H2].
Defined.

(** *** [float] reads what the window writes *)

Section Reading.

Implicit Types (c : ascii) (s r : list ascii).

Lemma digit_cases c :
  Py.is_digit c = true ->
  In c ["0"; "1"; "2"; "3"; "4"; "5"; "6"; "7"; "8"; "9"]%char.
Proof.
  destruct c as [[] [] [] [] [] [] [] []]; intros H;
    try (vm_compute in H; discriminate H); simpl; tauto.
Qed.

(** What the grammar of [float] needs to know of a digit. *)
Lemma digit_facts c :
  Py.is_digit c = true ->
  Py.is_space c = false
  /\ Py.lower c = c
  /\ c <> "i"%char /\ c <> "n"%char /\ c <> "."%char.
Proof.
  intros H. apply digit_cases in H. simpl in H.
  repeat (destruct H as [<-|H]; [repeat split; discriminate|]).
  contradiction.
Qed.

Lemma sign_digit c s : Py.is_digit c = true -> Py.sign (c :: s) = (false, c :: s).
Proof.
  intros H. apply digit_cases in H. simpl in H.
  repeat (destruct H as [<-|H]; [reflexivity|]). contradiction.
Qed.

Lemma lstrip_digit c s : Py.is_digit c = true -> Py.lstrip (c :: s) = c :: s.
Proof.
  intros H. simpl. now rewrite (proj1 (digit_facts c H)).
Qed.

(** No white space is stripped from a text that starts and ends with a
    digit. *)
Lemma strip_digits c s c' :
  Py.is_digit c = true -> Py.is_digit c' = true ->
  last (c :: s) = Some c' ->
  Py.strip (c :: s) = c :: s.
Proof.
  intros Hc Hc' Hl. unfold Py.strip. rewrite (lstrip_digit c s Hc).
  destruct (proj1 (last_Some _ _) Hl) as (l' & E). rewrite E.
  rewrite rev_app_distr. cbn [rev app].
  rewrite (lstrip_digit c' _ Hc'). cbn [rev]. now rewrite rev_involutive.
Qed.

Lemma digits_tail_digits ds : forall acc n r,
  Text.all_digits ds -> Text.stops r ->
  exists m, Py.digits_tail acc n (ds ++ r) = (m, n + Z.of_nat (length ds), r).
Proof.
  induction ds as [|d ds IH]; intros acc n r Hd Hr.
  - exists acc. cbn [app length]. rewrite Z.add_0_r.
    destruct r as [|c r]; [reflexivity|]. destruct Hr as [H1 H2].
    cbn [Py.digits_tail]. now rewrite H1, H2.
  - apply Forall_cons in Hd as [Hd Hds].
    destruct (IH (10 * acc + Z.of_nat (Py.digit_val d)) (n + 1) r Hds Hr) as [m Hm].
    exists m. cbn [app Py.digits_tail]. rewrite Hd, Hm. f_equal. f_equal.
    cbn [length]. lia.
Qed.

Lemma digitpart_digits d ds acc r :
  Text.all_digits (d :: ds) -> Text.stops r ->
  exists m, Py.digitpart acc ((d :: ds) ++ r) = Some (m, 1 + Z.of_nat (length ds), r).
Proof.
  intros Hd Hr. apply Forall_cons in Hd as [Hd Hds].
  destruct (digits_tail_digits ds (10 * acc + Z.of_nat (Py.digit_val d)) 1 r Hds Hr)
    as [m Hm].
  exists m. cbn [app Py.digitpart]. now rewrite Hd, Hm.
Qed.

(** Digits, and digits after a point when there are any, are a decimal
    number. *)
Lemma decimal_fixed (whole frac : list ascii) :
  Text.all_digits whole -> whole <> [] -> Text.all_digits frac ->
  exists m e,
    Py.decimal (whole ++ match frac with [] => [] | _ :: _ => "."%char :: frac end)
    = Some (m, e).
Proof.
  intros Hw Hne Hf. destruct whole as [|d ds]; [congruence|]. clear Hne.
  unfold Py.decimal. destruct frac as [|f fs].
  - destruct (digitpart_digits d ds 0 [] Hw I) as [m1 H1]. rewrite H1.
    destruct (1 + Z.of_nat (length ds) + 0 =? 0) eqn:E; [apply Z.eqb_eq in E; lia|].
    eauto.
  - destruct (digitpart_digits d ds 0 ("."%char :: f :: fs) Hw) as [m1 H1];
      [split; reflexivity|].
    rewrite H1.
    destruct (digitpart_digits f fs m1 [] Hf I) as [m2 H2].
    rewrite app_nil_r in H2. rewrite H2.
    destruct (1 + Z.of_nat (length ds) + (1 + Z.of_nat (length fs)) =? 0) eqn:E;
      [apply Z.eqb_eq in E; lia|].
    eauto.
Qed.

Lemma last_app_digit (s r : list ascii) :
  Text.all_digits (s ++ r) -> s ++ r <> [] ->
  exists c, last (s ++ r) = Some c /\ Py.is_digit c = true.
Proof.
  intros H Hne. destruct (last (s ++ r)) as [c|] eqn:E.
  - exists c. split; [reflexivity|].
    apply last_Some in E as (l' & E). rewrite E in H.
    apply Forall_app in H as [_ H]. now apply Forall_cons in H as [H _].
  - apply last_None in E. contradiction.
Qed.

(** [float] reads digits, with or without a fraction, as a number that
    is not negative. *)
Lemma float_of_fixed (whole frac : list ascii) :
  Text.all_digits whole -> whole <> [] -> Text.all_digits frac ->
  exists y,
    Py.float_of_chars
      (whole ++ match frac with [] => [] | _ :: _ => "."%char :: frac end)
    = Some y
    /\ Py.ltb y Py.zero = false.
Proof.
  intros Hw Hne Hf.
  destruct (decimal_fixed whole frac Hw Hne Hf) as (m & e & Hd).
  set (text := whole ++ _) in *.
  assert (Ht : exists c r c', text = c :: r /\ Py.is_digit c = true
                              /\ last text = Some c' /\ Py.is_digit c' = true).
  { destruct whole as [|c w]; [congruence|]. pose proof Hw as Hw'.
    apply Forall_cons in Hw' as [Hc _].
    assert (Hl : exists c', last text = Some c' /\ Py.is_digit c' = true).
    { unfold text. destruct frac as [|f fs].
      - rewrite app_nil_r. rewrite <- (app_nil_r (c :: w)).
        apply last_app_digit; [now rewrite app_nil_r | now rewrite app_nil_r].
      - change ("."%char :: f :: fs) with (["."%char] ++ (f :: fs)).
        rewrite app_assoc.
        destruct (last_app_digit [] (f :: fs) Hf ltac:(discriminate)) as (c' & H1 & H2).
        exists c'. split; [|exact H2].
        rewrite last_app. cbn [app] in H1. now rewrite H1. }
    destruct Hl as (c' & H1 & H2). exists c, (tl text), c'.
    split; [reflexivity|]. auto. }
  destruct Ht as (c & r & c' & Et & Hc & Hl & Hc').
  exists (Py.of_decimal m e). split; [|apply of_decimal_not_negative].
  unfold Py.float_of_chars. rewrite Et in *.
  rewrite (strip_digits c r c' Hc Hc' Hl), (sign_digit c r Hc).
  destruct (digit_facts c Hc) as (_ & Hlow & Hi & Hn & _).
  cbn [map]. rewrite Hlow.
  rewrite !bool_decide_eq_false_2; [|intros [= ?]; congruence ..].
  cbn [orb]. now rewrite Hd.
Qed.

End Reading.

Section Writing.

Implicit Types (c : ascii) (s : list ascii).

Lemma string_of_uint_digits (u : Decimal.uint) :
  Text.all_digits (list_ascii_of_string (NilEmpty.string_of_uint u)).
Proof.
  induction u; cbn [NilEmpty.string_of_uint list_ascii_of_string];
    [constructor | constructor; [reflexivity | assumption] ..].
Qed.

Lemma digits_all n : Text.all_digits (Text.digits n).
Proof.
  unfold Text.digits, NilZero.string_of_uint.
  destruct (N.to_uint (Z.to_N n)) eqn:E;
    [repeat constructor | rewrite <- E; apply string_of_uint_digits ..].
Qed.

Lemma digits_not_empty n : Text.digits n <> [].
Proof.
  unfold Text.digits, NilZero.string_of_uint.
  now destruct (N.to_uint (Z.to_N n)).
Qed.

Lemma fixed_digits_all width : forall n, Text.all_digits (Text.fixed_digits width n).
Proof.
  induction width as [|w IH]; intros n; cbn [Text.fixed_digits]; [constructor|].
  apply Forall_app. split; [apply IH|].
  constructor; [apply digit_char_digit | constructor].
Qed.

Lemma rstrip_snoc c s x :
  Text.rstrip c (s ++ [x]) = if Ascii.eqb x c then Text.rstrip c s else s ++ [x].
Proof.
  unfold Text.rstrip. rewrite rev_app_distr. cbn [rev app Text.lstrip_char].
  destruct (Ascii.eqb x c); [reflexivity|].
  cbn [rev]. now rewrite rev_involutive.
Qed.

(** Stripping the zeros of a fraction stops at the point at the latest. *)
Lemma rstrip_zeros (whole frac : list ascii) :
  Text.all_digits frac ->
  exists frac',
    Text.all_digits frac'
    /\ Text.rstrip "0" (whole ++ "."%char :: frac) = whole ++ "."%char :: frac'.
Proof.
  induction frac as [|x frac IH] using rev_ind; intros Hf.
  - exists []. split; [constructor|]. now rewrite rstrip_snoc.
  - apply Forall_app in Hf as [Hf Hx].
    change (whole ++ "."%char :: frac ++ [x]) with (whole ++ ("."%char :: frac) ++ [x]).
    rewrite app_assoc, rstrip_snoc.
    destruct (Ascii.eqb x "0"); [now apply IH|].
    exists (frac ++ [x]). split; [now apply Forall_app|].
    now rewrite <- app_assoc.
Qed.

Lemma rstrip_point_digit s x :
  Py.is_digit x = true -> Text.rstrip "." (s ++ [x]) = s ++ [x].
Proof.
  intros H. rewrite rstrip_snoc.
  destruct (Ascii.eqb_spec x "."); [|reflexivity].
  subst x. discriminate H.
Qed.

(** The text of a number without its sign, after the two strips: the
    whole part, and a fraction when one is left. *)
Lemma rstrip_fixed (whole frac : list ascii) :
  Text.all_digits whole -> whole <> [] -> Text.all_digits frac ->
  exists frac',
    Text.all_digits frac'
    /\ Text.rstrip "." (Text.rstrip "0" (whole ++ "."%char :: frac))
       = whole ++ match frac' with [] => [] | _ :: _ => "."%char :: frac' end.
Proof.
  intros Hw Hne Hf. destruct (rstrip_zeros whole frac Hf) as (frac' & Hf' & ->).
  exists frac'. split; [exact Hf'|].
  destruct frac' as [|x frac'] using rev_ind.
  - rewrite rstrip_snoc. cbn [Ascii.eqb Bool.eqb]. rewrite app_nil_r.
    destruct whole as [|d w] using rev_ind; [congruence|].
    apply Forall_app in Hw as [_ Hd]. apply Forall_cons in Hd as [Hd _].
    now apply rstrip_point_digit.
  - clear IHfrac'. apply Forall_app in Hf' as [_ Hx].
    apply Forall_cons in Hx as [Hx _].
    change (whole ++ "."%char :: frac' ++ [x])
      with (whole ++ ("."%char :: frac') ++ [x]).
    rewrite app_assoc, rstrip_point_digit by assumption.
    rewrite <- app_assoc. destruct frac'; reflexivity.
Qed.

Lemma chr_byte c : Unicode.chr (Unicode.byte c) = c.
Proof.
  unfold Unicode.chr, Unicode.byte. now rewrite Nat2Z.id, ascii_nat_embedding.
Qed.

(** An ASCII text is read as it stands. *)
Lemma float_of_ascii s :
  Forall (fun c => Unicode.byte c < 128) s ->
  Py.float_of_str (string_of_list_ascii s) = Py.float_of_chars s.
Proof.
  intros H. unfold Py.float_of_str.
  rewrite list_ascii_of_string_of_list_ascii.
  rewrite <- (app_nil_r s) at 1. rewrite (decode_app_ascii s [] H).
  cbn [Unicode.decode fmap option_fmap option_map]. rewrite app_nil_r.
  unfold Py.to_ascii.
  assert (Ha : Unicode.isascii (map Unicode.byte s) = true).
  { unfold Unicode.isascii. apply forallb_forall. intros n Hn.
    apply in_map_iff in Hn as (c & <- & Hc). apply Z.ltb_lt.
    rewrite Forall_forall in H. apply H. now apply list_elem_of_In. }
  rewrite Ha, map_map. f_equal.
  rewrite <- (map_id s) at 2. apply map_ext. intros c. apply chr_byte.
Qed.

Lemma digit_byte c : Py.is_digit c = true -> Unicode.byte c < 128.
Proof.
  intros H. apply digit_cases in H. simpl in H.
  repeat (destruct H as [<-|H]; [vm_compute; reflexivity|]). contradiction.
Qed.

Lemma fixed_ascii (whole frac : list ascii) :
  Text.all_digits whole -> Text.all_digits frac ->
  Forall (fun c => Unicode.byte c < 128)
    (whole ++ match frac with [] => [] | _ :: _ => "."%char :: frac end).
Proof.
  intros Hw Hf.
  assert (Hd : forall l, Text.all_digits l -> Forall (fun c => Unicode.byte c < 128) l).
  { intros l Hl. eapply Forall_impl; [exact Hl|]. intros c. apply digit_byte. }
  apply Forall_app. split; [now apply Hd|].
  destruct frac as [|x frac]; [constructor|].
  constructor; [vm_compute; reflexivity | now apply Hd].
Qed.

(** [float] reads what [update_conversion] writes for a number that is
    not negative, and reads a number that is not negative. *)
Lemma amount_text_read (x : spec_float) :
  Py.ltb x Py.zero = false ->
  exists y, Py.float_of_str (UI.amount_text x) = Some y /\ Py.ltb y Py.zero = false.
Proof.
  intros Hx. unfold UI.amount_text.
  destruct x as [s|s| |s m e].
  - exists Py.zero. now destruct s.
  - destruct s; [discriminate Hx|]. exists Py.inf. split; reflexivity.
  - exists Py.nan. split; reflexivity.
  - destruct s; [discriminate Hx|].
    change (Py.neqb (S754_finite false m e) Py.zero) with true. cbv iota.
    unfold Text.format_fixed, Text.minus, Text.fixed. cbn [app].
    set (q := Text.scaled 6 m e).
    destruct (rstrip_fixed (Text.digits (q / 10 ^ Z.of_nat 6))
                (Text.fixed_digits 6 (q mod 10 ^ Z.of_nat 6))
                (digits_all _) (digits_not_empty _) (fixed_digits_all _ _))
      as (frac' & Hf' & ->).
    rewrite float_of_ascii by (apply fixed_ascii; [apply digits_all | exact Hf']).
    apply float_of_fixed; [apply digits_all | apply digits_not_empty | exact Hf'].
Qed.

End Writing.

(** X14: a result of [convert], written as [update_conversion] writes it
    into an amount field, is an amount that [convert] accepts: [float]
    reads it as a number that is not negative, so neither of the two
    errors about the amount is returned for it. *)
Theorem shown_result_is_amount (c c' : Converter.t) (now : Datetime.t)
    (text x y : string) (v : spec_float) (err : option Converter.error) :
  Converter.convert c now text x y = ((Some v, err), c') ->
  (exists a, Py.float_of_str (UI.amount_text v) = Some a /\ Py.ltb a Py.zero = false)
  /\ forall (c2 : Converter.t) (now2 : Datetime.t) (x2 y2 : string),
       snd (fst (Converter.convert c2 now2 (UI.amount_text v) x2 y2))
       <> Some Converter.InvalidAmount
       /\ snd (fst (Converter.convert c2 now2 (UI.amount_text v) x2 y2))
          <> Some Converter.NegativeAmount.
Proof.
  intros H.
  assert (Hv : Py.ltb v Py.zero = false).
  { unfold Converter.convert in H.
    destruct (Py.float_of_str text) as [a|]; [|discriminate].
    destruct (Py.ltb a Py.zero) eqn:Ha; [discriminate|].
    destruct (Converter.get_exchange_rate c _ _) as [r|]; [|discriminate].
    destruct (Py.leb r Py.zero) eqn:Hr; [discriminate|].
    injection H as <- _ _. now apply mul_not_negative. }
  destruct (amount_text_read v Hv) as (a & Ha & Hpos).
  split; [eauto|].
  intros c2 now2 x2 y2. unfold Converter.convert. rewrite Ha, Hpos.
  destruct (Converter.get_exchange_rate c2 x2 y2) as [r|]; [|split; discriminate].
  destruct (Py.leb r Py.zero); split; discriminate.
Qed.

Lemma shown_result_is_amount_witness :
  exists a, Py.float_of_str (UI.amount_text (Py.lit "85")) = Some a
            /\ Py.ltb a Py.zero = false.
Proof.
  apply (proj1 (shown_result_is_amount Sample.converter
                  (snd (Converter.convert Sample.converter Sample.now "100" "USD" "EUR"))
                  Sample.now "100" "USD" "EUR" (Py.lit "85") None
                  ltac:(vm_compute; reflexivity))).
Defined.

(** *** What a handler leaves behind *)

(** X15: when [convert] returns a result, [update_conversion] writes it
    into the other amount field and leaves the typed one, and the line of
    the new record is the first line of the history panel. *)
Theorem newest_on_top (self : UI.t) (now : Datetime.t) (d : UI.direction)
    (v : spec_float) (err : option Converter.error) (c : Converter.t) :
  UI.conversion self now d = ((Some v, err), c) ->
  let self' := UI.update_conversion self now d in
  UI.converter self' = c
  /\ (exists e,
        last (History.get_history (Converter.history_manager c)) = Some e
        /\ History.result e = v
        /\ head (UI.history_text self') = Some (UI.history_line e))
  /\ match d with
     | UI.Forward =>
         UI.amount1_var self' = UI.amount1_var self
         /\ UI.amount2_var self' = UI.amount_text v
     | UI.Backward =>
         UI.amount2_var self' = UI.amount2_var self
         /\ UI.amount1_var self' = UI.amount_text v
     end.
Proof.
  intros H. cbv zeta.
  destruct (conversion_cases self now d) as [(err' & E) | (e & E)];
    rewrite E in H; [discriminate H|].
  injection H as <- <- <-.
  destruct (update_conversion_result self now d e _ E) as [rate ->].
  set (c := Converter.mk _ _).
  assert (Hh : History.get_history (Converter.history_manager c)
               = (if (50 <=? length (History.history_list
                                       (Converter.history_manager (UI.converter self))))%nat
                  then tail (History.history_list
                               (Converter.history_manager (UI.converter self)))
                  else History.history_list
                         (Converter.history_manager (UI.converter self))) ++ [e])
    by apply save_entry_snoc.
  split; [|split].
  - now destruct (Py.ltb Py.zero rate), d.
  - exists e. split; [rewrite Hh; apply last_snoc|]. split; [reflexivity|].
    assert (Ht : forall s, UI.converter s = c ->
                   head (UI.history_text (UI.update_history_display s))
                   = Some (UI.history_line e)).
    { intros s Hs. unfold UI.update_history_display, UI.panel.
      cbn [UI.history_text UI.set_history_text]. rewrite Hs, Hh. apply head_panel. }
    apply Ht. now destruct (Py.ltb Py.zero rate), d.
  - now destruct (Py.ltb Py.zero rate), d.
Qed.

Lemma newest_on_top_witness :
  UI.amount2_var
    (UI.update_conversion (UI.init Sample.converter) Sample.now UI.Forward)
  = "0.022973"%string.
Proof.
  destruct (newest_on_top (UI.init Sample.converter) Sample.now UI.Forward
              (Py.mul (Py.lit "1") (Py.div (Py.lit "0.85") (Py.lit "37.0"))) None
              (snd (UI.conversion (UI.init Sample.converter) Sample.now UI.Forward))
              ltac:(vm_compute; reflexivity))
    as (_ & _ & _ & H).
  rewrite H. vm_compute. reflexivity.
Defined.

(** X16: a refresh whose request fails and whose cache file holds a table
    and a time stamp reports that the rates were updated, shows the time
    of the file, and keeps the history and the file. *)
Theorem refresh_from_cache (self : UI.t) (p : Online.t) (now t : Datetime.t)
    (net : Http.result) (w : Cache.write) (d : Cache.document) (r : table) :
  Converter.exchange_rate_provider (UI.converter self) = OnlineRateProvider p ->
  Online.fetched net = None ->
  Cache.rates d = Some r ->
  r ≠ ∅ ->
  Cache.last_update d = Some (Datetime.strftime_iso t) ->
  Datetime.clock t = true ->
  let '(self', f') := UI.refresh_rates self now net w (Cache.Json d) in
  UI.status_label self' = UI.RatesUpdated
  /\ UI.update_label self' = UI.LastUpdate (Datetime.strftime_dmy t)
  /\ get_all_rates (Converter.exchange_rate_provider (UI.converter self')) = r
  /\ Converter.history_manager (UI.converter self')
     = Converter.history_manager (UI.converter self)
  /\ f' = Cache.Json d.
Proof.
  intros Hp Hnet Hr Hne Ht Hc.
  unfold UI.refresh_rates. rewrite Hp.
  rewrite (fetch_falls_back p now net w _ Hnet), load_cache_json.
  cbv zeta. rewrite Hr, Ht. unfold default. cbn [from_option id].
  rewrite (bool_decide_eq_false_2 _ (strftime_not_empty t)).
  rewrite (strptime_strftime t Hc).
  rewrite (bool_decide_eq_false_2 _ Hne).
  cbn [negb fst snd Online.last_update]. repeat split.
Qed.

Lemma refresh_from_cache_witness :
  UI.status_label
    (fst (UI.refresh_rates UI.main Sample.now Http.Raises Cache.OpenFails Sample.cache))
  = UI.RatesUpdated.
Proof.
  pose proof (refresh_from_cache UI.main Online.init Sample.now Sample.now Http.Raises
                Cache.OpenFails (Online.cache_data Sample.online) Sample.rates) as H.
  change (Cache.Json (Online.cache_data Sample.online)) with Sample.cache in H.
  destruct (UI.refresh_rates UI.main Sample.now Http.Raises Cache.OpenFails Sample.cache)
    as [self' f'].
  apply H; try reflexivity.
  apply (holds_not_empty _ "USD" (Py.lit "1")). vm_compute. reflexivity.
Defined.

(** X17: switching to the offline mode and back leaves an online provider
    without rates and the history as it was: until a refresh ends, no
    amount is converted, not even into the same currency. *)
Theorem back_online_without_rates (self : UI.t) (p : Online.t) (f f' : Cache.file) :
  Converter.exchange_rate_provider (UI.converter self) = OnlineRateProvider p ->
  let self' := UI.toggle_offline_mode (UI.toggle_offline_mode self f) f' in
  Converter.exchange_rate_provider (UI.converter self') = OnlineRateProvider Online.init
  /\ Converter.history_manager (UI.converter self')
     = Converter.history_manager (UI.converter self)
  /\ forall (now : Datetime.t) (text x y : string),
       fst (fst (Converter.convert (UI.converter self') now text x y)) = None
       /\ snd (Converter.convert (UI.converter self') now text x y) = UI.converter self'.
Proof.
  intros Hp. cbv zeta.
  assert (E : UI.converter (UI.toggle_offline_mode (UI.toggle_offline_mode self f) f')
              = Converter.mk (OnlineRateProvider Online.init)
                  (Converter.history_manager (UI.converter self))).
  { unfold UI.toggle_offline_mode. rewrite Hp. reflexivity. }
  rewrite E. split; [reflexivity|]. split; [reflexivity|].
  intros now text x y. unfold Converter.convert.
  destruct (Py.float_of_str text) as [a|]; [|split; reflexivity].
  destruct (Py.ltb a Py.zero); split; reflexivity.
Qed.

Lemma back_online_without_rates_witness :
  Converter.exchange_rate_provider
    (UI.converter
       (UI.toggle_offline_mode
          (UI.toggle_offline_mode (UI.init Sample.converter) Sample.cache) Sample.cache))
  = OnlineRateProvider Online.init.
Proof.
  apply (proj1 (back_online_without_rates (UI.init Sample.converter) Sample.online
                  Sample.cache Sample.cache eq_refl)).
Defined.

(** *** The texts at work *)

Section Texts_at_work.

Example format_fixed_texts :
  map (fun '(p, x) => string_of_list_ascii (Text.format_fixed p (Py.lit x)))
    [ (2%nat, "0.125"); (2%nat, "0.375"); (2%nat, "2.675"); (4%nat, "0.99995");
      (6%nat, "-0.0"); (2%nat, "1e22"); (2%nat, "5e-324"); (6%nat, "nan");
      (2%nat, "-inf") ]%string
  = [ "0.12"; "0.38"; "2.67"; "1.0000"; "-0.000000";
      "10000000000000000000000.00"; "0.00"; "nan"; "-inf" ]%string.
Proof. vm_compute. reflexivity. Qed.

Example amount_texts :
  map (fun x => UI.amount_text (Py.lit x))
    [ "110"; "31.45"; "1e-7"; "-0.0"; "0.0229729729"; "inf" ]%string
  = [ "110"; "31.45"; "0"; "0"; "0.022973"; "inf" ]%string.
Proof. vm_compute. reflexivity. Qed.

Example selected_codes :
  map UI.get_selected_currency_code UI.currency_list = map fst currencies.
Proof. vm_compute. reflexivity. Qed.

Example rate_text_names :
  UI.rate_text "UAH" "EUR" (Py.lit "0.0229")
  = "1 Українська гривня = 0.0229 Євро"%string.
Proof. vm_compute. reflexivity. Qed.

Example history_line_text :
  UI.history_line (Sample.record 3)
  = ("05.01.2024 03:04 | 3.00 USD → 2.5500 EUR (курс: 0.8500)"
     +:+ String "010" EmptyString)%string.
Proof. vm_compute. reflexivity. Qed.

End Texts_at_work.
